(** * crawl.py: a shallow embedding and its verified properties

    The crawler of [src/crawl.py] walks the categories of a remote API,
    pages through each category, and mirrors every item to a directory tree.
    This file embeds the program function by function and proves the
    properties its specification states about it.

    Conventions.
    - A Python [str] is the list of its code points ([pystr]); a [bytes]
      object is a list of [Byte.byte].
    - The file system is a finite map from paths to nodes; a path names a
      node by its spelling (no normalisation, no links). Standard output,
      standard error and the network requests are recorded in a trace, and
      so is every entry into [pdf_to_txt].
    - Effectful functions live in a state-and-exception monad [M]; the one
      loop of the program that need not terminate ([iter_prayers]) takes
      fuel, and running out of it is the outcome [Diverge].
    - Library functions the program calls but does not define (Unicode
      lower-casing, [os.makedirs], [urlparse], [json], the PDF reader, ...)
      and the network are fields of the record [PyEnv], over which the
      program is parametrised. Writing to an open file, removing a file
      just written and printing are taken to succeed. *)

From Stdlib Require Import ZArith NArith List Ascii String Bool Lia.
From Stdlib Require Import DecimalString Decimal DecimalNat.
From Equations Require Import Equations.
From stdpp Require Import base option list gmap sets.

Import ListNotations.
Local Open Scope list_scope.

(** ** Python strings *)

Definition char := N.
Definition pystr := list char.

(** A string literal of the source, as code points. *)
Definition py (s : string) : pystr :=
  List.map N_of_ascii (list_ascii_of_string s).

(** Truthiness of a string: [if raw], [name or ...]. *)
Definition str_truthy (s : pystr) : bool :=
  match s with [] => false | _ => true end.

(** [c in chars] on a list of one-character strings. *)
Definition char_in (c : char) (chars : pystr) : bool :=
  existsb (N.eqb c) chars.

(** The code points [str.strip()] removes: those for which
    [str.isspace] holds. *)
Definition is_space (c : char) : bool :=
  (((9 <=? c) && (c <=? 13)) || ((28 <=? c) && (c <=? 32))
   || (c =? 133) || (c =? 160) || (c =? 5760)
   || ((8192 <=? c) && (c <=? 8202))
   || (c =? 8232) || (c =? 8233) || (c =? 8239) || (c =? 8287)
   || (c =? 12288))%N.

Fixpoint lstrip (p : char -> bool) (s : pystr) : pystr :=
  match s with
  | c :: r => if p c then lstrip p r else s
  | [] => []
  end.

Definition rstrip (p : char -> bool) (s : pystr) : pystr :=
  reverse (lstrip p (reverse s)).

(** [s.strip()] and [s.strip(chars)]. *)
Definition strip_with (p : char -> bool) (s : pystr) : pystr :=
  rstrip p (lstrip p s).

Definition strip (s : pystr) : pystr := strip_with is_space s.

Definition strip_chars (chars : pystr) (s : pystr) : pystr :=
  strip_with (fun c => char_in c chars) s.

(** [a + b in s] for a two-character pattern. *)
Fixpoint contains2 (a b : char) (s : pystr) : bool :=
  match s with
  | x :: r =>
      match r with
      | y :: _ => ((x =? a) && (y =? b))%N || contains2 a b r
      | [] => false
      end
  | [] => false
  end.

(** [s.replace(a + b, new)]: non-overlapping occurrences, left to right. *)
Fixpoint replace2 (a b : char) (new : pystr) (s : pystr) : pystr :=
  match s with
  | x :: r =>
      match r with
      | y :: r' =>
          if ((x =? a) && (y =? b))%N then new ++ replace2 a b new r'
          else x :: replace2 a b new r
      | [] => [x]
      end
  | [] => []
  end.

(** [needle in s] for an arbitrary needle. *)
Fixpoint starts_with {A} (eqb : A -> A -> bool) (pre s : list A) : bool :=
  match pre, s with
  | [], _ => true
  | p :: pre', c :: s' => eqb p c && starts_with eqb pre' s'
  | _ :: _, [] => false
  end.

Fixpoint contains (needle s : pystr) : bool :=
  starts_with N.eqb needle s
  || match s with
     | _ :: r => contains needle r
     | [] => false
     end.

(** ** [sanitize_name] *)

Definition SPACE : char := 32%N.
Definition DOT : char := 46%N.
Definition DASH : char := 45%N.
Definition SLASH : char := 47%N.

(** [bad_chars]: slash, backslash, colon, star, question mark, double
    quote, less-than, greater-than, bar. *)
Definition bad_chars : pystr :=
  [47; 92; 58; 42; 63; 34; 60; 62; 124]%N.

(** The loop [while "  " in name: name = name.replace("  ", " ")]. Every
    round shortens the string, which is why the loop ends. *)
Lemma replace2_length_le (a b c : char) (s : pystr) :
  (length (replace2 a b [c] s) <= length s)%nat.
Proof.
  remember (length s) as n eqn:Hn.
  assert (Hb : (length s <= n)%nat) by lia. clear Hn.
  revert s Hb. induction n as [|n IH]; intros [|x [|y r']] Hb;
    simpl in *; try lia.
  destruct ((x =? a) && (y =? b))%N; simpl.
  - specialize (IH r'). lia.
  - specialize (IH (y :: r')). simpl in IH. lia.
Qed.

Lemma replace2_shorter (a b c : char) (s : pystr) :
  contains2 a b s = true ->
  (length (replace2 a b [c] s) < length s)%nat.
Proof.
  induction s as [|x r IH]; simpl; [discriminate|].
  destruct r as [|y r']; [discriminate|].
  destruct ((x =? a) && (y =? b))%N eqn:E; simpl.
  - intros _. pose proof (replace2_length_le a b c r'). lia.
  - intros H. specialize (IH H). simpl in IH. lia.
Qed.

Equations? collapse_spaces (name : pystr) : pystr by wf (length name) lt :=
  collapse_spaces name with bool_dec (contains2 SPACE SPACE name) true := {
    | left H => collapse_spaces (replace2 SPACE SPACE [SPACE] name)
    | right _ => name
  }.
Proof. now apply replace2_shorter. Qed.

Definition sanitize_name (raw : pystr) : pystr :=
  if negb (str_truthy raw) then py "Untitled"
  else
    let name := List.map (fun c => if char_in c bad_chars then DASH else c) raw in
    let name := strip_chars [DOT] (strip name) in
    let name := collapse_spaces name in
    if str_truthy name then name else py "Untitled".

(** ** Numbers as text *)

(** [str(n)] for a natural number, and [str(z)] for an integer. *)
Definition str_of_nat (n : nat) : pystr :=
  py (NilEmpty.string_of_uint (Nat.to_uint n)).

Definition str_of_Z (z : Z) : pystr :=
  if (z <? 0)%Z then DASH :: str_of_nat (Z.to_nat (- z))
  else str_of_nat (Z.to_nat z).

(** [f"{index:02d}"]. *)
Definition format_02d (n : nat) : pystr :=
  if (n <? 10)%nat then py "0" ++ str_of_nat n else str_of_nat n.

(** ** Paths: the parts of [os.path] (POSIX flavour) the program uses *)

Fixpoint rfind_aux (c : char) (s : pystr) (i found : Z) : Z :=
  match s with
  | [] => found
  | x :: r => rfind_aux c r (i + 1) (if (x =? c)%N then i else found)
  end.

(** [s.rfind(c)]: the index of the last [c], or [-1]. *)
Definition rfind (c : char) (s : pystr) : Z := rfind_aux c s 0 (-1).

(** [s[i:j]] for [0 <= i <= j]. *)
Definition slice (s : pystr) (i j : Z) : pystr :=
  take (Z.to_nat (j - i)) (drop (Z.to_nat i) s).

Definition all_sep (s : pystr) : bool := forallb (N.eqb SLASH) s.

(** [os.path.split]. *)
Definition path_split (p : pystr) : pystr * pystr :=
  let i := Z.to_nat (rfind SLASH p + 1) in
  let head := take i p in
  let tail := drop i p in
  let head :=
    if str_truthy head && negb (all_sep head)
    then rstrip (N.eqb SLASH) head else head in
  (head, tail).

Definition dirname (p : pystr) : pystr := fst (path_split p).
Definition basename (p : pystr) : pystr := snd (path_split p).

(** [os.path.join(a, b)]. *)
Definition path_join (a b : pystr) : pystr :=
  if starts_with N.eqb [SLASH] b then b
  else if negb (str_truthy a) || (match last a with Some c => (c =? SLASH)%N | None => false end)
       then a ++ b
       else a ++ SLASH :: b.

(** [os.path.splitext]: the extension starts at the last dot of the last
    component, unless only dots precede it there. *)
Definition splitext (p : pystr) : pystr * pystr :=
  let sepIndex := rfind SLASH p in
  let dotIndex := rfind DOT p in
  if (dotIndex >? sepIndex)%Z
     && existsb (fun c => negb (c =? DOT)%N) (slice p (sepIndex + 1) dotIndex)
  then (take (Z.to_nat dotIndex) p, drop (Z.to_nat dotIndex) p)
  else (p, []).

(** ** Python values *)

(** A float, as far as the program can tell floats apart. *)
Inductive pyfloat :=
| FFinite (num : Z) (den : positive)
| FInf (negative : bool)
| FNaN.

(** The values [json.loads] and [ast.literal_eval] produce. A dictionary
    keeps its items in insertion order, at most one per key. *)
#[warnings="-register-all"]
Inductive pyval :=
| VNone
| VBool (b : bool)
| VInt (z : Z)
| VFloat (f : pyfloat)
| VStr (s : pystr)
| VList (l : list pyval)
| VDict (d : list (pyval * pyval)).

Definition pystr_eqb (a b : pystr) : bool := bool_decide (a = b).

(** [bool(v)]. *)
Definition py_truthy (v : pyval) : bool :=
  match v with
  | VNone => false
  | VBool b => b
  | VInt z => negb (z =? 0)%Z
  | VFloat (FFinite n _) => negb (n =? 0)%Z
  | VFloat _ => true
  | VStr s => str_truthy s
  | VList l => match l with [] => false | _ => true end
  | VDict d => match d with [] => false | _ => true end
  end.

(** [a or b]. *)
Definition py_or (a b : pyval) : pyval := if py_truthy a then a else b.

(** [d.get(key)] for a string key; [None] when the key is absent. *)
Fixpoint dict_find (key : pystr) (d : list (pyval * pyval)) : option pyval :=
  match d with
  | [] => None
  | (VStr k, v) :: r => if pystr_eqb k key then Some v else dict_find key r
  | _ :: r => dict_find key r
  end.

Definition dict_get (key : pystr) (d : list (pyval * pyval)) (default : pyval) : pyval :=
  match dict_find key d with Some v => v | None => default end.

(** [isinstance(v, int)], with the integer it stands for: a [bool] is an
    [int] in Python, and [True == 1]. *)
Definition as_int (v : pyval) : option Z :=
  match v with
  | VInt z => Some z
  | VBool b => Some (if b then 1 else 0)%Z
  | _ => None
  end.

(** [isinstance(v, dict)]. *)
Definition is_dict (v : pyval) : bool :=
  match v with VDict _ => true | _ => false end.

(** What [for x in v] visits; [None] when [v] is not iterable. *)
Definition py_iter (v : pyval) : option (list pyval) :=
  match v with
  | VList l => Some l
  | VStr s => Some (List.map (fun c => VStr [c]) s)
  | VDict d => Some (List.map fst d)
  | _ => None
  end.

(** ** Exceptions and outcomes *)

Inductive exc :=
| OSError
| ConnectionError
| HTTPError (status : Z)
| URLError
| ValueError
| TypeError
| OverflowError
| AttributeError
| NameError (name : string)
| RuntimeError (msg : pystr)
| UnicodeEncodeError
| SystemExit (code : Z).

(** [except Exception] catches everything but [SystemExit]. *)
Definition is_Exception (e : exc) : bool :=
  match e with SystemExit _ => false | _ => true end.

Inductive outcome (A : Type) :=
| Ret (a : A)
| Raise (e : exc)
| Diverge.
Arguments Ret {A} a.
Arguments Raise {A} e.
Arguments Diverge {A}.

(** ** The world: file system and trace *)

Inductive node :=
| File (content : list Byte.byte)
| Dir (st_size : Z).

Inductive event :=
| EvRequest (url : pystr)
| EvStdout (line : pystr)
| EvStderr (line : pystr)
| EvCall (fn : string).

Record world := World {
  fs : gmap pystr node;
  trace : list event
}.

(** One HTTP exchange, as the client sees it. *)
Record response := Response {
  rs_error : bool;                      (* the transport failed *)
  rs_status : Z;
  rs_content_type : option pystr;
  rs_body : list (list Byte.byte);      (* the chunks, as delivered *)
  rs_body_error : bool                  (* the stream breaks after them *)
}.

(** The two streams the program prints to. A stream takes a line or
    refuses it, as [sys.stdout] refuses text its encoding cannot express:
    [print] then raises [UnicodeEncodeError] and nothing has been written. *)
Inductive stream :=
| Stdout
| Stderr.

Class Console := {
  accepts : stream -> pystr -> bool
}.

(** Streams that take every line. A statement that names no console is
    about this one; the statements about refused lines take a console as
    a parameter. *)
#[export] Instance plain : Console := {|
  accepts := fun _ _ => true
|}.

(** What the program takes from its environment and its libraries. The
    request headers are a function of the URL alone, so the answer of the
    network is indexed by the URL and by the number of requests made before. *)
Record PyEnv := {
  have_requests : bool;                 (* [requests is not None] *)
  net : nat -> pystr -> response;
  project_root : pystr;                 (* directory of [__file__] *)
  str_lower : pystr -> pystr;           (* [str.lower] *)
  int_of_str : pystr -> option Z;       (* [int(s)] *)
  repr_of : pyval -> pystr;             (* [str(v)] of floats and containers *)
  str_exc : exc -> pystr;               (* [str(e)] *)
  os_makedirs : gmap pystr node -> pystr -> option (gmap pystr node);
  can_open_w : gmap pystr node -> pystr -> bool;
  utf8_encode : pystr -> option (list Byte.byte);
                                        (* [None]: a lone surrogate *)
  utf8_decode : list Byte.byte -> option pystr;
  json_loads : pystr -> option pyval;
  literal_eval : pystr -> option pyval;
  json_chunks : pyval -> list pystr;    (* what [json.dump(v, f,
                                           ensure_ascii=False, indent=2)]
                                           writes, piece by piece *)
  urlparse_path : pystr -> option pystr;
                                        (* [urlparse(url).path]; [None]:
                                           [urlparse] raises [ValueError] *)
  unquote : pystr -> pystr;
  pdf_pages : list Byte.byte -> option (list (option pystr))
                                        (* pypdf: the pages' texts *)
}.

(** ** The monad of the program *)

Definition M (A : Type) : Type := world -> world * outcome A.

Definition ret {A} (a : A) : M A := fun w => (w, Ret a).

Definition bind {A B} (c : M A) (k : A -> M B) : M B :=
  fun w =>
    match c w with
    | (w', Ret a) => k a w'
    | (w', Raise e) => (w', Raise e)
    | (w', Diverge) => (w', Diverge)
    end.

Definition raise {A} (e : exc) : M A := fun w => (w, Raise e).
Definition diverge {A} : M A := fun w => (w, Diverge).

(** [try: c except Exception as e: h e]. *)
Definition try_except {A} (c : M A) (h : exc -> M A) : M A :=
  fun w =>
    match c w with
    | (w', Raise e) => if is_Exception e then h e w' else (w', Raise e)
    | r => r
    end.

Notation "x <- c ;; k" := (bind c (fun x => k))
  (at level 100, c at next level, right associativity).
Notation "c ;;; k" := (bind c (fun _ => k))
  (at level 100, right associativity).

Definition get_fs : M (gmap pystr node) := fun w => (w, Ret (fs w)).
Definition set_fs (f : gmap pystr node) : M unit :=
  fun w => (World f (trace w), Ret tt).
Definition emit (ev : event) : M unit :=
  fun w => (World (fs w) (trace w ++ [ev]), Ret tt).

Definition is_request (ev : event) : bool :=
  match ev with EvRequest _ => true | _ => false end.

(** The number of requests made so far. *)
Definition requests_made (w : world) : nat :=
  length (List.filter is_request (trace w)).

(** [for x in l: s = body(s, x)]. *)
Fixpoint for_each {A S} (l : list A) (body : S -> A -> M S) (s : S) : M S :=
  match l with
  | [] => ret s
  | x :: r => s' <- body s x ;; for_each r body s'
  end.

(** [enumerate(l, start=i)]. *)
Fixpoint enumerate {A} (i : nat) (l : list A) : list (nat * A) :=
  match l with
  | [] => []
  | x :: r => (i, x) :: enumerate (S i) r
  end.

Abbreviation pydict := (list (pyval * pyval)).

(** ** Name resolution *)

(** The names the module binds at its top level: its imports, its two
    constants and its functions. Python's builtins hold neither
    [PdfReader] nor [Path]. *)
Definition module_globals : list string :=
  [ "annotations"; "ast"; "json"; "os"; "sys"; "time";
    "Any"; "Dict"; "Iterable"; "List"; "Optional"; "Set"; "Tuple";
    "HTTPError"; "URLError"; "urlencode"; "unquote"; "urlparse";
    "Request"; "urlopen"; "requests";
    "BASE_API"; "DEFAULT_HEADERS";
    "sanitize_name"; "ensure_dir"; "http_get_json"; "stream_download";
    "load_category_mapping"; "iter_prayers"; "build_category_dirname";
    "build_prayer_dirname"; "filename_from_url"; "unique_filename";
    "save_metadata"; "pdf_to_txt"; "read_pdf_file";
    "download_assets_for_prayer"; "scrape_category"; "main" ]%string.

Definition name_bound (globals : list string) (name : string) : bool :=
  existsb (String.eqb name) globals.

(** ** File-system primitives *)

Definition path_exists (f : gmap pystr node) (p : pystr) : bool :=
  bool_decide (is_Some (f !! p)).

(** [os.path.getsize]; the program only asks for the size of a path it has
    just found to exist. *)
Definition getsize (f : gmap pystr node) (p : pystr) : Z :=
  match f !! p with
  | Some (File c) => Z.of_nat (length c)
  | Some (Dir n) => n
  | None => 0
  end.

Definition PDF_MAGIC : list Byte.byte :=
  [Byte.x25; Byte.x50; Byte.x44; Byte.x46; Byte.x2d].

Definition bytes_startswith (b pre : list Byte.byte) : bool :=
  starts_with Byte.eqb pre b.

Definition bytes_truthy (b : list Byte.byte) : bool :=
  match b with [] => false | _ => true end.

(** ** [unique_filename] *)

Definition candidate_name (root ext : pystr) (counter : nat) : pystr :=
  root ++ py " (" ++ str_of_nat counter ++ py ")" ++ ext.

(** The loop of [unique_filename]; [None] when the fuel runs out. *)
Fixpoint unique_filename_loop (fuel : nat) (f : gmap pystr node)
    (directory root ext candidate : pystr) (counter : nat) : option pystr :=
  match fuel with
  | O => None
  | S fuel' =>
      if path_exists f (path_join directory candidate)
      then unique_filename_loop fuel' f directory root ext
             (candidate_name root ext counter) (S counter)
      else Some candidate
  end.

Definition unique_filename_fuel (fuel : nat) (f : gmap pystr node)
    (directory base_name : pystr) : option pystr :=
  let (root, ext) := splitext base_name in
  unique_filename_loop fuel f directory root ext base_name 1.

(** A file system of [n] entries cannot hold [n + 1] candidates, so this
    much fuel is enough (see [unique_filename_total]). *)
Definition unique_filename (f : gmap pystr node)
    (directory base_name : pystr) : option pystr :=
  unique_filename_fuel (S (size f)) f directory base_name.

(** ** [pathlib.Path] as [pdf_to_txt] uses it

    [Path(p)] keeps the text [p] in normal form: its parts are the pieces
    between separators, without the empty ones and the [.] pieces, and its
    root is [/], or [//] when the text starts with exactly two
    separators. *)

(** [s.split("/")]. *)
Fixpoint split_sep (s : pystr) : list pystr :=
  match s with
  | [] => [[]]
  | c :: r =>
      if (c =? SLASH)%N then [] :: split_sep r
      else match split_sep r with
           | x :: xs => (c :: x) :: xs
           | [] => [[c]]
           end
  end.

Definition path_parts (p : pystr) : list pystr :=
  List.filter (fun x => str_truthy x && negb (pystr_eqb x [DOT])) (split_sep p).

Definition path_root (p : pystr) : pystr :=
  let n := (length p - length (lstrip (N.eqb SLASH) p))%nat in
  if (n =? 0)%nat then []
  else if (n =? 2)%nat then [SLASH; SLASH]
  else [SLASH].

(** ["/".join(parts)]. *)
Fixpoint join_sep (parts : list pystr) : pystr :=
  match parts with
  | [] => []
  | x :: r =>
      match r with
      | [] => x
      | _ :: _ => x ++ SLASH :: join_sep r
      end
  end.

(** [str(path)]. *)
Definition path_text (root : pystr) (parts : list pystr) : pystr :=
  let s := root ++ join_sep parts in
  if str_truthy s then s else [DOT].

(** [path.name]. *)
Definition path_name (p : pystr) : pystr :=
  match last (path_parts p) with
  | Some name => name
  | None => []
  end.

(** [path.suffix]. *)
Definition path_suffix (p : pystr) : pystr :=
  let name := path_name p in
  let i := rfind DOT name in
  if (0 <? i)%Z && (i <? Z.of_nat (length name) - 1)%Z
  then drop (Z.to_nat i) name else [].

(** [path.stem]. *)
Definition path_stem (p : pystr) : pystr :=
  let name := path_name p in
  let i := rfind DOT name in
  if (0 <? i)%Z && (i <? Z.of_nat (length name) - 1)%Z
  then take (Z.to_nat i) name else name.

(** [str(Path(p) / other)]: a rooted [other] replaces [p]. *)
Definition path_div (p other : pystr) : pystr :=
  if str_truthy (path_root other)
  then path_text (path_root other) (path_parts other)
  else path_text (path_root p) (path_parts p ++ path_parts other).

(** An argument declared [Path]: the caller may pass a [str] instead. *)
Inductive patharg :=
| AsStr (s : pystr)
| AsPath (p : pystr).

(** ** Dictionary keys of the category mapping *)

Definition key_eqb (a b : pyval) : bool :=
  match a, b with
  | VNone, VNone => true
  | VStr x, VStr y => pystr_eqb x y
  | VFloat (FFinite n d), VFloat (FFinite n' d') =>
      (n * Z.pos d' =? n' * Z.pos d)%Z
  | VFloat (FInf s), VFloat (FInf s') => Bool.eqb s s'
  | VFloat (FFinite n d), _ =>
      match as_int b with Some z => (n =? z * Z.pos d)%Z | None => false end
  | _, VFloat (FFinite n d) =>
      match as_int a with Some z => (n =? z * Z.pos d)%Z | None => false end
  | _, _ =>
      match as_int a, as_int b with
      | Some x, Some y => (x =? y)%Z
      | _, _ => false
      end
  end.

(** [d[k] = v]: an equal key keeps its place and takes the new value. *)
Fixpoint dict_set (k v : pyval) (d : pydict) : pydict :=
  match d with
  | [] => [(k, v)]
  | (k', v') :: r =>
      if key_eqb k' k then (k', v) :: r else (k', v') :: dict_set k v r
  end.

(** ** The program *)

Section Program.

Variable env : PyEnv.
Context {con : Console}.

Definition event_of (s : stream) (line : pystr) : event :=
  match s with
  | Stdout => EvStdout line
  | Stderr => EvStderr line
  end.

(** [print(line)] and [print(line, file=sys.stderr)]. *)
Definition print (s : stream) (line : pystr) : M unit :=
  if accepts s line then emit (event_of s line)
  else raise UnicodeEncodeError.

(** [int(v)]. *)
Definition py_int (v : pyval) : exc + Z :=
  match v with
  | VInt z => inr z
  | VBool b => inr (if b then 1 else 0)%Z
  | VFloat (FFinite n d) => inr (Z.quot n (Z.pos d))
  | VFloat (FInf _) => inl OverflowError
  | VFloat FNaN => inl ValueError
  | VStr s => match int_of_str env s with Some z => inr z | None => inl ValueError end
  | VNone | VList _ | VDict _ => inl TypeError
  end.

(** [str(v)], also what an f-string field shows. *)
Definition py_str (v : pyval) : pystr :=
  match v with
  | VStr s => s
  | VInt z => str_of_Z z
  | VBool true => py "True"
  | VBool false => py "False"
  | VNone => py "None"
  | _ => repr_of env v
  end.

Definition lift {A} (r : exc + A) : M A :=
  match r with inl e => raise e | inr a => ret a end.

Definition ensure_dir (path : pystr) : M unit :=
  f <- get_fs ;;
  match os_makedirs env f path with
  | Some f' => set_fs f'
  | None => raise OSError
  end.

(** [open(path, "w")] or [open(path, "wb")]: the file is created or
    truncated. *)
Definition open_w (path : pystr) : M unit :=
  f <- get_fs ;;
  if can_open_w env f path then set_fs (<[path := File []]> f)
  else raise OSError.

(** [f.write(chunk)] on the file opened at [path]. *)
Definition write_chunk (path : pystr) (chunk : list Byte.byte) : M unit :=
  f <- get_fs ;;
  match f !! path with
  | Some (File c) => set_fs (<[path := File (c ++ chunk)]> f)
  | _ => raise OSError
  end.

(** [try: os.remove(path) except Exception: pass]. *)
Definition remove_quietly (path : pystr) : M unit :=
  f <- get_fs ;;
  match f !! path with
  | Some (File _) => set_fs (delete path f)
  | _ => ret tt
  end.

(** Sending a GET request: it is recorded, and the network answers. *)
Definition send_request (url : pystr) : M response :=
  fun w =>
    (World (fs w) (trace w ++ [EvRequest url]),
     Ret (net env (requests_made w) url)).

Definition read_body (r : response) : M (list Byte.byte) :=
  if rs_body_error r then raise ConnectionError
  else ret (List.concat (rs_body r)).

Definition decode_json (data : list Byte.byte) : M pyval :=
  match utf8_decode env data with
  | Some s =>
      match json_loads env s with
      | Some v => ret v
      | None => raise ValueError
      end
  | None => raise ValueError
  end.

(** [http_get_json(url)], called without [params]. *)
Definition http_get_json (url : pystr) : M pyval :=
  r <- send_request url ;;
  if have_requests env then
    if rs_error r then raise ConnectionError
    else if ((400 <=? rs_status r) && (rs_status r <? 600))%Z
    then raise (HTTPError (rs_status r))
    else data <- read_body r ;; decode_json data
  else
    if rs_error r then raise URLError
    else if negb ((200 <=? rs_status r) && (rs_status r <? 300))%Z
    then raise (HTTPError (rs_status r))
    else data <- read_body r ;; decode_json data.

(** [(r.headers.get("Content-Type") or "").lower()]. *)
Definition content_type_of (r : response) : pystr :=
  str_lower env (match rs_content_type r with Some s => s | None => [] end).

Definition first_or (first : option (list Byte.byte)) (chunk : list Byte.byte)
  : option (list Byte.byte) :=
  match first with None => Some chunk | Some _ => first end.

(** The [while True] loop of the urllib path: it reads until the first empty
    chunk. *)
Fixpoint urllib_read_loop (dest : pystr) (chunks : list (list Byte.byte))
    (body_error : bool) (first_chunk : option (list Byte.byte))
  : M (option (list Byte.byte)) :=
  match chunks with
  | [] => if body_error then raise ConnectionError else ret first_chunk
  | chunk :: rest =>
      if negb (bytes_truthy chunk) then ret first_chunk
      else
        write_chunk dest chunk ;;;
        urllib_read_loop dest rest body_error (first_or first_chunk chunk)
  end.

(** [not first_chunk]. *)
Definition no_chunk (first_chunk : option (list Byte.byte)) : bool :=
  match first_chunk with Some c => negb (bytes_truthy c) | None => true end.

Definition chunk_startswith (first_chunk : option (list Byte.byte)) : bool :=
  match first_chunk with Some c => bytes_startswith c PDF_MAGIC | None => false end.

Definition not_a_pdf_message (content_type : pystr) : pystr :=
  py "Downloaded content is not a PDF (Content-Type: "
  ++ (if str_truthy content_type then content_type else py "unknown")
  ++ py ")".

(** [urlparse(url)] at line 63 only serves the [Referer] header, which
    is part of how the network answers for [url]. The function is embedded
    for the URLs [urlparse] takes: each call the program makes hands over a
    URL that [filename_from_url] has parsed just before. *)
Definition stream_download (url dest_path : pystr) : M unit :=
  f <- get_fs ;;
  if path_exists f dest_path && (0 <? getsize f dest_path)%Z then ret tt
  else
    ensure_dir (dirname dest_path) ;;;
    if have_requests env then
      r <- send_request url ;;
      if rs_error r then raise ConnectionError
      else if ((400 <=? rs_status r) && (rs_status r <? 600))%Z
      then raise (HTTPError (rs_status r))
      else
        let content_type := content_type_of r in
        open_w dest_path ;;;
        first_chunk <-
          for_each (rs_body r)
            (fun first_chunk chunk =>
               if negb (bytes_truthy chunk) then ret first_chunk
               else write_chunk dest_path chunk ;;;
                    ret (first_or first_chunk chunk))
            None ;;
        (if rs_body_error r then raise ConnectionError else ret tt) ;;;
        let ext := snd (splitext dest_path) in
        if pystr_eqb (str_lower env ext) (py ".pdf")
           || contains (py "pdf") content_type
        then
          if no_chunk first_chunk
             || (negb (chunk_startswith first_chunk)
                 && negb (contains (py "pdf") content_type))
          then
            remove_quietly dest_path ;;;
            raise (RuntimeError (not_a_pdf_message content_type))
          else ret tt
        else ret tt
    else
      r <- send_request url ;;
      if rs_error r then raise URLError
      else if negb ((200 <=? rs_status r) && (rs_status r <? 300))%Z
      then raise (HTTPError (rs_status r))
      else
        open_w dest_path ;;;
        first_chunk <-
          urllib_read_loop dest_path (rs_body r) (rs_body_error r) None ;;
        let ext := snd (splitext dest_path) in
        if pystr_eqb (str_lower env ext) (py ".pdf")
        then
          if no_chunk first_chunk || negb (chunk_startswith first_chunk)
          then
            remove_quietly dest_path ;;;
            raise (RuntimeError (py "Downloaded content is not a PDF"))
          else ret tt
        else ret tt.

(** [open(path, encoding="utf-8").read()]. *)
Definition read_text (path : pystr) : M pystr :=
  f <- get_fs ;;
  match f !! path with
  | Some (File c) =>
      match utf8_decode env c with
      | Some s => ret s
      | None => raise ValueError
      end
  | _ => raise OSError
  end.

(** [f.write(text)] on the text file opened at [path]: the text is
    encoded as a whole, or not written at all. *)
Definition write_str (path : pystr) (text : pystr) : M unit :=
  match utf8_encode env text with
  | Some data => write_chunk path data
  | None => raise UnicodeEncodeError
  end.

(** [open(path, "w", encoding="utf-8")] and one [write]. *)
Definition write_text (path : pystr) (text : pystr) : M unit :=
  open_w path ;;; write_str path text.

Definition load_category_mapping (mapping_path : pystr) : M pydict :=
  raw <- read_text mapping_path ;;
  data <-
    match json_loads env raw with
    | Some v => ret v
    | None =>
        match literal_eval env raw with
        | Some v => ret v
        | None => raise ValueError
        end
    end ;;
  match data with
  | VDict items =>
      ret (fold_left
             (fun mapping kv =>
                let ik := match py_int (fst kv) with
                          | inr z => VInt z
                          | inl _ => fst kv
                          end in
                dict_set ik (snd kv) mapping)
             items [])
  | _ => raise AttributeError
  end.

(** *** [iter_prayers]

    The generator is embedded with its consumer: [for_iter_prayers fuel cid
    body acc] is [for p in iter_prayers(cid): acc = body(acc, p)]. Every
    yielded item is a dictionary, so [body] receives its items. *)

Definition base_url (category_id : Z) : pystr :=
  py "https://chorig.org/wp-json/app/v1/categories/"
  ++ str_of_Z category_id ++ py "/prayers/".

Definition page_url (category_id : Z) (page : nat) : pystr :=
  base_url category_id ++ str_of_nat page.

(** The [for p in prayers] loop. *)
Fixpoint yield_items {A} (body : A -> pydict -> M A) (prayers : list pyval)
    (seen_ids : gset Z) (acc : A) : M (gset Z * A) :=
  match prayers with
  | [] => ret (seen_ids, acc)
  | p :: rest =>
      match p with
      | VDict d =>
          match as_int (dict_get (py "id") d VNone) with
          | Some pid =>
              if bool_decide (pid ∈ seen_ids)
              then yield_items body rest seen_ids acc
              else
                acc' <- body acc d ;;
                yield_items body rest ({[pid]} ∪ seen_ids) acc'
          | None =>
              acc' <- body acc d ;;
              yield_items body rest seen_ids acc'
          end
      | _ => yield_items body rest seen_ids acc
      end
  end.

(** [total_count is not None and len(seen_ids) >= int(total_count)]. *)
Definition total_reached (total_count : pyval) (seen_ids : gset Z) : M bool :=
  match total_count with
  | VNone => ret false
  | _ => n <- lift (py_int total_count) ;;
         ret (n <=? Z.of_nat (size seen_ids))%Z
  end.

(** The [while True] loop, from page [page] on. *)
Fixpoint iter_prayers_from {A} (fuel : nat) (body : A -> pydict -> M A)
    (category_id : Z) (page : nat) (seen_ids : gset Z) (total_count : pyval)
    (acc : A) : M A :=
  match fuel with
  | O => diverge
  | S fuel' =>
      fetched <-
        try_except (data <- http_get_json (page_url category_id page) ;;
                    ret (Some data))
                   (fun _ => ret None) ;;
      match fetched with
      | None => ret acc
      | Some (VDict d) =>
          let total_count := dict_get (py "totalCount") d total_count in
          let prayers := py_or (dict_get (py "prayers") d VNone) (VList []) in
          if negb (py_truthy prayers) then ret acc
          else
            match py_iter prayers with
            | None => raise TypeError
            | Some items =>
                sa <- yield_items body items seen_ids acc ;;
                stop <- total_reached total_count (fst sa) ;;
                if stop then ret (snd sa)
                else iter_prayers_from fuel' body category_id (S page)
                       (fst sa) total_count (snd sa)
            end
      | Some _ => raise AttributeError
      end
  end.

(** The body of [list(iter_prayers(...))]. *)
Definition collect (acc : list pydict) (p : pydict) : M (list pydict) :=
  ret (acc ++ [p]).

Definition for_iter_prayers {A} (fuel : nat) (category_id : Z)
    (body : A -> pydict -> M A) (acc : A) : M A :=
  iter_prayers_from fuel body category_id 0 ∅ VNone acc.

(** [list(iter_prayers(category_id))]. *)
Definition iter_prayers (fuel : nat) (category_id : Z) : M (list pydict) :=
  for_iter_prayers fuel category_id collect [].

(** *** Names of directories and files *)

Definition build_category_dirname (category_id : Z) (title : pystr) : pystr :=
  str_of_Z category_id ++ py " - " ++ sanitize_name title.

Definition build_prayer_dirname (prayer : pydict) : pystr :=
  let pid := dict_get (py "id") prayer (VStr (py "unknown")) in
  let name :=
    sanitize_name
      (py_str (py_or (dict_get (py "name") prayer VNone) (VStr (py "Untitled")))) in
  py_str pid ++ py " - " ++ name.

(** Lines 189 and 190, once [urlparse] has given the path. *)
Definition name_from_path (path fallback : pystr) : pystr :=
  let raw := unquote env (basename path) in
  sanitize_name (if str_truthy raw then raw else fallback).

Definition filename_from_url (url fallback : pystr) : M pystr :=
  match urlparse_path env url with
  | Some path => ret (name_from_path path fallback)
  | None => raise ValueError
  end.

Definition unique_filename_now (directory base_name : pystr) : M pystr :=
  f <- get_fs ;;
  match unique_filename f directory base_name with
  | Some name => ret name
  | None => diverge
  end.

(** [json.dump] writes the text piece by piece; what was written before a
    piece that cannot be encoded stays in the file. *)
Definition save_metadata (prayer_dir : pystr) (prayer : pydict) : M unit :=
  let meta_path := path_join prayer_dir (py "metadata.json") in
  open_w meta_path ;;;
  for_each (json_chunks env (VDict prayer))
    (fun _ chunk => write_str meta_path chunk) tt.

(** *** PDF text *)

Definition pdf_to_txt (file_path output_dir : patharg) (extracted_text : pystr)
  : M (option pystr) :=
  emit (EvCall "pdf_to_txt") ;;;
  match file_path, output_dir with
  | AsStr _, _ => raise AttributeError       (* [str] has no [stem] *)
  | AsPath _, AsStr _ => raise TypeError     (* [str / str] *)
  | AsPath fp, AsPath od =>
      let output_file := path_div od (path_stem fp ++ py ".txt") in
      let file_type := drop 1 (path_suffix fp) in
      if pystr_eqb file_type (py "pdf") then
        if str_truthy extracted_text then
          write_text output_file extracted_text ;;;
          ret (Some output_file)
        else ret None
      else ret None
  end.

(** The [try] block of [read_pdf_file], in a module whose top level binds
    [globals]. *)
Definition read_pdf_body (globals : list string) (pdf_file_path : pystr)
  : M pystr :=
  f <- get_fs ;;
  match f !! pdf_file_path with
  | Some (File content) =>
      if name_bound globals "PdfReader" then
        match pdf_pages env content with
        | Some pages =>
            ret (fold_left
                   (fun text page =>
                      text ++ match page with
                              | Some t => if str_truthy t then t else []
                              | None => []
                              end)
                   pages [])
        | None => raise ValueError
        end
      else raise (NameError "PdfReader")
  | _ => raise OSError
  end.

Definition read_pdf_file_in (globals : list string) (pdf_file_path : pystr)
  : M pystr :=
  try_except (read_pdf_body globals pdf_file_path)
    (fun _ =>
       print Stdout (py "pdf file " ++ pdf_file_path ++ py " is corrupted") ;;;
       ret []).

Definition read_pdf_file (pdf_file_path : pystr) : M pystr :=
  read_pdf_file_in module_globals pdf_file_path.

(** *** Assets of one item *)

(** [(v or {}).get(key)]. *)
Definition get_field (v : pyval) (key : pystr) : M pyval :=
  if py_truthy v then
    match v with
    | VDict d => ret (dict_get key d VNone)
    | _ => raise AttributeError
    end
  else ret VNone.

(** A URL handed to [urlparse] has to be a string: of any other value
    [urlparse] asks for a [decode] attribute. *)
Definition as_url (url : pyval) : M pystr :=
  match url with
  | VStr u => ret u
  | _ => raise AttributeError
  end.

(** [for index, x in enumerate(v, start=1)]. *)
Definition for_enumerate (v : pyval) (body : nat -> pyval -> M unit) : M unit :=
  match py_iter v with
  | Some items =>
      for_each (enumerate 1 items) (fun _ ix => body (fst ix) (snd ix)) tt
  | None => raise TypeError
  end.

Definition download_track (audio_dir : pystr) (index : nat) (track : pyval)
  : M unit :=
  url <- get_field track (py "url") ;;
  if negb (py_truthy url) then ret tt
  else
    name <- get_field track (py "name") ;;
    let preferred_name :=
      if py_truthy name then py_str name else py "track_" ++ str_of_nat index in
    u <- as_url url ;;
    fname <- filename_from_url u (preferred_name ++ py ".bin") ;;
    let root := fst (splitext fname) in
    let ext := snd (splitext fname) in
    let fname := format_02d index ++ py " - " ++ root ++ ext in
    fname <- unique_filename_now audio_dir fname ;;
    let dest := path_join audio_dir fname in
    try_except (stream_download u dest)
      (fun e =>
         print Stdout (py "[warn] Failed to download track: " ++ u
                       ++ py " -> " ++ dest ++ py ": " ++ str_exc env e)).

Definition download_document (docs_dir : pystr) (index : nat) (doc : pyval)
  : M unit :=
  url <- get_field doc (py "url") ;;
  if negb (py_truthy url) then ret tt
  else
    name <- get_field doc (py "name") ;;
    let preferred_name :=
      if py_truthy name then py_str name else py "document_" ++ str_of_nat index in
    u <- as_url url ;;
    fname <- filename_from_url u (preferred_name ++ py ".pdf") ;;
    let root := fst (splitext fname) in
    let ext := snd (splitext fname) in
    let ext := if negb (str_truthy ext) then py ".pdf" else ext in
    let fname := format_02d index ++ py " - " ++ root ++ ext in
    fname <- unique_filename_now docs_dir fname ;;
    let dest := path_join docs_dir fname in
    try_except
      (stream_download u dest ;;;
       extracted_text <- read_pdf_file dest ;;
       if str_truthy extracted_text then
         pdf_to_txt (AsStr dest) (AsStr docs_dir) extracted_text ;;; ret tt
       else ret tt)
      (fun e =>
         print Stdout (py "[warn] Failed to download document: " ++ u
                       ++ py " -> " ++ dest ++ py ": " ++ str_exc env e)).

Definition download_assets_for_prayer (prayer_dir : pystr) (prayer : pydict)
  : M unit :=
  let tracks := py_or (dict_get (py "tracks") prayer VNone) (VList []) in
  (if py_truthy tracks then
     let audio_dir := path_join prayer_dir (py "audio") in
     ensure_dir audio_dir ;;;
     for_enumerate tracks (download_track audio_dir)
   else ret tt) ;;;
  let docs := py_or (dict_get (py "documents") prayer VNone) (VList []) in
  if py_truthy docs then
    let docs_dir := path_join prayer_dir (py "documents") in
    ensure_dir docs_dir ;;;
    for_enumerate docs (download_document docs_dir)
  else ret tt.

(** *** Categories and the driver *)

Definition scrape_category (fuel : nat) (category_id : Z)
    (category_title output_root : pystr) : M Z :=
  let cat_dir :=
    path_join output_root (build_category_dirname category_id category_title) in
  ensure_dir cat_dir ;;;
  for_iter_prayers fuel category_id
    (fun count prayer =>
       let pdir := path_join cat_dir (build_prayer_dirname prayer) in
       ensure_dir pdir ;;;
       save_metadata pdir prayer ;;;
       download_assets_for_prayer pdir prayer ;;;
       ret (count + 1)%Z)
    0%Z.

Definition mapping_path : pystr :=
  path_join (project_root env) (py "category_mapping.json").

Definition output_root : pystr :=
  path_join (project_root env) (py "downloads").

(** One round of the [for category_id, category_title in mapping.items()]
    loop. *)
Definition main_category (fuel : nat) (total_prayers : Z) (item : pyval * pyval)
  : M Z :=
  let category_id := fst item in
  let category_title := snd item in
  print Stdout (py "==> Category " ++ py_str category_id ++ py ": "
                ++ py_str category_title) ;;;
  try_except
    (cid <- lift (py_int category_id) ;;
     count <- scrape_category fuel cid (py_str category_title) output_root ;;
     print Stdout (py "    Downloaded " ++ str_of_Z count ++ py " prayers.") ;;;
     ret (total_prayers + count)%Z)
    (fun e =>
       print Stderr (py "[error] Category " ++ py_str category_id
                     ++ py " failed: " ++ str_exc env e) ;;;
       ret total_prayers).

Definition main (fuel : nat) : M unit :=
  ensure_dir output_root ;;;
  mapping <-
    try_except (load_category_mapping mapping_path)
      (fun e =>
         print Stderr (py "[error] Failed to load category mapping from "
                       ++ mapping_path ++ py ": " ++ str_exc env e) ;;;
         raise (SystemExit 1)) ;;
  total_prayers <- for_each mapping (main_category fuel) 0%Z ;;
  print Stdout (py "All done. Total prayers processed: "
                ++ str_of_Z total_prayers).

(** The exit status of the process, when it ends: [sys.exit(n)] gives [n],
    an exception nobody caught gives 1. *)
Definition exit_status (o : outcome unit) : option Z :=
  match o with
  | Ret _ => Some 0%Z
  | Raise (SystemExit code) => Some code
  | Raise _ => Some 1%Z
  | Diverge => None
  end.

End Program.

(** ** A reference environment

    A small, executable instance of [PyEnv], for running the program on
    concrete inputs: files of ASCII text, directories created one level at
    a time. *)

Module Ref.

Definition lower (s : pystr) : pystr :=
  List.map (fun c => if ((65 <=? c) && (c <=? 90))%N then (c + 32)%N else c) s.

Fixpoint digits (s : pystr) (acc : Z) : option Z :=
  match s with
  | [] => Some acc
  | c :: r =>
      if ((48 <=? c) && (c <=? 57))%N
      then digits r (10 * acc + Z.of_N (c - 48))%Z
      else None
  end.

Definition int_of (s : pystr) : option Z :=
  match s with
  | [] => None
  | c :: r => if (c =? DASH)%N
              then match r with [] => None | _ => option_map Z.opp (digits r 0%Z) end
              else digits s 0%Z
  end.

Definition makedirs (f : gmap pystr node) (p : pystr) : option (gmap pystr node) :=
  if str_truthy p then
    match f !! p with
    | Some (File _) => None
    | Some (Dir _) => Some f
    | None => Some (<[p := Dir 4096]> f)
    end
  else None.

Definition writable (f : gmap pystr node) (p : pystr) : bool :=
  match f !! p with Some (Dir _) => false | _ => true end.

Definition encode (s : pystr) : list Byte.byte :=
  List.map (fun c => match Byte.of_N c with
                     | Some b => if (c <? 128)%N then b else Byte.x3f
                     | None => Byte.x3f
                     end) s.

Definition byte_of (n : N) : Byte.byte :=
  match Byte.of_N n with Some b => b | None => Byte.x00 end.

(** UTF-8 of one code point; a surrogate has none. *)
Definition utf8_char (c : N) : option (list Byte.byte) :=
  if (c <? 128)%N then Some [byte_of c]
  else if (c <? 2048)%N
  then Some [byte_of (192 + c / 64); byte_of (128 + c mod 64)]
  else if ((55296 <=? c) && (c <=? 57343))%N then None
  else if (c <? 65536)%N
  then Some [byte_of (224 + c / 4096); byte_of (128 + (c / 64) mod 64);
             byte_of (128 + c mod 64)]
  else Some [byte_of (240 + c / 262144); byte_of (128 + (c / 4096) mod 64);
             byte_of (128 + (c / 64) mod 64); byte_of (128 + c mod 64)].

Fixpoint utf8 (s : pystr) : option (list Byte.byte) :=
  match s with
  | [] => Some []
  | c :: r =>
      match utf8_char c, utf8 r with
      | Some b, Some bs => Some (b ++ bs)
      | _, _ => None
      end
  end.

Definition decode (b : list Byte.byte) : option pystr :=
  if forallb (fun x => (Byte.to_N x <? 128)%N) b
  then Some (List.map Byte.to_N b) else None.

Fixpoint from_slash (s : pystr) : pystr :=
  match s with
  | [] => []
  | c :: r => if (c =? SLASH)%N then s else from_slash r
  end.

Fixpoint after_scheme (s : pystr) : option pystr :=
  if starts_with N.eqb (py "://") s then Some (drop 3 s)
  else match s with
       | [] => None
       | _ :: r => after_scheme r
       end.

(** The text up to the first [?] or [#]. *)
Fixpoint before_query (s : pystr) : pystr :=
  match s with
  | [] => []
  | c :: r => if ((c =? 63) || (c =? 35))%N then [] else c :: before_query r
  end.

(** The text up to the first [/], [?] or [#]. *)
Fixpoint netloc_of (s : pystr) : pystr :=
  match s with
  | [] => []
  | c :: r =>
      if ((c =? SLASH) || (c =? 63) || (c =? 35))%N then []
      else c :: netloc_of r
  end.

Definition url_path (url : pystr) : pystr :=
  match after_scheme url with
  | Some r => from_slash (before_query r)
  | None => before_query url
  end.

(** [urlparse] refuses a network location with one square bracket and
    not the other. *)
Definition url_ok (url : pystr) : bool :=
  match after_scheme url with
  | Some r =>
      Bool.eqb (char_in 91%N (netloc_of r)) (char_in 93%N (netloc_of r))
  | None => true
  end.

Definition parse_url (url : pystr) : option pystr :=
  if url_ok url then Some (url_path url) else None.

(** [json.dump(v, f, ensure_ascii=False, indent=2)], piece by piece; a
    float is shown as [<float>]. *)
Definition hex_digit (n : N) : N :=
  if (n <? 10)%N then (48 + n)%N else (87 + n)%N.

Definition escape (c : N) : pystr :=
  if (c =? 34)%N then [92%N; 34%N]
  else if (c =? 92)%N then py "\\"
  else if (c =? 10)%N then py "\n"
  else if (c =? 13)%N then py "\r"
  else if (c =? 9)%N then py "\t"
  else if (c =? 8)%N then py "\b"
  else if (c =? 12)%N then py "\f"
  else if (c <? 32)%N then py "\u00" ++ [hex_digit (c / 16); hex_digit (c mod 16)]
  else [c].

Definition quoted (s : pystr) : pystr :=
  [34%N] ++ List.concat (List.map escape s) ++ [34%N].

Definition scalar (v : pyval) : pystr :=
  match v with
  | VNone => py "null"
  | VBool true => py "true"
  | VBool false => py "false"
  | VInt z => str_of_Z z
  | VStr s => quoted s
  | _ => py "<float>"
  end.

Definition is_container (v : pyval) : bool :=
  match v with VList _ | VDict _ => true | _ => false end.

Definition newline_indent (level : nat) : pystr :=
  [10%N] ++ List.concat (repeat (py "  ") level).

Definition dump_key (k : pyval) : pystr :=
  match k with VStr s => quoted s | _ => quoted (scalar k) end.

Fixpoint dump_at (level : nat) (v : pyval) {struct v} : list pystr :=
  match v with
  | VList [] => [py "[]"]
  | VList l =>
      (fix go (first : bool) (l : list pyval) {struct l} : list pystr :=
         match l with
         | [] => []
         | x :: r =>
             let buf := (if first then py "[" else py ",")
                        ++ newline_indent (S level) in
             (if is_container x then buf :: dump_at (S level) x
              else [buf ++ scalar x])
             ++ go false r
         end) true l
      ++ [newline_indent level; py "]"]
  | VDict [] => [py "{}"]
  | VDict items =>
      [py "{"; newline_indent (S level)]
      ++ (fix go (first : bool) (items : list (pyval * pyval)) {struct items}
            : list pystr :=
            match items with
            | [] => []
            | kv :: r =>
                (if first then [] else [py "," ++ newline_indent (S level)])
                ++ [dump_key (fst kv); py ": "]
                ++ (if is_container (snd kv) then dump_at (S level) (snd kv)
                    else [scalar (snd kv)])
                ++ go false r
            end) true items
      ++ [newline_indent level; py "}"]
  | _ => [scalar v]
  end.

Definition dump (v : pyval) : list pystr := dump_at 0 v.

Definition exc_text (e : exc) : pystr :=
  match e with
  | RuntimeError msg => msg
  | UnicodeEncodeError => py "surrogates not allowed"
  | _ => py "error"
  end.

Definition env (with_requests : bool) (network : nat -> pystr -> response)
    (parse : pystr -> option pyval)
    (pages : list Byte.byte -> option (list (option pystr))) : PyEnv :=
  {| have_requests := with_requests;
     net := network;
     project_root := py "/srv/crawl";
     str_lower := lower;
     int_of_str := int_of;
     repr_of := fun _ => py "<object>";
     str_exc := exc_text;
     os_makedirs := makedirs;
     can_open_w := writable;
     utf8_encode := utf8;
     utf8_decode := decode;
     json_loads := parse;
     literal_eval := fun _ => None;
     json_chunks := dump;
     urlparse_path := parse_url;
     unquote := fun s => s;
     pdf_pages := pages |}.

(** Bytes of an ASCII literal. *)
Definition bytes (s : string) : list Byte.byte := encode (py s).

(** A server that answers every request with status 200 and the body
    [body], declared as [ctype]. *)
Definition serve (ctype : string) (body : string) : nat -> pystr -> response :=
  fun _ _ => Response false 200 (Some (py ctype)) [bytes body] false.

End Ref.

(** * Vocabulary of the properties *)

(** ** Sanitised names *)

Definition is_bad (c : char) : bool := char_in c bad_chars.

(** ** Downloads *)

(** The chunks that reach the file: the requests path skips empty chunks,
    the urllib path stops at the first one. *)
Fixpoint until_empty (chunks : list (list Byte.byte)) : list (list Byte.byte) :=
  match chunks with
  | [] => []
  | c :: r => if bytes_truthy c then c :: until_empty r else []
  end.

Definition written_chunks (env : PyEnv) (r : response) : list (list Byte.byte) :=
  if have_requests env then List.filter bytes_truthy (rs_body r)
  else until_empty (rs_body r).

(** The status lets the transfer go on. *)
Definition status_passes (env : PyEnv) (r : response) : bool :=
  if have_requests env
  then negb ((400 <=? rs_status r) && (rs_status r <? 600))%Z
  else ((200 <=? rs_status r) && (rs_status r <? 300))%Z.

Definition pdf_extension (env : PyEnv) (dest_path : pystr) : bool :=
  pystr_eqb (str_lower env (snd (splitext dest_path))) (py ".pdf").

Definition mentions_pdf (env : PyEnv) (r : response) : bool :=
  contains (py "pdf") (content_type_of env r).

(** When the downloaded file is thrown away. *)
Definition rejected (env : PyEnv) (dest_path : pystr) (r : response) : bool :=
  let first_chunk := head (written_chunks env r) in
  if have_requests env then
    (pdf_extension env dest_path || mentions_pdf env r)
    && (no_chunk first_chunk
        || (negb (chunk_startswith first_chunk) && negb (mentions_pdf env r)))
  else
    pdf_extension env dest_path
    && (no_chunk first_chunk || negb (chunk_startswith first_chunk)).

Definition rejection_error (env : PyEnv) (r : response) : exc :=
  if have_requests env
  then RuntimeError (not_a_pdf_message (content_type_of env r))
  else RuntimeError (py "Downloaded content is not a PDF").

(** ** Candidate file names *)

(** The names [unique_filename] tries, in order: the base name, then the
    name with [" (1)"], [" (2)"], ... before its extension. *)
Definition nth_candidate (base_name : pystr) (k : nat) : pystr :=
  match k with
  | O => base_name
  | S _ => candidate_name (fst (splitext base_name)) (snd (splitext base_name)) k
  end.

Definition taken (f : gmap pystr node) (directory base_name : pystr) (k : nat)
  : bool :=
  path_exists f (path_join directory (nth_candidate base_name k)).

(** ** Pagination *)

(** What [http_get_json] makes of a response. *)
Definition fetch_result (env : PyEnv) (r : response) : exc + pyval :=
  let decoded :=
    if rs_body_error r then inl ConnectionError
    else match utf8_decode env (List.concat (rs_body r)) with
         | Some s => match json_loads env s with
                     | Some v => inr v
                     | None => inl ValueError
                     end
         | None => inl ValueError
         end in
  if have_requests env then
    if rs_error r then inl ConnectionError
    else if ((400 <=? rs_status r) && (rs_status r <? 600))%Z
    then inl (HTTPError (rs_status r))
    else decoded
  else
    if rs_error r then inl URLError
    else if negb ((200 <=? rs_status r) && (rs_status r <? 300))%Z
    then inl (HTTPError (rs_status r))
    else decoded.

(** The world after one more request. *)
Definition requested (w : world) (url : pystr) : world :=
  World (fs w) (trace w ++ [EvRequest url]).

(** The integer [id] of an item, if it has one. *)
Definition item_id (d : pydict) : option Z :=
  as_int (dict_get (py "id") d VNone).

(** The items of a page that are passed on, given the identifiers seen so
    far: dictionaries only, and none whose integer [id] was seen. *)
Fixpoint select_items (seen : gset Z) (items : list pyval) : list pydict :=
  match items with
  | [] => []
  | VDict d :: rest =>
      match item_id d with
      | Some z =>
          if bool_decide (z ∈ seen) then select_items seen rest
          else d :: select_items ({[z]} ∪ seen) rest
      | None => d :: select_items seen rest
      end
  | _ :: rest => select_items seen rest
  end.

(** The identifiers seen once the page is done. *)
Fixpoint seen_after (seen : gset Z) (items : list pyval) : gset Z :=
  match items with
  | [] => seen
  | VDict d :: rest =>
      match item_id d with
      | Some z =>
          if bool_decide (z ∈ seen) then seen_after seen rest
          else seen_after ({[z]} ∪ seen) rest
      | None => seen_after seen rest
      end
  | _ :: rest => seen_after seen rest
  end.

(** [total_reached] only computes. *)
Definition total_check (env : PyEnv) (total_count : pyval) (seen : gset Z)
  : exc + bool :=
  match total_count with
  | VNone => inr false
  | _ => match py_int env total_count with
         | inl e => inl e
         | inr n => inr (n <=? Z.of_nat (size seen))%Z
         end
  end.

(** [prayers = data.get("prayers") or []]. *)
Definition prayers_of (d : pydict) : pyval :=
  py_or (dict_get (py "prayers") d VNone) (VList []).

(** The integer identifiers of a list of items. *)
Definition ids (l : list pydict) : list Z := omap item_id l.

(** The seen-set and the known total after a run of pages, each given by
    its dictionary and its items. *)
Fixpoint pages_state (pages : list (pydict * list pyval)) (seen : gset Z)
    (total : pyval) : gset Z * pyval :=
  match pages with
  | [] => (seen, total)
  | (d, items) :: rest =>
      pages_state rest (seen_after seen items)
        (dict_get (py "totalCount") d total)
  end.

(** After page [i] the loop goes on: no total is known, or the seen-set has
    not reached it. *)
Definition goes_on_from (env : PyEnv) (pages : list (pydict * list pyval))
    (seen : gset Z) (total : pyval) (i : nat) : Prop :=
  let st := pages_state (take (S i) pages) seen total in
  total_check env (snd st) (fst st) = inr false.

Definition goes_on (env : PyEnv) (pages : list (pydict * list pyval)) (i : nat)
  : Prop :=
  goes_on_from env pages ∅ VNone i.

(** ** The driver *)

(** The lines the driver prints, as text and as they show on the trace
    once printed. *)
Definition announce_text (env : PyEnv) (item : pyval * pyval) : pystr :=
  py "==> Category " ++ py_str env (fst item) ++ py ": "
  ++ py_str env (snd item).

Definition downloaded_text (count : Z) : pystr :=
  py "    Downloaded " ++ str_of_Z count ++ py " prayers.".

Definition category_failed_text (env : PyEnv) (item : pyval * pyval) (e : exc)
  : pystr :=
  py "[error] Category " ++ py_str env (fst item)
  ++ py " failed: " ++ str_exc env e.

Definition mapping_failed_text (env : PyEnv) (e : exc) : pystr :=
  py "[error] Failed to load category mapping from "
  ++ mapping_path env ++ py ": " ++ str_exc env e.

Definition all_done_text (total_prayers : Z) : pystr :=
  py "All done. Total prayers processed: " ++ str_of_Z total_prayers.

(** The line that opens a category, and the work done for it inside the
    [try] block. *)
Definition announce (env : PyEnv) (item : pyval * pyval) : event :=
  EvStdout (announce_text env item).

Definition category_work (env : PyEnv) {con : Console} (fuel : nat)
    (total_prayers : Z) (item : pyval * pyval) : M Z :=
  cid <- lift (py_int env (fst item)) ;;
  count <- scrape_category env fuel cid (py_str env (snd item)) (output_root env) ;;
  print Stdout (downloaded_text count) ;;;
  ret (total_prayers + count)%Z.

Definition category_failed (env : PyEnv) (item : pyval * pyval) (e : exc)
  : event :=
  EvStderr (category_failed_text env item e).

Definition mapping_failed (env : PyEnv) (e : exc) : event :=
  EvStderr (mapping_failed_text env e).

Definition all_done (total_prayers : Z) : event :=
  EvStdout (all_done_text total_prayers).

(** The driver once the mapping is loaded: the loop over the categories
    and the closing line. *)
Definition run_categories (env : PyEnv) {con : Console} (fuel : nat)
    (mapping : pydict) : M unit :=
  total <- for_each mapping (main_category env fuel) 0%Z ;;
  print Stdout (all_done_text total).

(** Every line is taken by both streams. *)
Definition takes_all (con : Console) : Prop :=
  forall (s : stream) (line : pystr), accepts s line = true.

(** ** Invariants of the whole program *)

Definition obeys {A} (R : world -> world -> Prop) (T : exc -> Prop) (c : M A)
  : Prop :=
  forall w, R w (fst (c w)) /\ forall e, snd (c w) = Raise e -> T e.

(** [returns c Q]: a value [c] returns satisfies [Q]. *)
Definition returns {A} (c : M A) (Q : A -> Prop) : Prop :=
  forall w w' a, c w = (w', Ret a) -> Q a.

(** No call of [pdf_to_txt]. *)
Definition no_call (ev : event) : Prop :=
  match ev with EvCall _ => False | _ => True end.

(** What the relations have to satisfy: [R] is a preorder that allows
    changes of the file system and new events other than calls; [T] holds
    of every [Exception]. *)
Record laws (R : world -> world -> Prop) (T : exc -> Prop) : Prop := Laws {
  R_refl : forall w, R w w;
  R_trans : forall w1 w2 w3, R w1 w2 -> R w2 w3 -> R w1 w3;
  R_fs : forall w f, R w (World f (trace w));
  R_event : forall w ev, no_call ev -> R w (World (fs w) (trace w ++ [ev]));
  T_Exception : forall e, is_Exception e = true -> T e
}.

(** The two instances: no call of [pdf_to_txt] gets on the trace; and the
    trace only grows, while nothing but an [Exception] is raised. *)
Definition quiet (w w' : world) : Prop :=
  Forall no_call (trace w) -> Forall no_call (trace w').

Definition grows (w w' : world) : Prop :=
  exists t, trace w' = trace w ++ t.

(** ** Worked inputs *)

(** The end-to-end scenario of the specification: one category, one item
    with one document, a valid PDF whose text a PDF reader would give as
    ["Hello"]. *)
Module Scenario.

Definition item : pyval :=
  VDict [ (VStr (py "id"), VInt 99);
          (VStr (py "name"), VStr (py "Test/Prayer"));
          (VStr (py "documents"),
           VList [ VDict [ (VStr (py "url"), VStr (py "http://x/test.pdf"));
                           (VStr (py "name"), VStr (py "doc")) ] ]) ].

(** The mapping file and the API pages, by the text that stands for them. *)
Definition parse (text : pystr) : option pyval :=
  if pystr_eqb text (py "MAPPING")
  then Some (VDict [ (VStr (py "12"), VStr (py "Morning Prayers")) ])
  else if pystr_eqb text (py "PAGE0")
  then Some (VDict [ (VStr (py "prayers"), VList [item]) ])
  else if pystr_eqb text (py "PAGE1")
  then Some (VDict [ (VStr (py "prayers"), VList []) ])
  else None.

Definition network (_ : nat) (url : pystr) : response :=
  if pystr_eqb url (py "https://chorig.org/wp-json/app/v1/categories/12/prayers/0")
  then Response false 200 (Some (py "application/json")) [Ref.bytes "PAGE0"] false
  else if pystr_eqb url (py "https://chorig.org/wp-json/app/v1/categories/12/prayers/1")
  then Response false 200 (Some (py "application/json")) [Ref.bytes "PAGE1"] false
  else if pystr_eqb url (py "http://x/test.pdf")
  then Response false 200 (Some (py "application/pdf")) [Ref.bytes "%PDF-1.4 Hello"] false
  else Response false 404 None [] false.

Definition pages (content : list Byte.byte) : option (list (option pystr)) :=
  if bytes_startswith content PDF_MAGIC then Some [Some (py "Hello")] else None.

Definition env (with_requests : bool) : PyEnv :=
  Ref.env with_requests network parse pages.

Definition start : world :=
  World {[ py "/srv/crawl/category_mapping.json" := File (Ref.bytes "MAPPING") ]} [].

Definition item_dir : pystr :=
  py "/srv/crawl/downloads/12 - Morning Prayers/99 - Test-Prayer".

End Scenario.

(** Three API pages of category 7, the identifier 2 on two of them; and a
    variant that reports a total of three. *)
Module Paging.

Definition entry (id : Z) : pydict := [ (VStr (py "id"), VInt id) ].

Definition page0 : pydict :=
  [ (VStr (py "prayers"), VList [VDict (entry 1); VDict (entry 2)]) ].
Definition page1 : pydict :=
  [ (VStr (py "prayers"), VList [VDict (entry 2); VDict (entry 3)]) ].
Definition page2 : pydict :=
  [ (VStr (py "prayers"), VList []) ].

Definition counted0 : pydict :=
  [ (VStr (py "totalCount"), VInt 3);
    (VStr (py "prayers"), VList [VDict (entry 1); VDict (entry 2)]) ].
Definition counted1 : pydict :=
  [ (VStr (py "prayers"), VList [VDict (entry 3)]) ].

Definition parse (text : pystr) : option pyval :=
  if pystr_eqb text (py "P0") then Some (VDict page0)
  else if pystr_eqb text (py "P1") then Some (VDict page1)
  else if pystr_eqb text (py "P2") then Some (VDict page2)
  else if pystr_eqb text (py "T0") then Some (VDict counted0)
  else if pystr_eqb text (py "T1") then Some (VDict counted1)
  else None.

Definition json (body : string) : response :=
  Response false 200 (Some (py "application/json")) [Ref.bytes body] false.

Definition plain (_ : nat) (url : pystr) : response :=
  if pystr_eqb url (page_url 7 0) then json "P0"
  else if pystr_eqb url (page_url 7 1) then json "P1"
  else if pystr_eqb url (page_url 7 2) then json "P2"
  else Response false 404 None [] false.

Definition counted (_ : nat) (url : pystr) : response :=
  if pystr_eqb url (page_url 7 0) then json "T0"
  else if pystr_eqb url (page_url 7 1) then json "T1"
  else json "P0".

Definition broken (_ : nat) (_ : pystr) : response :=
  Response false 500 None [] false.

Definition env (network : nat -> pystr -> response) : PyEnv :=
  Ref.env true network parse (fun _ => None).

Definition start : world := World ∅ [].

End Paging.

(** Category 7 again: the first page reports a total of three, the second
    carries [null] under [totalCount], the third has no items. *)
Module Forgetful.

Definition page0 : pydict :=
  [ (VStr (py "totalCount"), VInt 3);
    (VStr (py "prayers"),
     VList [VDict (Paging.entry 1); VDict (Paging.entry 2)]) ].
Definition page1 : pydict :=
  [ (VStr (py "totalCount"), VNone);
    (VStr (py "prayers"), VList [VDict (Paging.entry 3)]) ].
Definition page2 : pydict :=
  [ (VStr (py "prayers"), VList []) ].

Definition parse (text : pystr) : option pyval :=
  if pystr_eqb text (py "N0") then Some (VDict page0)
  else if pystr_eqb text (py "N1") then Some (VDict page1)
  else if pystr_eqb text (py "N2") then Some (VDict page2)
  else None.

Definition network (_ : nat) (url : pystr) : response :=
  if pystr_eqb url (page_url 7 0) then Paging.json "N0"
  else if pystr_eqb url (page_url 7 1) then Paging.json "N1"
  else Paging.json "N2".

Definition env : PyEnv := Ref.env true network parse (fun _ => None).

End Forgetful.

(** ** Names of assets *)

(** A decimal digit. *)
Definition is_digit (c : char) : bool := ((48 <=? c) && (c <=? 57))%N.

(** The name [download_assets_for_prayer] gives to the file of an asset,
    before [unique_filename]: [f"{index:02d} - {root}{ext}"]. *)
Definition track_file_name (index : nat) (fname : pystr) : pystr :=
  format_02d index ++ py " - " ++ fst (splitext fname) ++ snd (splitext fname).

Definition document_file_name (index : nat) (fname : pystr) : pystr :=
  format_02d index ++ py " - " ++ fst (splitext fname)
  ++ (if negb (str_truthy (snd (splitext fname))) then py ".pdf"
      else snd (splitext fname)).

(** [(x or {}).get("name") or f"{kind}_{index}"], as text. *)
Definition preferred_name (env : PyEnv) (kind : string) (index : nat)
    (d : pydict) : pystr :=
  if py_truthy (dict_get (py "name") d VNone)
  then py_str env (dict_get (py "name") d VNone)
  else py kind ++ str_of_nat index.

(** The base name of the file of a track or a document whose URL has the
    path [path]. *)
Definition track_base (env : PyEnv) (index : nat) (d : pydict) (path : pystr)
  : pystr :=
  track_file_name index
    (name_from_path env path (preferred_name env "track_" index d ++ py ".bin")).

Definition document_base (env : PyEnv) (index : nat) (d : pydict) (path : pystr)
  : pystr :=
  document_file_name index
    (name_from_path env path
       (preferred_name env "document_" index d ++ py ".pdf")).

Definition track_warning (env : PyEnv) (u dest : pystr) (e : exc) : pystr :=
  py "[warn] Failed to download track: " ++ u
  ++ py " -> " ++ dest ++ py ": " ++ str_exc env e.

Definition document_warning (env : PyEnv) (u dest : pystr) (e : exc) : pystr :=
  py "[warn] Failed to download document: " ++ u
  ++ py " -> " ++ dest ++ py ": " ++ str_exc env e.

Definition corrupted_text (path : pystr) : pystr :=
  py "pdf file " ++ path ++ py " is corrupted".

Definition corrupted_line (path : pystr) : event :=
  EvStdout (corrupted_text path).

(** No path separator occurs in [s]. *)
Definition no_slash (s : pystr) : Prop := Forall (fun c => c <> SLASH) s.

(** ** Termination *)

(** [ends c]: [c] never runs out of fuel. *)
Definition ends {A} (c : M A) : Prop := forall w, snd (c w) <> Diverge.

(** ** Entries of the asset lists *)

(** An entry the loops of [download_assets_for_prayer] pass over: nothing,
    or a dictionary without a usable [url]. *)
Definition skipped_entry (x : pyval) : Prop :=
  py_truthy x = false
  \/ exists d, x = VDict d /\ py_truthy (dict_get (py "url") d VNone) = false.

(** An entry the loops can handle: one they pass over, or a dictionary whose
    [url] is a string that [urlparse] takes. *)
Definition usable_entry (env : PyEnv) (x : pyval) : Prop :=
  skipped_entry x
  \/ exists d u, x = VDict d /\ dict_get (py "url") d VNone = VStr u
                 /\ is_Some (urlparse_path env u).

(** A value of the [tracks] or [documents] key that the loops can handle. *)
Definition usable_entries (env : PyEnv) (v : pyval) : Prop :=
  py_truthy v = false \/ exists l, v = VList l /\ Forall (usable_entry env) l.

(** The outcome of a loop body that keeps the failures of a download to
    itself: it returns, or [stdout] has refused a line. *)
Definition returns_or_refused {con : Console} (o : outcome unit) : Prop :=
  o = Ret tt
  \/ (o = Raise UnicodeEncodeError /\ exists line, accepts Stdout line = false).

(** ** Metadata and the category mapping *)

Definition metadata_path (prayer_dir : pystr) : pystr :=
  path_join prayer_dir (py "metadata.json").

(** The bytes of the pieces that come before the first piece that cannot
    be encoded, and whether every piece could be. *)
Fixpoint encode_chunks (env : PyEnv) (chunks : list pystr)
  : list Byte.byte * bool :=
  match chunks with
  | [] => ([], true)
  | chunk :: rest =>
      match utf8_encode env chunk with
      | Some data =>
          (data ++ fst (encode_chunks env rest), snd (encode_chunks env rest))
      | None => ([], false)
      end
  end.

(** What [load_category_mapping] makes of the text of the file:
    [json.loads], and [ast.literal_eval] when that fails. *)
Definition parse_mapping (env : PyEnv) (raw : pystr) : option pyval :=
  match json_loads env raw with
  | Some v => Some v
  | None => literal_eval env raw
  end.

(** The items of a mapping under the integers its keys stand for. *)
Definition int_keyed (zs : list Z) (items : pydict) : pydict :=
  zip_with (fun z kv => (VInt z, snd kv)) zs items.

(** A key [int] leaves alone: an integer, or a value it rejects. *)
Definition settled_key (env : PyEnv) (k : pyval) : Prop :=
  (exists z, k = VInt z) \/ (exists e, py_int env k = inl e).

(** ** Failed transfers *)

(** What a request that does not get through raises. *)
Definition request_error (env : PyEnv) (r : response) : exc :=
  if rs_error r
  then (if have_requests env then ConnectionError else URLError)
  else HTTPError (rs_status r).

(** The body breaks off before its end is seen: the urllib loop stops at
    the first empty chunk, and sees no break that comes after it. *)
Definition stream_breaks (env : PyEnv) (r : response) : bool :=
  rs_body_error r && (have_requests env || forallb bytes_truthy (rs_body r)).

(** ** One category *)

Definition category_dir (env : PyEnv) (category_id : Z) (title : pystr) : pystr :=
  path_join (output_root env) (build_category_dirname category_id title).

Definition downloaded_line (count : Z) : event :=
  EvStdout (downloaded_text count).

(** The requests for the pages [first], [first + 1], ... of a category. *)
Definition page_requests (category_id : Z) (first n : nat) : list event :=
  List.map (fun i => EvRequest (page_url category_id i)) (seq first n).

(** The dictionaries among the items of a page. *)
Definition dicts_of (items : list pyval) : list pydict :=
  omap (fun p => match p with VDict d => Some d | _ => None end) items.

(** * Properties *)

(** ** Sanity checks of the embedding *)

Example sanitize_ex1 : sanitize_name (py "a/b:  c.") = py "a-b- c".
Proof. vm_compute. reflexivity. Qed.
Example splitext_ex1 : splitext (py "d/01 - test.pdf") = (py "d/01 - test", py ".pdf").
Proof. reflexivity. Qed.
Example splitext_ex2 : splitext (py "a.b/.hidden") = (py "a.b/.hidden", []).
Proof. reflexivity. Qed.
Example splitext_ex3 : splitext (py "a.tar.gz") = (py "a.tar", py ".gz").
Proof. reflexivity. Qed.
Example dirname_ex1 : dirname (py "out/12 - x/audio/01 - a.mp3") = py "out/12 - x/audio".
Proof. reflexivity. Qed.
Example dirname_ex2 : dirname (py "a.pdf") = [].
Proof. reflexivity. Qed.
Example path_join_ex1 : path_join (py "d") (py "f") = py "d/f".
Proof. reflexivity. Qed.
Example splitext_ex4 : splitext (py "...") = (py "...", []).
Proof. reflexivity. Qed.
Example splitext_ex5 : splitext (py "a.") = (py "a", py ".").
Proof. reflexivity. Qed.
Example splitext_ex6 : splitext (py ".a.b") = (py ".a", py ".b").
Proof. reflexivity. Qed.
Example dirname_ex3 : dirname (py "/a") = py "/".
Proof. reflexivity. Qed.
Example dirname_ex4 : dirname (py "x//y") = py "x".
Proof. reflexivity. Qed.
Example path_split_ex1 : path_split (py "//") = (py "//", []).
Proof. reflexivity. Qed.
Example path_join_ex2 : path_join (py "d/") (py "f") = py "d/f".
Proof. reflexivity. Qed.
Example path_join_ex3 : path_join [] (py "f") = py "f".
Proof. reflexivity. Qed.
Example path_join_ex4 : path_join (py "d") (py "/f") = py "/f".
Proof. reflexivity. Qed.
Example path_join_ex5 : path_join (py "d") [] = py "d/".
Proof. reflexivity. Qed.
Example path_stem_ex1 : path_stem (py "a/b.pdf") = py "b".
Proof. reflexivity. Qed.
Example path_suffix_ex1 : path_suffix (py "a/b.pdf") = py ".pdf".
Proof. reflexivity. Qed.
Example path_suffix_ex2 : path_suffix (py "a/.b") = [].
Proof. reflexivity. Qed.
Example path_suffix_ex3 : path_suffix (py "a/b.") = [].
Proof. reflexivity. Qed.
Example path_suffix_ex4 :
  path_suffix (py "docs/a.pdf/") = py ".pdf"
  /\ path_stem (py "docs//a.pdf/.") = py "a"
  /\ path_suffix (py "..pdf") = py ".pdf" /\ path_stem (py "..pdf") = py "."
  /\ path_suffix (py "docs/..") = [] /\ path_name (py "/") = [].
Proof. repeat split. Qed.
Example path_div_ex1 :
  path_div (py ".") (py "a.txt") = py "a.txt"
  /\ path_div [] (py "a.txt") = py "a.txt"
  /\ path_div (py "/") (py "a.txt") = py "/a.txt"
  /\ path_div (py "//") (py "a.txt") = py "//a.txt"
  /\ path_div (py "///x") (py "a.txt") = py "/x/a.txt"
  /\ path_div (py "d//e/.") (py "a.txt") = py "d/e/a.txt"
  /\ path_div (py "d") (py "/a.txt") = py "/a.txt".
Proof. repeat split. Qed.
Example url_path_ex1 :
  Ref.parse_url (py "http://x/a b.pdf?x=1#f") = Some (py "/a b.pdf")
  /\ Ref.parse_url (py "http://x?a/b") = Some []
  /\ Ref.parse_url (py "http://[x/a.mp3") = None
  /\ Ref.parse_url (py "http://[::1]/a.pdf") = Some (py "/a.pdf")
  /\ Ref.parse_url (py "x/y?z") = Some (py "x/y").
Proof. repeat split. Qed.
Example dump_ex1 :
  Ref.dump (VDict [ (VStr (py "id"), VInt 1);
                    (VStr (py "l"), VList [VInt 1; VStr (py "x")]) ])
  = [ py "{"; [10%N] ++ py "  "; [34%N] ++ py "id" ++ [34%N]; py ": "; py "1";
      py "," ++ [10%N] ++ py "  "; [34%N] ++ py "l" ++ [34%N]; py ": ";
      py "[" ++ [10%N] ++ py "    1";
      py "," ++ [10%N] ++ py "    " ++ [34%N] ++ py "x" ++ [34%N];
      [10%N] ++ py "  "; py "]"; [10%N]; py "}" ].
Proof. reflexivity. Qed.
Example replace2_ex1 :
  replace2 SPACE SPACE [SPACE] (py "a  b   c") = py "a b  c".
Proof. reflexivity. Qed.
Example replace2_ex2 : replace2 SPACE SPACE [SPACE] (py "    ") = py "  ".
Proof. reflexivity. Qed.
Example strip_ex1 : strip (py "  a b  ") = py "a b".
Proof. reflexivity. Qed.
Example format_02d_ex1 : format_02d 5 = py "05" /\ format_02d 123 = py "123".
Proof. split; reflexivity. Qed.
Example str_of_Z_ex1 : str_of_Z (-12) = py "-12" /\ str_of_Z 0 = py "0".
Proof. split; reflexivity. Qed.
Example page_url_ex1 :
  page_url 12 3 = py "https://chorig.org/wp-json/app/v1/categories/12/prayers/3".
Proof. reflexivity. Qed.



(** ** Strings *)

Lemma pair_ind {A} (P : list A -> Prop) :
  P [] -> (forall x, P [x]) ->
  (forall x y r, P r -> P (y :: r) -> P (x :: y :: r)) ->
  forall l, P l.
Proof.
  intros H0 H1 H2 l.
  enough (P l /\ forall x, P (x :: l)) by tauto.
  induction l as [|y r [IHr IHyr]]; split; auto.
Qed.

Lemma lstrip_head (p : char -> bool) (s : pystr) (c : char) :
  head (lstrip p s) = Some c -> p c = false.
Proof.
  induction s as [|x r IH]; simpl; [discriminate|].
  destruct (p x) eqn:E; auto. simpl. intros [= <-]. exact E.
Qed.

Lemma rstrip_last (p : char -> bool) (s : pystr) (c : char) :
  last (rstrip p s) = Some c -> p c = false.
Proof.
  unfold rstrip. rewrite last_reverse. apply lstrip_head.
Qed.

Lemma lstrip_suffix (p : char -> bool) (s : pystr) :
  exists pre, s = pre ++ lstrip p s.
Proof.
  induction s as [|x r [pre IH]]; simpl.
  - now exists [].
  - destruct (p x).
    + exists (x :: pre). simpl. now f_equal.
    + now exists [].
Qed.

Lemma rstrip_prefix (p : char -> bool) (s : pystr) :
  exists suf, s = rstrip p s ++ suf.
Proof.
  unfold rstrip. destruct (lstrip_suffix p (reverse s)) as [pre H].
  exists (reverse pre).
  rewrite <- reverse_app, <- H. now rewrite reverse_involutive.
Qed.

Lemma lstrip_last (p : char -> bool) (s : pystr) (c : char) :
  last (lstrip p s) = Some c -> last s = Some c.
Proof.
  destruct (lstrip_suffix p s) as [pre H]. intros Hl.
  rewrite H. destruct (lstrip p s) as [|y t] eqn:E; [discriminate|].
  rewrite last_app. now rewrite Hl.
Qed.

Lemma rstrip_head (p : char -> bool) (s : pystr) (c : char) :
  head (rstrip p s) = Some c -> head s = Some c.
Proof.
  destruct (rstrip_prefix p s) as [suf H]. intros Hh.
  rewrite H. destruct (rstrip p s); [discriminate|]. exact Hh.
Qed.

Lemma strip_with_head (p : char -> bool) (s : pystr) (c : char) :
  head (strip_with p s) = Some c -> p c = false.
Proof.
  unfold strip_with. intros H. apply rstrip_head in H.
  now apply lstrip_head in H.
Qed.

Lemma strip_with_last (p : char -> bool) (s : pystr) (c : char) :
  last (strip_with p s) = Some c -> p c = false.
Proof. unfold strip_with. apply rstrip_last. Qed.

Lemma lstrip_Forall (P : char -> Prop) (p : char -> bool) (s : pystr) :
  Forall P s -> Forall P (lstrip p s).
Proof.
  destruct (lstrip_suffix p s) as [pre H]. intros HF.
  rewrite H in HF. now apply Forall_app in HF.
Qed.

Lemma rstrip_Forall (P : char -> Prop) (p : char -> bool) (s : pystr) :
  Forall P s -> Forall P (rstrip p s).
Proof.
  destruct (rstrip_prefix p s) as [suf H]. intros HF.
  rewrite H in HF. now apply Forall_app in HF.
Qed.

Lemma strip_with_Forall (P : char -> Prop) (p : char -> bool) (s : pystr) :
  Forall P s -> Forall P (strip_with p s).
Proof. intros H. now apply rstrip_Forall, lstrip_Forall. Qed.

(** Replacing a doubled character by one of it keeps the two ends and
    introduces nothing new. *)
Lemma replace2_head (a : char) (s : pystr) :
  head (replace2 a a [a] s) = head s.
Proof.
  destruct s as [|x [|y r]]; simpl; auto.
  destruct ((x =? a) && (y =? a))%N eqn:E; simpl; auto.
  apply andb_true_iff in E as [E _]. apply N.eqb_eq in E. now subst.
Qed.

Lemma replace2_last (a : char) (s : pystr) :
  last (replace2 a a [a] s) = last s.
Proof.
  induction s as [| x | x y r IHr IHyr] using pair_ind; simpl; auto.
  destruct ((x =? a) && (y =? a))%N eqn:E.
  - apply andb_true_iff in E as [_ E]. apply N.eqb_eq in E. subst y.
    simpl. destruct r as [|z r'].
    + reflexivity.
    + change (last (a :: replace2 a a [a] (z :: r')) = last (z :: r')).
      destruct (replace2 a a [a] (z :: r')) as [|u t] eqn:Er.
      * destruct r' as [|z' r'']; simpl in Er; [discriminate|].
        destruct ((z =? a) && (z' =? a))%N; discriminate.
      * rewrite <- IHr. reflexivity.
  - change (last (x :: replace2 a a [a] (y :: r)) = last (y :: r)).
    destruct (replace2 a a [a] (y :: r)) as [|u t] eqn:Er.
    + destruct r as [|z' r'']; simpl in Er; [discriminate|].
      destruct ((y =? a) && (z' =? a))%N; discriminate.
    + rewrite <- IHyr. reflexivity.
Qed.

Lemma replace2_Forall (P : char -> Prop) (a : char) (s : pystr) :
  Forall P s -> Forall P (replace2 a a [a] s).
Proof.
  induction s as [| x | x y r IHr IHyr] using pair_ind; simpl; auto.
  intros HF. inversion HF as [|? ? Hx HF']; subst.
  inversion HF' as [|? ? Hy HF'']; subst.
  destruct ((x =? a) && (y =? a))%N eqn:E.
  - apply andb_true_iff in E as [E _]. apply N.eqb_eq in E. subst x.
    simpl. constructor; auto.
  - constructor; auto.
Qed.

Lemma collapse_spaces_step (name : pystr) :
  collapse_spaces name =
  if contains2 SPACE SPACE name
  then collapse_spaces (replace2 SPACE SPACE [SPACE] name)
  else name.
Proof.
  rewrite collapse_spaces_equation_1. simpl.
  destruct (bool_dec (contains2 SPACE SPACE name) true) as [E|E]; simpl.
  - now rewrite E.
  - apply not_true_is_false in E. now rewrite E.
Qed.

Lemma collapse_spaces_ind (P : pystr -> pystr -> Prop) :
  (forall s, contains2 SPACE SPACE s = false -> P s s) ->
  (forall s r, contains2 SPACE SPACE s = true ->
               P (replace2 SPACE SPACE [SPACE] s) r -> P s r) ->
  forall name, P name (collapse_spaces name).
Proof.
  intros Hstop Hstep name.
  remember (length name) as n eqn:Hn.
  assert (Hb : (length name <= n)%nat) by lia. clear Hn.
  revert name Hb. induction n as [|n IH]; intros name Hb;
    rewrite collapse_spaces_step;
    destruct (contains2 SPACE SPACE name) eqn:E; auto.
  - apply (replace2_shorter _ _ SPACE) in E. lia.
  - apply Hstep; auto. apply IH.
    apply (replace2_shorter _ _ SPACE) in E. lia.
Qed.

Lemma collapse_spaces_done (name : pystr) :
  contains2 SPACE SPACE (collapse_spaces name) = false.
Proof.
  apply (collapse_spaces_ind (fun _ r => contains2 SPACE SPACE r = false)); auto.
Qed.

Lemma collapse_spaces_preserves (P : pystr -> Prop) (name : pystr) :
  (forall s, P s -> P (replace2 SPACE SPACE [SPACE] s)) ->
  P name -> P (collapse_spaces name).
Proof.
  intros Hstep.
  apply (collapse_spaces_ind (fun s r => P s -> P r)); auto.
Qed.

(** ** [sanitize_name] *)

Lemma untitled_clean :
  py "Untitled" <> []
  /\ Forall (fun c => is_bad c = false) (py "Untitled")
  /\ head (py "Untitled") <> Some DOT
  /\ last (py "Untitled") <> Some DOT
  /\ contains2 SPACE SPACE (py "Untitled") = false.
Proof.
  repeat split; try discriminate; try reflexivity.
  unfold py. simpl. repeat constructor.
Qed.

Lemma replaced_clean (raw : pystr) :
  Forall (fun c => is_bad c = false)
    (List.map (fun c => if char_in c bad_chars then DASH else c) raw).
Proof.
  induction raw as [|c r IH]; [constructor|].
  rewrite map_cons. constructor; [|exact IH].
  destruct (char_in c bad_chars) eqn:E; [reflexivity | exact E].
Qed.

(** What [sanitize_name] does achieve, for every input: a non-empty name
    without forbidden characters, without a dot at either end and without
    two adjacent spaces. *)
Lemma sanitize_name_safe (raw : pystr) :
  sanitize_name raw <> []
  /\ Forall (fun c => is_bad c = false) (sanitize_name raw)
  /\ head (sanitize_name raw) <> Some DOT
  /\ last (sanitize_name raw) <> Some DOT
  /\ contains2 SPACE SPACE (sanitize_name raw) = false.
Proof.
  unfold sanitize_name.
  destruct (negb (str_truthy raw)); [apply untitled_clean|].
  set (mapped := List.map _ raw).
  set (stripped := strip_chars [DOT] (strip mapped)).
  destruct (str_truthy (collapse_spaces stripped)) eqn:E;
    [|apply untitled_clean].
  assert (Hdot : forall c, char_in c [DOT] = false -> c <> DOT).
  { intros c Hc ->. discriminate. }
  repeat split.
  - intros H. rewrite H in E. discriminate.
  - apply collapse_spaces_preserves; [apply replace2_Forall|].
    unfold stripped, strip_chars, strip.
    do 2 apply strip_with_Forall. apply replaced_clean.
  - apply (collapse_spaces_preserves (fun s => head s <> Some DOT)).
    + intros s. now rewrite replace2_head.
    + intros H. apply strip_with_head in H. now apply Hdot in H.
  - apply (collapse_spaces_preserves (fun s => last s <> Some DOT)).
    + intros s. now rewrite replace2_last.
    + intros H. apply strip_with_last in H. now apply Hdot in H.
  - apply collapse_spaces_done.
Qed.

(** The empty string gives the default name. *)
Lemma sanitize_name_empty : sanitize_name [] = py "Untitled".
Proof. reflexivity. Qed.

(** A title that ends in a space and a dot keeps the space. *)
Example sanitize_name_trailing_space :
  sanitize_name (py "Morning Prayers .") = py "Morning Prayers ".
Proof. vm_compute. reflexivity. Qed.

(** C2. [sanitize_name] strips white space before it strips dots, and never
    looks at the ends again: on [". a ."] the dots go and the spaces they
    protected stay, so the result [" a "] has leading and trailing white
    space. *)
Theorem sanitize_name_whitespace_after_dots :
  sanitize_name (py ". a .") = py " a "
  /\ (exists c, head (sanitize_name (py ". a .")) = Some c /\ is_space c = true)
  /\ (exists c, last (sanitize_name (py ". a .")) = Some c /\ is_space c = true).
Proof.
  assert (E : sanitize_name (py ". a .") = py " a ") by (vm_compute; reflexivity).
  rewrite E. split; [reflexivity|].
  split; exists SPACE; split; reflexivity.
Qed.

(** ** [stream_download] *)

(** C8. When the destination is a file that already holds data,
    [stream_download] returns at once: the world it leaves is the world it
    found, so nothing was requested and nothing on disk was touched. *)
Theorem stream_download_existing_noop (env : PyEnv) (url dest_path : pystr)
    (w : world) (content : list Byte.byte) :
  fs w !! dest_path = Some (File content) ->
  (0 < length content)%nat ->
  stream_download env url dest_path w = (w, Ret tt).
Proof.
  intros Hfile Hlen. unfold stream_download, bind, get_fs.
  unfold path_exists, getsize. rewrite Hfile.
  rewrite bool_decide_eq_true_2 by eauto. simpl.
  destruct (0 <? Z.of_nat (length content))%Z eqn:E; [reflexivity|].
  apply Z.ltb_ge in E. lia.
Qed.

Lemma stream_download_existing_noop_witness :
  let env := Ref.env true (Ref.serve "application/pdf" "%PDF-1.4") (fun _ => None) (fun _ => None) in
  let w := World {[ py "out/doc.pdf" := File (Ref.bytes "old") ]} [] in
  stream_download env (py "http://x/doc.pdf") (py "out/doc.pdf") w = (w, Ret tt).
Proof.
  intros env w.
  apply (stream_download_existing_noop env _ _ w (Ref.bytes "old")).
  - reflexivity.
  - vm_compute. lia.
Defined.

Lemma first_or_head (first : option (list Byte.byte)) (c : list Byte.byte)
    (rest : list (list Byte.byte)) :
  match first_or first c with
  | Some x => Some x
  | None => head rest
  end
  = match first with Some x => Some x | None => Some c end.
Proof. now destruct first. Qed.

Lemma requests_write_loop (dest : pystr) (chunks : list (list Byte.byte)) :
  forall (g : gmap pystr node) (tr : list event) (c : list Byte.byte)
         (first : option (list Byte.byte)),
    g !! dest = Some (File c) ->
    for_each chunks
      (fun first_chunk chunk =>
         if negb (bytes_truthy chunk) then ret first_chunk
         else write_chunk dest chunk ;;; ret (first_or first_chunk chunk))
      first (World g tr)
    = (World (<[dest := File (c ++ List.concat (List.filter bytes_truthy chunks))]> g) tr,
       Ret (match first with
            | Some x => Some x
            | None => head (List.filter bytes_truthy chunks)
            end)).
Proof.
  induction chunks as [|chunk rest IH]; intros g tr c first Hg.
  - simpl. unfold ret. rewrite app_nil_r, insert_id by exact Hg.
    now destruct first.
  - cbn [for_each List.filter]. unfold bind at 1.
    destruct (bytes_truthy chunk) eqn:E; cbn [negb].
    + unfold bind at 1. unfold write_chunk, bind, get_fs. cbn [fs trace].
      rewrite Hg. unfold set_fs, ret. cbn [fs trace].
      rewrite (IH _ tr (c ++ chunk)) by apply lookup_insert_eq.
      rewrite insert_insert_eq. cbn [List.concat head].
      rewrite app_assoc. f_equal. f_equal. now destruct first.
    + unfold ret at 1. now apply IH.
Qed.

Lemma urllib_write_loop (dest : pystr) (chunks : list (list Byte.byte)) :
  forall (g : gmap pystr node) (tr : list event) (c : list Byte.byte)
         (first : option (list Byte.byte)),
    g !! dest = Some (File c) ->
    urllib_read_loop dest chunks false first (World g tr)
    = (World (<[dest := File (c ++ List.concat (until_empty chunks))]> g) tr,
       Ret (match first with
            | Some x => Some x
            | None => head (until_empty chunks)
            end)).
Proof.
  induction chunks as [|chunk rest IH]; intros g tr c first Hg.
  - simpl. unfold ret. rewrite app_nil_r, insert_id by exact Hg.
    now destruct first.
  - cbn [urllib_read_loop until_empty].
    destruct (bytes_truthy chunk) eqn:E; cbn [negb].
    + unfold bind at 1. unfold write_chunk, bind, get_fs. cbn [fs trace].
      rewrite Hg. unfold set_fs. cbn [fs trace].
      rewrite (IH _ tr (c ++ chunk)) by apply lookup_insert_eq.
      rewrite insert_insert_eq. cbn [List.concat head].
      rewrite app_assoc. f_equal. f_equal. now destruct first.
    + unfold ret. cbn [List.concat]. rewrite app_nil_r, insert_id by exact Hg.
      now destruct first.
Qed.

(** C1 (as the code has it). Once a transfer has run to its end, the file
    is checked. With the [requests] transport a file is thrown away, and an
    error naming the content type raised, when the destination ends in
    [.pdf] or the content type mentions pdf, and either nothing was received
    or the first chunk lacks the [%PDF-] magic while the content type does
    not mention pdf. With the urllib transport only a [.pdf] destination is
    checked, the content type plays no part, and the error does not name it.
    In every other case the file is kept and the call returns. *)
Theorem stream_download_validation (env : PyEnv) (url dest_path : pystr)
    (w : world) (f1 : gmap pystr node) :
  let r := net env (requests_made w) url in
  path_exists (fs w) dest_path && (0 <? getsize (fs w) dest_path)%Z = false ->
  os_makedirs env (fs w) (dirname dest_path) = Some f1 ->
  rs_error r = false ->
  status_passes env r = true ->
  can_open_w env f1 dest_path = true ->
  rs_body_error r = false ->
  stream_download env url dest_path w =
    if rejected env dest_path r
    then (World (delete dest_path f1) (trace w ++ [EvRequest url]),
          Raise (rejection_error env r))
    else (World (<[dest_path := File (List.concat (written_chunks env r))]> f1)
                (trace w ++ [EvRequest url]),
          Ret tt).
Proof.
  intros r Hnew Hdirs Herr Hstatus Hopen Hbody.
  unfold stream_download. unfold bind at 1. unfold get_fs at 1.
  rewrite Hnew.
  unfold bind at 1. unfold ensure_dir, bind at 1. unfold get_fs at 1.
  rewrite Hdirs. unfold set_fs at 1. cbn [fs trace].
  unfold rejected, rejection_error, written_chunks, status_passes in *.
  destruct (have_requests env).
  - unfold bind at 1. unfold send_request at 1. cbn [fs trace].
    change (requests_made {| fs := f1; trace := trace w |})
      with (requests_made w). fold r.
    rewrite Herr.
    apply negb_true_iff in Hstatus. rewrite Hstatus.
    unfold bind at 1. unfold open_w, bind at 1. unfold get_fs at 1.
    cbn [fs trace]. rewrite Hopen. unfold set_fs at 1. cbn [fs trace].
    unfold bind at 1.
    rewrite (requests_write_loop dest_path (rs_body r) _ _ [])
      by apply lookup_insert_eq.
    rewrite insert_insert_eq. cbn [app].
    rewrite Hbody. unfold bind at 1. unfold ret at 1.
    fold (pdf_extension env dest_path). fold (mentions_pdf env r).
    destruct (pdf_extension env dest_path || mentions_pdf env r); cbn [andb];
      [|reflexivity].
    destruct (no_chunk _ || _); [|reflexivity].
    unfold bind, remove_quietly, bind, get_fs, set_fs, raise. cbn [fs trace].
    rewrite lookup_insert_eq. cbn [fs trace]. now rewrite delete_insert_eq.
  - unfold bind at 1. unfold send_request at 1. cbn [fs trace].
    change (requests_made {| fs := f1; trace := trace w |})
      with (requests_made w). fold r.
    rewrite Herr. rewrite Hstatus. cbn [negb].
    unfold bind at 1. unfold open_w, bind at 1. unfold get_fs at 1.
    cbn [fs trace]. rewrite Hopen. unfold set_fs at 1. cbn [fs trace].
    unfold bind at 1. rewrite Hbody.
    rewrite (urllib_write_loop dest_path (rs_body r) _ _ [])
      by apply lookup_insert_eq.
    rewrite insert_insert_eq. cbn [app].
    fold (pdf_extension env dest_path).
    destruct (pdf_extension env dest_path); cbn [andb]; [|reflexivity].
    destruct (no_chunk _ || _); [|reflexivity].
    unfold bind, remove_quietly, bind, get_fs, set_fs, raise. cbn [fs trace].
    rewrite lookup_insert_eq. cbn [fs trace]. now rewrite delete_insert_eq.
Qed.

Lemma stream_download_validation_witness :
  let env := Ref.env true (Ref.serve "text/html" "<html>")
               (fun _ => None) (fun _ => None) in
  let url := py "http://x/doc.pdf" in
  let dest := py "out/doc.pdf" in
  let w := World ∅ [] in
  let f1 : gmap pystr node := {[ py "out" := Dir 4096 ]} in
  let r := net env (requests_made w) url in
  rejected env dest r = true
  /\ stream_download env url dest w =
       if rejected env dest r
       then (World (delete dest f1) (trace w ++ [EvRequest url]),
             Raise (rejection_error env r))
       else (World (<[dest := File (List.concat (written_chunks env r))]> f1)
                   (trace w ++ [EvRequest url]),
             Ret tt).
Proof.
  intros env url dest w f1 r. split.
  - vm_compute. reflexivity.
  - apply (stream_download_validation env url dest w f1);
      vm_compute; reflexivity.
Defined.

(** C1 (as stated) fails with the [requests] transport: a body that does not
    begin with [%PDF-], saved to a [.pdf] destination, is kept and the call
    returns normally as soon as the server declares a pdf content type. *)
Lemma stream_download_trusts_content_type :
  let env := Ref.env true (Ref.serve "application/pdf" "<html>")
               (fun _ => None) (fun _ => None) in
  let url := py "http://x/doc.pdf" in
  let dest := py "out/doc.pdf" in
  let w := World ∅ [] in
  pdf_extension env dest = true
  /\ bytes_startswith (Ref.bytes "<html>") PDF_MAGIC = false
  /\ snd (stream_download env url dest w) = Ret tt
  /\ fs (fst (stream_download env url dest w)) !! dest
     = Some (File (Ref.bytes "<html>")).
Proof.
  intros env url dest w.
  repeat split; vm_compute; reflexivity.
Qed.

(** The urllib transport does not look at the content type at all: a
    destination without the [.pdf] extension is never checked. *)
Lemma stream_download_urllib_ignores_content_type :
  let env := Ref.env false (Ref.serve "application/pdf" "<html>")
               (fun _ => None) (fun _ => None) in
  let url := py "http://x/doc" in
  let dest := py "out/doc.bin" in
  let w := World ∅ [] in
  mentions_pdf env (net env 0 url) = true
  /\ snd (stream_download env url dest w) = Ret tt
  /\ fs (fst (stream_download env url dest w)) !! dest
     = Some (File (Ref.bytes "<html>")).
Proof.
  intros env url dest w.
  repeat split; vm_compute; reflexivity.
Qed.

(** ** [unique_filename] *)

Lemma py_inj (s t : string) : py s = py t -> s = t.
Proof.
  unfold py. intros H.
  assert (Hl : list_ascii_of_string s = list_ascii_of_string t).
  { revert H. generalize (list_ascii_of_string s) (list_ascii_of_string t).
    induction l as [|a l IH]; intros [|b l']; simpl; try discriminate; auto.
    intros [= Hab Hl]. f_equal; auto.
    rewrite <- (ascii_N_embedding a), <- (ascii_N_embedding b). now rewrite Hab. }
  rewrite <- (string_of_list_ascii_of_string s),
          <- (string_of_list_ascii_of_string t). now rewrite Hl.
Qed.

Lemma str_of_nat_inj (n m : nat) : str_of_nat n = str_of_nat m -> n = m.
Proof.
  unfold str_of_nat. intros H. apply py_inj in H.
  assert (Hu : Nat.to_uint n = Nat.to_uint m).
  { pose proof (NilEmpty.usu (Nat.to_uint n)) as Hn.
    pose proof (NilEmpty.usu (Nat.to_uint m)) as Hm.
    rewrite H in Hn. rewrite Hn in Hm. now injection Hm. }
  rewrite <- (Unsigned.of_to n), <- (Unsigned.of_to m). now rewrite Hu.
Qed.

Lemma rfind_aux_lower (c : char) (s : pystr) (i found : Z) :
  (-1 <= found)%Z -> (0 <= i)%Z -> (-1 <= rfind_aux c s i found)%Z.
Proof.
  revert i found. induction s as [|x r IH]; intros i found Hf Hi; simpl; auto.
  apply IH; [|lia]. destruct (x =? c)%N; lia.
Qed.

Lemma splitext_concat (p : pystr) :
  fst (splitext p) ++ snd (splitext p) = p.
Proof.
  unfold splitext. destruct (_ && _); simpl.
  - apply take_drop.
  - apply app_nil_r.
Qed.

(** A non-empty name has a non-empty root. *)
Lemma splitext_root (p : pystr) : p <> [] -> fst (splitext p) <> [].
Proof.
  intros Hp. unfold splitext.
  destruct (_ && _) eqn:E; simpl; [|exact Hp].
  apply andb_true_iff in E as [Hgt Hex].
  pose proof (rfind_aux_lower SLASH p 0 (-1) ltac:(lia) ltac:(lia)) as Hsep.
  fold (rfind SLASH p) in Hsep.
  assert (Hdot : (0 < rfind DOT p)%Z).
  { destruct (Z.ltb_spec 0 (rfind DOT p)) as [|Hle]; [assumption|].
    exfalso. unfold slice in Hex.
    replace (Z.to_nat (rfind DOT p - (rfind SLASH p + 1))) with 0%nat in Hex
      by lia.
    rewrite take_0 in Hex. discriminate. }
  destruct p as [|x r]; [contradiction|].
  destruct (Z.to_nat (rfind DOT (x :: r))) eqn:En; [lia|]. discriminate.
Qed.

Lemma candidate_head (base_name : pystr) (k : nat) :
  base_name <> [] -> head (nth_candidate base_name k) = head base_name.
Proof.
  intros Hp. destruct k as [|k]; [reflexivity|].
  unfold nth_candidate, candidate_name.
  pose proof (splitext_root base_name Hp) as Hr.
  rewrite <- (splitext_concat base_name) at 3.
  destruct (fst (splitext base_name)); [contradiction|reflexivity].
Qed.

Lemma nth_candidate_inj (base_name : pystr) (j k : nat) :
  nth_candidate base_name j = nth_candidate base_name k -> j = k.
Proof.
  assert (Hlen : forall n, nth_candidate base_name (S n) <> base_name).
  { intros n H. apply (f_equal (@length _)) in H.
    unfold nth_candidate, candidate_name in H.
    rewrite <- (splitext_concat base_name) in H at 3.
    rewrite !length_app in H. simpl in H. lia. }
  destruct j as [|j], k as [|k]; auto.
  - intros H. symmetry in H. now apply Hlen in H.
  - intros H. now apply Hlen in H.
  - unfold nth_candidate, candidate_name. intros H.
    apply app_inv_head, app_inv_head in H.
    rewrite !app_assoc in H. apply app_inv_tail, app_inv_tail in H.
    now apply str_of_nat_inj.
Qed.

Lemma path_join_candidates_inj (directory base_name : pystr) (j k : nat) :
  path_join directory (nth_candidate base_name j)
  = path_join directory (nth_candidate base_name k) -> j = k.
Proof.
  assert (Hslash : forall n,
            starts_with N.eqb [SLASH] (nth_candidate base_name n)
            = starts_with N.eqb [SLASH] (nth_candidate base_name 0)).
  { intros n. destruct base_name as [|x r] eqn:Eb.
    - destruct n; reflexivity.
    - pose proof (candidate_head (x :: r) n ltac:(discriminate)) as Hh.
      destruct (nth_candidate (x :: r) n) as [|y t]; [discriminate|].
      simpl in Hh. injection Hh as ->. reflexivity. }
  unfold path_join. rewrite (Hslash j), (Hslash k).
  destruct (starts_with N.eqb [SLASH] (nth_candidate base_name 0)).
  - apply nth_candidate_inj.
  - destruct (_ || _); intros H.
    + apply app_inv_head in H. now apply nth_candidate_inj in H.
    + apply app_inv_head in H. injection H as H.
      now apply nth_candidate_inj in H.
Qed.

Lemma unique_filename_loop_finds (f : gmap pystr node)
    (directory base_name : pystr) (n : nat) :
  (forall k, (k < n)%nat -> taken f directory base_name k = true) ->
  taken f directory base_name n = false ->
  forall fuel k, (k <= n)%nat -> (n - k < fuel)%nat ->
    unique_filename_loop fuel f directory
      (fst (splitext base_name)) (snd (splitext base_name))
      (nth_candidate base_name k) (S k)
    = Some (nth_candidate base_name n).
Proof.
  intros Hbelow Hfree. induction fuel as [|fuel IH]; intros k Hk Hfuel; [lia|].
  simpl. destruct (Nat.eq_dec k n) as [->|Hne].
  - unfold taken in Hfree. now rewrite Hfree.
  - assert (Ht : taken f directory base_name k = true) by (apply Hbelow; lia).
    unfold taken in Ht. rewrite Ht.
    apply (IH (S k)); lia.
Qed.

(** Distinct candidates are distinct paths, so a file system of [size f]
    entries holds at most [size f] of them. *)
Lemma taken_bound (f : gmap pystr node) (directory base_name : pystr) (n : nat) :
  (forall k, (k < n)%nat -> taken f directory base_name k = true) ->
  (n <= size f)%nat.
Proof.
  intros Hbelow.
  set (paths := (fun k => path_join directory (nth_candidate base_name k))
                  <$> seq 0 n).
  assert (Hnd : NoDup paths).
  { apply NoDup_fmap_2_strong; [|apply NoDup_seq].
    intros x y _ _. apply path_join_candidates_inj. }
  assert (Hsub : forall p, p ∈ paths -> p ∈ elements (dom f)).
  { intros p Hp. apply list_elem_of_fmap in Hp as (k & -> & Hk).
    apply elem_of_seq in Hk. apply elem_of_elements, elem_of_dom.
    specialize (Hbelow k ltac:(lia)). unfold taken, path_exists in Hbelow.
    now apply bool_decide_eq_true in Hbelow. }
  pose proof (submseteq_length _ _ (NoDup_submseteq _ _ Hnd Hsub)) as Hlen.
  unfold paths in Hlen. rewrite length_fmap, length_seq in Hlen.
  change (length (elements (dom f))) with (size (dom f)) in Hlen.
  now rewrite size_dom in Hlen.
Qed.

(** Among the first [bound + 1] candidates, the first free one, if any. *)
Lemma first_free (f : gmap pystr node) (directory base_name : pystr)
    (bound : nat) :
  (exists n, (n <= bound)%nat
             /\ (forall k, (k < n)%nat -> taken f directory base_name k = true)
             /\ taken f directory base_name n = false)
  \/ (forall k, (k <= bound)%nat -> taken f directory base_name k = true).
Proof.
  induction bound as [|b [(n & Hn & Hb & Hf)|Hall]].
  - destruct (taken f directory base_name 0) eqn:E.
    + right. intros k Hk. now replace k with 0%nat by lia.
    + left. exists 0%nat. repeat split; auto. intros k Hk. lia.
  - left. exists n. repeat split; auto.
  - destruct (taken f directory base_name (S b)) eqn:E.
    + right. intros k Hk. destruct (Nat.eq_dec k (S b)) as [->|]; auto.
      apply Hall. lia.
    + left. exists (S b). repeat split; auto. intros k Hk. apply Hall. lia.
Qed.

Lemma uint_digits (d : uint) :
  Forall (fun c => is_digit c = true) (py (NilEmpty.string_of_uint d)).
Proof.
  induction d; cbn [NilEmpty.string_of_uint]; unfold py in *;
    cbn [list_ascii_of_string List.map]; constructor; auto.
Qed.

Lemma str_of_nat_digits (n : nat) :
  Forall (fun c => is_digit c = true) (str_of_nat n).
Proof. apply uint_digits. Qed.

Lemma digits_no_slash (s : pystr) :
  Forall (fun c => is_digit c = true) s -> no_slash s.
Proof.
  intros H. eapply Forall_impl; [exact H|]. intros c Hc ->. discriminate.
Qed.

Lemma format_02d_digits (n : nat) :
  Forall (fun c => is_digit c = true) (format_02d n).
Proof.
  unfold format_02d. destruct (n <? 10)%nat.
  - constructor; [reflexivity|apply str_of_nat_digits].
  - apply str_of_nat_digits.
Qed.

Lemma format_02d_inj (i j : nat) : format_02d i = format_02d j -> i = j.
Proof.
  assert (Hmixed : forall a b,
            N_of_ascii "0" :: str_of_nat a = str_of_nat b -> a = b).
  { intros a b H. unfold str_of_nat in H.
    change (N_of_ascii "0" :: py (NilEmpty.string_of_uint (Nat.to_uint a)))
      with (py (NilEmpty.string_of_uint (D0 (Nat.to_uint a)))) in H.
    apply py_inj in H.
    pose proof (NilEmpty.usu (D0 (Nat.to_uint a))) as Ha.
    pose proof (NilEmpty.usu (Nat.to_uint b)) as Hb.
    rewrite H, Hb in Ha. injection Ha as Ha.
    rewrite <- (Unsigned.of_to a), <- (Unsigned.of_to b), Ha. reflexivity. }
  unfold format_02d.
  destruct (i <? 10)%nat eqn:Ei, (j <? 10)%nat eqn:Ej; intros H.
  - injection H as H. now apply str_of_nat_inj.
  - now apply Hmixed.
  - symmetry. now apply Hmixed.
  - now apply str_of_nat_inj.
Qed.

Lemma split_at_space (l1 l2 r1 r2 : pystr) :
  Forall (fun c => c <> SPACE) l1 -> Forall (fun c => c <> SPACE) l2 ->
  l1 ++ SPACE :: r1 = l2 ++ SPACE :: r2 -> l1 = l2.
Proof.
  intros H1. revert l2. induction H1 as [|x l Hx _ IH]; intros l2 H2 H.
  - destruct H2 as [|y l2 Hy _]; [reflexivity|].
    simpl in H. injection H as H _. now subst y.
  - destruct H2 as [|y l2 Hy H2]; simpl in H.
    + injection H as H _. now subst x.
    + injection H as -> H. f_equal. now apply IH.
Qed.

Lemma format_02d_no_space (n : nat) :
  Forall (fun c => c <> SPACE) (format_02d n).
Proof.
  eapply Forall_impl; [apply format_02d_digits|]. intros c Hc ->. discriminate.
Qed.

(** [unique_filename] finds the first candidate that is free. *)
Lemma unique_filename_first (f : gmap pystr node) (directory base_name : pystr) :
  exists n,
    unique_filename f directory base_name = Some (nth_candidate base_name n)
    /\ (forall k, (k < n)%nat -> taken f directory base_name k = true)
    /\ taken f directory base_name n = false.
Proof.
  destruct (first_free f directory base_name (size f))
    as [(n & Hn & Hb & Hf)|Hall].
  - exists n. split; [|split; assumption].
    unfold unique_filename, unique_filename_fuel.
    pose proof (unique_filename_loop_finds f directory base_name n Hb Hf
                  (S (size f)) 0%nat) as H.
    destruct (splitext base_name) as [root ext]. apply H; lia.
  - exfalso.
    pose proof (taken_bound f directory base_name (S (size f))) as H.
    assert (S (size f) <= size f)%nat; [|lia].
    apply H. intros k Hk. apply Hall. lia.
Qed.

(** The loop body for a track with a URL, up to the name of the file. *)
Lemma download_track_named {con : Console} (env : PyEnv) (audio_dir : pystr)
    (index : nat) (d : pydict) (u : pystr) (w : world) :
  d <> [] ->
  dict_get (py "url") d VNone = VStr u ->
  u <> [] ->
  download_track env audio_dir index (VDict d) w
  = match urlparse_path env u with
    | None => (w, Raise ValueError)
    | Some path =>
        match unique_filename (fs w) audio_dir (track_base env index d path) with
        | Some fname =>
            try_except (stream_download env u (path_join audio_dir fname))
              (fun e =>
                 print Stdout
                   (track_warning env u (path_join audio_dir fname) e)) w
        | None => (w, Diverge)
        end
    end.
Proof.
  intros Hd Hurl Hu.
  unfold download_track, get_field.
  assert (Ht : py_truthy (VDict d) = true)
    by (destruct d; [contradiction|reflexivity]).
  rewrite Ht. unfold bind at 1. unfold ret at 1. rewrite Hurl.
  assert (Hs : str_truthy u = true) by (destruct u; [contradiction|reflexivity]).
  cbn [py_truthy]. rewrite Hs. cbn [negb].
  unfold bind at 1. unfold ret at 1.
  cbn [as_url]. unfold bind at 1. unfold ret at 1.
  unfold bind at 1. unfold filename_from_url.
  destruct (urlparse_path env u) as [path|]; [|reflexivity].
  unfold ret at 1.
  unfold bind at 1. unfold unique_filename_now, bind at 1, get_fs at 1.
  cbv zeta.
  match goal with
  | |- context [unique_filename (fs w) audio_dir ?x] =>
      change x with (track_base env index d path)
  end.
  destruct (unique_filename (fs w) audio_dir (track_base env index d path));
    reflexivity.
Qed.

(** The loop body for a document with a URL, up to the name of the
    file. *)
Lemma download_document_named {con : Console} (env : PyEnv) (docs_dir : pystr)
    (index : nat) (d : pydict) (u : pystr) (w : world) :
  d <> [] ->
  dict_get (py "url") d VNone = VStr u ->
  u <> [] ->
  download_document env docs_dir index (VDict d) w
  = match urlparse_path env u with
    | None => (w, Raise ValueError)
    | Some path =>
        match unique_filename (fs w) docs_dir (document_base env index d path)
        with
        | Some fname =>
            let dest := path_join docs_dir fname in
            try_except
              (stream_download env u dest ;;;
               extracted_text <- read_pdf_file env dest ;;
               if str_truthy extracted_text then
                 pdf_to_txt env (AsStr dest) (AsStr docs_dir) extracted_text ;;;
                 ret tt
               else ret tt)
              (fun e => print Stdout (document_warning env u dest e)) w
        | None => (w, Diverge)
        end
    end.
Proof.
  intros Hd Hurl Hu.
  unfold download_document, get_field.
  assert (Ht : py_truthy (VDict d) = true)
    by (destruct d; [contradiction|reflexivity]).
  rewrite Ht. unfold bind at 1. unfold ret at 1. rewrite Hurl.
  assert (Hs : str_truthy u = true) by (destruct u; [contradiction|reflexivity]).
  cbn [py_truthy]. rewrite Hs. cbn [negb].
  unfold bind at 1. unfold ret at 1.
  cbn [as_url]. unfold bind at 1. unfold ret at 1.
  unfold bind at 1. unfold filename_from_url.
  destruct (urlparse_path env u) as [path|]; [|reflexivity].
  unfold ret at 1.
  unfold bind at 1. unfold unique_filename_now, bind at 1, get_fs at 1.
  cbv zeta.
  match goal with
  | |- context [unique_filename (fs w) docs_dir ?x] =>
      change x with (document_base env index d path)
  end.
  destruct (unique_filename (fs w) docs_dir (document_base env index d path));
    reflexivity.
Qed.

Lemma rfind_aux_skip (c : char) (a b : pystr) :
  Forall (fun x => x <> c) a ->
  forall i found,
    rfind_aux c (a ++ b) i found
    = rfind_aux c b (i + Z.of_nat (length a)) found.
Proof.
  induction 1 as [|x a Hx _ IH]; intros i found; cbn [app rfind_aux length].
  - f_equal. lia.
  - apply N.eqb_neq in Hx. rewrite Hx, IH. f_equal. lia.
Qed.

Lemma rfind_aux_range (c : char) (s : pystr) :
  forall i found,
    rfind_aux c s i found = found \/ (i <= rfind_aux c s i found)%Z.
Proof.
  induction s as [|x r IH]; intros i found; cbn [rfind_aux]; [now left|].
  destruct (x =? c)%N.
  - destruct (IH (i + 1)%Z i) as [->|H]; right; lia.
  - destruct (IH (i + 1)%Z found) as [->|H]; [now left|right; lia].
Qed.

(** The extension of a name lies after a prefix that holds no dot. *)
Lemma splitext_prefix (a b : pystr) :
  Forall (fun x => x <> DOT) a ->
  exists r, fst (splitext (a ++ b)) = a ++ r.
Proof.
  intros Ha. unfold splitext.
  destruct (_ && _) eqn:E; cbn [fst]; [|now exists b].
  apply andb_true_iff in E as [Hgt _]. apply Z.gtb_lt in Hgt.
  pose proof (rfind_aux_lower SLASH (a ++ b) 0 (-1) ltac:(lia) ltac:(lia))
    as Hsep.
  fold (rfind SLASH (a ++ b)) in Hsep.
  assert (Hd : rfind DOT (a ++ b)
               = rfind_aux DOT b (0 + Z.of_nat (length a)) (-1))
    by (unfold rfind; now rewrite (rfind_aux_skip DOT a b Ha)).
  assert (Hdot : (Z.of_nat (length a) <= rfind DOT (a ++ b))%Z).
  { destruct (rfind_aux_range DOT b (0 + Z.of_nat (length a)) (-1)) as [H|H];
      rewrite <- Hd in H; lia. }
  exists (take (Z.to_nat (rfind DOT (a ++ b)) - length a) b).
  rewrite take_app_ge by lia. reflexivity.
Qed.

(** Whatever [unique_filename] adds to an indexed name, the ordinal and
    the space after it stay in front. *)
Lemma indexed_candidate (i : nat) (f : pystr) (n : nat) :
  exists rest,
    nth_candidate (format_02d i ++ py " - " ++ f) n
    = format_02d i ++ SPACE :: rest.
Proof.
  destruct n as [|n]; [now exists (py "- " ++ f)|].
  unfold nth_candidate, candidate_name.
  assert (Hbase : format_02d i ++ py " - " ++ f
                  = (format_02d i ++ [SPACE]) ++ py "- " ++ f)
    by now rewrite <- app_assoc.
  destruct (splitext_prefix (format_02d i ++ [SPACE]) (py "- " ++ f))
    as [r Hr].
  { apply Forall_app. split; [|repeat constructor; discriminate].
    eapply Forall_impl; [apply format_02d_digits|].
    intros c Hc ->. discriminate. }
  rewrite Hbase, Hr.
  exists (r ++ py " (" ++ str_of_nat (S n) ++ py ")"
          ++ snd (splitext ((format_02d i ++ [SPACE]) ++ py "- " ++ f))).
  now rewrite <- !app_assoc.
Qed.

(** Such a name is a relative one. *)
Lemma indexed_relative (a rest : pystr) :
  Forall (fun c => is_digit c = true) a ->
  starts_with N.eqb [SLASH] (a ++ SPACE :: rest) = false.
Proof.
  intros [|c r Hc _]; [reflexivity|].
  cbn [app starts_with]. rewrite andb_true_r.
  apply N.eqb_neq. intros <-. discriminate.
Qed.

(** Files of entries at different positions of the list have different
    paths, whatever [unique_filename] added to their names. *)
Lemma indexed_paths_differ (directory : pystr) (i j : nat) (g h : pystr)
    (n m : nat) :
  path_join directory (nth_candidate (format_02d i ++ py " - " ++ g) n)
  = path_join directory (nth_candidate (format_02d j ++ py " - " ++ h) m) ->
  i = j.
Proof.
  destruct (indexed_candidate i g n) as [r1 ->].
  destruct (indexed_candidate j h m) as [r2 ->].
  unfold path_join.
  rewrite !indexed_relative by apply format_02d_digits.
  intros H. apply format_02d_inj.
  apply (split_at_space _ _ r1 r2); try apply format_02d_no_space.
  destruct (_ || _).
  - now apply app_inv_head in H.
  - apply app_inv_head in H. now injection H.
Qed.

(** C10. [unique_filename] always returns, and what it returns is the first
    candidate that does not exist in the directory, the candidates being the
    base name and then the base name with [" (1)"], [" (2)"], ... before
    its extension. So when none of the first three candidates exists, the
    first call returns the base name; once that file is there, the second
    call returns the name with [" (1)"]; once that one is there too, the
    third call returns the name with [" (2)"]. A name it returns is never
    that of an existing entry of the directory.

    The loops over the tracks and over the documents of an item call it
    with the two-digit ordinal of the entry, [" - "] and the name taken
    from the URL (for a document, with [".pdf"] where that name has no
    extension). The destination of the download is the first free
    candidate for that name, so it names no entry of the directory. And
    the files of entries at different positions of the list have different
    paths, whatever the names taken from the URLs and whatever
    [unique_filename] added to them, since the ordinal stays in front. *)
Theorem unique_filename_counts_up (f : gmap pystr node)
    (directory base_name : pystr) :
  (exists n,
      unique_filename f directory base_name = Some (nth_candidate base_name n)
      /\ (forall k, (k < n)%nat -> taken f directory base_name k = true)
      /\ taken f directory base_name n = false)
  /\ nth_candidate base_name 1
     = fst (splitext base_name) ++ py " (1)" ++ snd (splitext base_name)
  /\ nth_candidate base_name 2
     = fst (splitext base_name) ++ py " (2)" ++ snd (splitext base_name)
  /\ (forall c1 c2 : list Byte.byte,
        taken f directory base_name 0 = false ->
        taken f directory base_name 1 = false ->
        taken f directory base_name 2 = false ->
        let f1 := <[path_join directory base_name := File c1]> f in
        let f2 :=
          <[path_join directory (nth_candidate base_name 1) := File c2]> f1 in
        unique_filename f directory base_name = Some base_name
        /\ unique_filename f1 directory base_name
           = Some (nth_candidate base_name 1)
        /\ unique_filename f2 directory base_name
           = Some (nth_candidate base_name 2))
  /\ (forall (con : Console) (env : PyEnv) (index : nat) (d : pydict)
             (u path : pystr) (w : world),
        d <> [] ->
        dict_get (py "url") d VNone = VStr u ->
        u <> [] ->
        urlparse_path env u = Some path ->
        let fname :=
          name_from_path env path
            (preferred_name env "track_" index d ++ py ".bin") in
        let base := format_02d index ++ py " - " ++ fname in
        exists n,
          let dest := path_join directory (nth_candidate base n) in
          unique_filename_now directory base w
          = (w, Ret (nth_candidate base n))
          /\ (forall k, (k < n)%nat -> taken (fs w) directory base k = true)
          /\ path_exists (fs w) dest = false
          /\ download_track env directory index (VDict d) w
             = try_except (stream_download env u dest)
                 (fun e => print Stdout (track_warning env u dest e)) w)
  /\ (forall (con : Console) (env : PyEnv) (index : nat) (d : pydict)
             (u path : pystr) (w : world),
        d <> [] ->
        dict_get (py "url") d VNone = VStr u ->
        u <> [] ->
        urlparse_path env u = Some path ->
        let fname :=
          name_from_path env path
            (preferred_name env "document_" index d ++ py ".pdf") in
        let ext := snd (splitext fname) in
        let base :=
          format_02d index ++ py " - " ++ fst (splitext fname)
          ++ (if negb (str_truthy ext) then py ".pdf" else ext) in
        exists n,
          let dest := path_join directory (nth_candidate base n) in
          unique_filename_now directory base w
          = (w, Ret (nth_candidate base n))
          /\ (forall k, (k < n)%nat -> taken (fs w) directory base k = true)
          /\ path_exists (fs w) dest = false
          /\ download_document env directory index (VDict d) w
             = try_except
                 (stream_download env u dest ;;;
                  extracted_text <- read_pdf_file env dest ;;
                  if str_truthy extracted_text then
                    pdf_to_txt env (AsStr dest) (AsStr directory)
                      extracted_text ;;;
                    ret tt
                  else ret tt)
                 (fun e => print Stdout (document_warning env u dest e)) w)
  /\ (forall (i j : nat) (g h : pystr) (n m : nat),
        path_join directory (nth_candidate (format_02d i ++ py " - " ++ g) n)
        = path_join directory (nth_candidate (format_02d j ++ py " - " ++ h) m) ->
        i = j).
Proof.
  assert (Hfind : forall g n,
            (forall k, (k < n)%nat -> taken g directory base_name k = true) ->
            taken g directory base_name n = false ->
            unique_filename g directory base_name
            = Some (nth_candidate base_name n)).
  { intros g n Hb Hf. unfold unique_filename, unique_filename_fuel.
    destruct (splitext base_name) as [root ext] eqn:Es.
    pose proof (unique_filename_loop_finds g directory base_name n Hb Hf
                  (S (size g)) 0%nat) as H.
    rewrite Es in H. simpl fst in H. simpl snd in H. apply H; [lia|].
    pose proof (taken_bound g directory base_name n Hb). lia. }
  split; [|split; [reflexivity|split; [reflexivity|
           split; [|split; [|split; [|apply indexed_paths_differ]]]]]].
  - destruct (first_free f directory base_name (size f))
      as [(n & Hn & Hb & Hf)|Hall].
    + exists n. auto.
    + exfalso.
      pose proof (taken_bound f directory base_name (S (size f))) as H.
      assert (S (size f) <= size f)%nat; [|lia].
      apply H. intros k Hk. apply Hall. lia.
  - intros c1 c2 H0 H1 H2 f1 f2.
    assert (Hne : forall j k, j <> k ->
              path_join directory (nth_candidate base_name j)
              <> path_join directory (nth_candidate base_name k)).
    { intros j k Hjk H. now apply path_join_candidates_inj in H. }
    assert (Hin : forall (g : gmap pystr node) p x,
              path_exists (<[p := x]> g) p = true).
    { intros g p x. unfold path_exists. apply bool_decide_eq_true.
      rewrite lookup_insert_eq. eauto. }
    assert (Hout : forall (g : gmap pystr node) p q x, p <> q ->
              path_exists (<[p := x]> g) q = path_exists g q).
    { intros g p q x Hpq. unfold path_exists.
      now rewrite lookup_insert_ne. }
    repeat split.
    + apply (Hfind f 0%nat); auto. intros k Hk. lia.
    + apply (Hfind f1 1%nat).
      * intros k Hk. replace k with 0%nat by lia. apply Hin.
      * unfold taken, f1.
        rewrite (Hout _ _ _ _ (Hne 0%nat 1%nat ltac:(lia))). exact H1.
    + apply (Hfind f2 2%nat).
      * intros k Hk. unfold taken, f2, f1.
        destruct k as [|[|k]]; [| |lia].
        -- rewrite (Hout _ _ _ _ (Hne 1%nat 0%nat ltac:(lia))). apply Hin.
        -- apply Hin.
      * unfold taken, f2, f1.
        rewrite (Hout _ _ _ _ (Hne 1%nat 2%nat ltac:(lia))).
        rewrite (Hout _ _ _ _ (Hne 0%nat 2%nat ltac:(lia))). exact H2.
  - intros con env index d u path w Hd Hurl Hu Hpath fname base.
    assert (Hbase : track_base env index d path = base).
    { unfold track_base, track_file_name. fold fname.
      now rewrite splitext_concat. }
    destruct (unique_filename_first (fs w) directory base)
      as (n & Hname & Hbelow & Hfree).
    exists n. cbv zeta. split; [|split; [exact Hbelow|split; [exact Hfree|]]].
    + unfold unique_filename_now, bind, get_fs. now rewrite Hname.
    + rewrite (download_track_named env directory index d u w Hd Hurl Hu).
      now rewrite Hpath, Hbase, Hname.
  - intros con env index d u path w Hd Hurl Hu Hpath fname ext base.
    assert (Hbase : document_base env index d path = base) by reflexivity.
    destruct (unique_filename_first (fs w) directory base)
      as (n & Hname & Hbelow & Hfree).
    exists n. cbv zeta. split; [|split; [exact Hbelow|split; [exact Hfree|]]].
    + unfold unique_filename_now, bind, get_fs. now rewrite Hname.
    + rewrite (download_document_named env directory index d u w Hd Hurl Hu).
      now rewrite Hpath, Hbase, Hname.
Qed.

Lemma unique_filename_counts_up_witness :
  let f : gmap pystr node := {[ py "docs" := Dir 4096 ]} in
  let d := py "docs" in
  let b := py "01 - test.pdf" in
  let f1 := <[py "docs/01 - test.pdf" := File []]> f in
  let f2 := <[py "docs/01 - test (1).pdf" := File []]> f1 in
  unique_filename f d b = Some (py "01 - test.pdf")
  /\ unique_filename f1 d b = Some (py "01 - test (1).pdf")
  /\ unique_filename f2 d b = Some (py "01 - test (2).pdf")
  /\ unique_filename_now d b (World f1 [])
     = (World f1 [], Ret (py "01 - test (1).pdf")).
Proof.
  intros f d b f1 f2.
  destruct (unique_filename_counts_up f d b) as (_ & _ & _ & H & _ & Hdoc & _).
  destruct (H [] []) as (H0 & H1 & H2); try (vm_compute; reflexivity).
  split; [exact H0|split; [exact H1|split; [exact H2|]]].
  destruct (Hdoc plain (Scenario.env true) 1%nat
              [(VStr (py "url"), VStr (py "http://x/test.pdf"))]
              (py "http://x/test.pdf") (py "/test.pdf") (World f1 []))
    as (n & Hnow & Hbelow & _);
    [discriminate|reflexivity|discriminate|reflexivity|].
  destruct n as [|[|n]].
  - exfalso. clear - Hnow. vm_compute in Hnow. discriminate.
  - exact Hnow.
  - exfalso. specialize (Hbelow 1%nat ltac:(lia)). clear - Hbelow.
    vm_compute in Hbelow. discriminate.
Defined.

(** ** Invariants of the whole program

    [obeys R T c]: whatever the outcome of [c], the world it leaves is
    related by [R] to the world it found, and an exception it raises
    satisfies [T]. *)

Section Obeys.

Variable R : world -> world -> Prop.
Variable T : exc -> Prop.
Hypothesis L : laws R T.

Lemma obeys_ret {A} (a : A) : obeys R T (ret a).
Proof. intros w. split; [apply (R_refl R T L)|discriminate]. Qed.

Lemma obeys_raise {A} (e : exc) : T e -> obeys R T (@raise A e).
Proof. intros He w. split; [apply (R_refl R T L)|]. now intros e' [= <-]. Qed.

Lemma obeys_diverge {A} : obeys R T (@diverge A).
Proof. intros w. split; [apply (R_refl R T L)|discriminate]. Qed.

Lemma obeys_get_fs : obeys R T get_fs.
Proof. intros w. split; [apply (R_refl R T L)|discriminate]. Qed.

Lemma obeys_set_fs (f : gmap pystr node) : obeys R T (set_fs f).
Proof. intros w. split; [apply (R_fs R T L)|discriminate]. Qed.

Lemma obeys_emit (ev : event) : no_call ev -> obeys R T (emit ev).
Proof. intros Hev w. split; [now apply (R_event R T L)|discriminate]. Qed.

Lemma obeys_bind_returns {A B} (c : M A) (k : A -> M B) (Q : A -> Prop) :
  obeys R T c -> returns c Q -> (forall a, Q a -> obeys R T (k a)) ->
  obeys R T (bind c k).
Proof.
  intros Hc Hret Hk w. unfold bind.
  destruct (Hc w) as [Hw He].
  destruct (c w) as [w' [a|e|]] eqn:E; simpl in *.
  - destruct (Hk a (Hret _ _ _ E) w') as [Hw' He'].
    split; [exact (R_trans R T L _ _ _ Hw Hw')|exact He'].
  - split; [exact Hw|]. intros e' [= <-]. now apply He.
  - split; [exact Hw|discriminate].
Qed.

Lemma obeys_bind {A B} (c : M A) (k : A -> M B) :
  obeys R T c -> (forall a, obeys R T (k a)) -> obeys R T (bind c k).
Proof.
  intros Hc Hk. apply (obeys_bind_returns c k (fun _ => True)); auto.
  intros w w' a _. exact I.
Qed.

Lemma obeys_try_except {A} (c : M A) (h : exc -> M A) :
  obeys R T c -> (forall e, obeys R T (h e)) -> obeys R T (try_except c h).
Proof.
  intros Hc Hh w. unfold try_except.
  destruct (Hc w) as [Hw He].
  destruct (c w) as [w' [a|e|]] eqn:E; simpl in *.
  - split; [exact Hw|discriminate].
  - destruct (is_Exception e).
    + destruct (Hh e w') as [Hw' He'].
      split; [exact (R_trans R T L _ _ _ Hw Hw')|exact He'].
    + split; [exact Hw|]. intros e' [= <-]. now apply He.
  - split; [exact Hw|discriminate].
Qed.

Lemma obeys_for_each {A S} (l : list A) (body : S -> A -> M S) (s : S) :
  (forall s x, obeys R T (body s x)) -> obeys R T (for_each l body s).
Proof.
  intros Hb. revert s. induction l as [|x r IH]; intros s; simpl.
  - apply obeys_ret.
  - apply obeys_bind; auto.
Qed.

Lemma obeys_print {con : Console} (s : stream) (line : pystr) :
  obeys R T (print s line).
Proof.
  unfold print. destruct (accepts s line).
  - apply obeys_emit. now destruct s.
  - apply obeys_raise. now apply (T_Exception R T L).
Qed.

End Obeys.

Create HintDb obeys.

(** One step of an [obeys] proof: peel a monadic operator, or split on the
    scrutinee of a conditional. *)
Ltac obeys_step :=
  match goal with
  | L : laws ?R ?T |- obeys ?R ?T ?c =>
      match c with
      | ret _ => apply (obeys_ret R T L)
      | raise _ =>
          apply (obeys_raise R T L); apply (T_Exception R T L); reflexivity
      | diverge => apply (obeys_diverge R T L)
      | get_fs => apply (obeys_get_fs R T L)
      | set_fs _ => apply (obeys_set_fs R T L)
      | emit _ => apply (obeys_emit R T L); exact I
      | print _ _ => apply (obeys_print R T L)
      | bind _ _ => apply (obeys_bind R T L); [|intros ?]
      | try_except _ _ => apply (obeys_try_except R T L); [|intros ?]
      | for_each _ _ _ => apply (obeys_for_each R T L); intros ? ?
      | if ?b then _ else _ => destruct b
      | match ?x with _ => _ end => destruct x
      end
  | H : context [obeys _ _ _] |- obeys _ _ _ => solve [apply H]
  end.

Ltac obeys_go := repeat (obeys_step || solve [auto with obeys]).

Section ProgramObeys.

Variable env : PyEnv.
Context {con : Console}.
Variable R : world -> world -> Prop.
Variable T : exc -> Prop.
Hypothesis L : laws R T.

Lemma obeys_send_request (url : pystr) : obeys R T (send_request env url).
Proof.
  intros w. split; [|discriminate]. simpl. now apply (R_event R T L).
Qed.
Hint Extern 1 (obeys _ _ (send_request _ _)) =>
  apply obeys_send_request : obeys.

Lemma obeys_lift {A} (r : exc + A) :
  (forall e, r = inl e -> is_Exception e = true) -> obeys R T (lift r).
Proof.
  destruct r as [e|a]; intros H; simpl.
  - apply (obeys_raise R T L), (T_Exception R T L). now apply H.
  - apply (obeys_ret R T L).
Qed.

Lemma py_int_Exception (v : pyval) (e : exc) :
  py_int env v = inl e -> is_Exception e = true.
Proof.
  destruct v as [| | |[]| | |]; simpl; try discriminate;
    try (intros [= <-]; reflexivity).
  destruct (int_of_str env s); [discriminate|]. now intros [= <-].
Qed.

Lemma obeys_lift_py_int (v : pyval) : obeys R T (lift (py_int env v)).
Proof. apply obeys_lift. apply py_int_Exception. Qed.
Hint Extern 1 (obeys _ _ (lift (py_int _ _))) =>
  apply obeys_lift_py_int : obeys.

Lemma obeys_ensure_dir (path : pystr) : obeys R T (ensure_dir env path).
Proof. unfold ensure_dir. obeys_go. Qed.
Hint Extern 1 (obeys _ _ (ensure_dir _ _)) => apply obeys_ensure_dir : obeys.

Lemma obeys_open_w (path : pystr) : obeys R T (open_w env path).
Proof. unfold open_w. obeys_go. Qed.
Hint Extern 1 (obeys _ _ (open_w _ _)) => apply obeys_open_w : obeys.

Lemma obeys_write_chunk (path : pystr) (chunk : list Byte.byte) :
  obeys R T (write_chunk path chunk).
Proof. unfold write_chunk. obeys_go. Qed.
Hint Extern 1 (obeys _ _ (write_chunk _ _)) => apply obeys_write_chunk : obeys.

Lemma obeys_remove_quietly (path : pystr) : obeys R T (remove_quietly path).
Proof. unfold remove_quietly. obeys_go. Qed.
Hint Extern 1 (obeys _ _ (remove_quietly _)) =>
  apply obeys_remove_quietly : obeys.

Lemma obeys_http_get_json (url : pystr) : obeys R T (http_get_json env url).
Proof. unfold http_get_json, read_body, decode_json. obeys_go. Qed.
Hint Extern 1 (obeys _ _ (http_get_json _ _)) =>
  apply obeys_http_get_json : obeys.

Lemma obeys_urllib_read_loop (dest : pystr) (chunks : list (list Byte.byte))
    (body_error : bool) (first : option (list Byte.byte)) :
  obeys R T (urllib_read_loop dest chunks body_error first).
Proof.
  revert first. induction chunks as [|c r IH]; intros first; simpl; obeys_go.
Qed.
Hint Extern 1 (obeys _ _ (urllib_read_loop _ _ _ _)) =>
  apply obeys_urllib_read_loop : obeys.

Lemma obeys_stream_download (url dest : pystr) :
  obeys R T (stream_download env url dest).
Proof. unfold stream_download. obeys_go. Qed.
Hint Extern 1 (obeys _ _ (stream_download _ _ _)) =>
  apply obeys_stream_download : obeys.

Lemma obeys_write_str (path text : pystr) :
  obeys R T (write_str env path text).
Proof. unfold write_str. obeys_go. Qed.
Hint Extern 1 (obeys _ _ (write_str _ _ _)) => apply obeys_write_str : obeys.

Lemma obeys_write_text (path text : pystr) :
  obeys R T (write_text env path text).
Proof. unfold write_text. obeys_go. Qed.
Hint Extern 1 (obeys _ _ (write_text _ _ _)) => apply obeys_write_text : obeys.

Lemma obeys_load_category_mapping (path : pystr) :
  obeys R T (load_category_mapping env path).
Proof. unfold load_category_mapping, read_text. obeys_go. Qed.
Hint Extern 1 (obeys _ _ (load_category_mapping _ _)) =>
  apply obeys_load_category_mapping : obeys.

Lemma obeys_yield_items {A} (body : A -> pydict -> M A) (items : list pyval) :
  (forall acc d, obeys R T (body acc d)) ->
  forall seen acc, obeys R T (yield_items body items seen acc).
Proof.
  intros Hb. induction items as [|p r IH]; intros seen acc; simpl; obeys_go.
Qed.

Lemma obeys_iter_prayers_from {A} (body : A -> pydict -> M A) (cid : Z)
    (fuel : nat) :
  (forall acc d, obeys R T (body acc d)) ->
  forall page seen total acc,
    obeys R T (iter_prayers_from env fuel body cid page seen total acc).
Proof.
  intros Hb. induction fuel as [|fuel IH]; intros page seen total acc; simpl.
  - obeys_go.
  - apply (obeys_bind R T L); [obeys_go|]. intros [[]|]; obeys_go.
    + now apply obeys_yield_items.
    + unfold total_reached. obeys_go.
Qed.

(** [read_pdf_file] looks up [PdfReader], which the module never binds:
    whatever the file, the [except] branch answers. *)
Lemma read_pdf_file_handler (path : pystr) (w : world) :
  read_pdf_file env path w
  = (print Stdout (py "pdf file " ++ path ++ py " is corrupted") ;;; ret []) w.
Proof.
  unfold read_pdf_file, read_pdf_file_in, read_pdf_body, try_except.
  unfold bind at 1. unfold get_fs at 1.
  change (name_bound module_globals "PdfReader") with false.
  destruct (fs w !! path) as [[content|size]|]; reflexivity.
Qed.

Lemma read_pdf_file_empty (path : pystr) (w : world) :
  read_pdf_file (con := plain) env path w
  = (World (fs w)
       (trace w ++ [EvStdout (py "pdf file " ++ path ++ py " is corrupted")]),
     Ret []).
Proof.
  unfold read_pdf_file, read_pdf_file_in, read_pdf_body, try_except, bind,
    get_fs.
  change (name_bound module_globals "PdfReader") with false.
  destruct (fs w !! path) as [[content|size]|]; reflexivity.
Qed.

Lemma obeys_read_pdf_file (path : pystr) : obeys R T (read_pdf_file env path).
Proof.
  unfold read_pdf_file, read_pdf_file_in, read_pdf_body. obeys_go.
Qed.
Hint Extern 1 (obeys _ _ (read_pdf_file _ _)) =>
  apply obeys_read_pdf_file : obeys.

Lemma returns_read_pdf_file (path : pystr) :
  returns (read_pdf_file env path) (fun text => text = []).
Proof.
  intros w w' a H. rewrite read_pdf_file_handler in H.
  unfold bind, print, emit, raise, ret in H.
  destruct (accepts Stdout _); now injection H.
Qed.

Lemma obeys_unique_filename_now (d b : pystr) :
  obeys R T (unique_filename_now d b).
Proof. unfold unique_filename_now. obeys_go. Qed.
Hint Extern 1 (obeys _ _ (unique_filename_now _ _)) =>
  apply obeys_unique_filename_now : obeys.

Lemma obeys_get_field (v : pyval) (key : pystr) : obeys R T (get_field v key).
Proof. unfold get_field. obeys_go. Qed.
Hint Extern 1 (obeys _ _ (get_field _ _)) => apply obeys_get_field : obeys.

Lemma obeys_as_url (v : pyval) : obeys R T (as_url v).
Proof. unfold as_url. obeys_go. Qed.
Hint Extern 1 (obeys _ _ (as_url _)) => apply obeys_as_url : obeys.

Lemma obeys_filename_from_url (url fallback : pystr) :
  obeys R T (filename_from_url env url fallback).
Proof. unfold filename_from_url. obeys_go. Qed.
Hint Extern 1 (obeys _ _ (filename_from_url _ _ _)) =>
  apply obeys_filename_from_url : obeys.

Lemma obeys_download_track (d : pystr) (i : nat) (t : pyval) :
  obeys R T (download_track env d i t).
Proof. unfold download_track. obeys_go. Qed.
Hint Extern 1 (obeys _ _ (download_track _ _ _ _)) =>
  apply obeys_download_track : obeys.

(** The text is always empty, so the branch that calls [pdf_to_txt] is
    dead. *)
Lemma obeys_download_document (d : pystr) (i : nat) (doc : pyval) :
  obeys R T (download_document env d i doc).
Proof.
  unfold download_document.
  repeat (match goal with
          | |- obeys _ _ (bind (read_pdf_file _ _) _) =>
              apply (obeys_bind_returns R T L _ _ (fun text => text = []));
              [apply obeys_read_pdf_file
              |apply returns_read_pdf_file
              |intros ? ->; cbn [str_truthy]]
          end
          || obeys_step || solve [auto with obeys]).
Qed.
Hint Extern 1 (obeys _ _ (download_document _ _ _ _)) =>
  apply obeys_download_document : obeys.

Lemma obeys_download_assets (d : pystr) (prayer : pydict) :
  obeys R T (download_assets_for_prayer env d prayer).
Proof. unfold download_assets_for_prayer, for_enumerate. obeys_go. Qed.
Hint Extern 1 (obeys _ _ (download_assets_for_prayer _ _ _)) =>
  apply obeys_download_assets : obeys.

Lemma obeys_scrape_category (fuel : nat) (cid : Z) (title root : pystr) :
  obeys R T (scrape_category env fuel cid title root).
Proof.
  unfold scrape_category, for_iter_prayers. obeys_go.
  apply obeys_iter_prayers_from. intros acc d.
  unfold save_metadata. obeys_go.
Qed.
Hint Extern 1 (obeys _ _ (scrape_category _ _ _ _ _)) =>
  apply obeys_scrape_category : obeys.

Lemma obeys_main_category (fuel : nat) (total : Z) (item : pyval * pyval) :
  obeys R T (main_category env fuel total item).
Proof. unfold main_category. obeys_go. Qed.
Hint Extern 1 (obeys _ _ (main_category _ _ _ _)) =>
  apply obeys_main_category : obeys.

(** [main] raises [SystemExit], which is not an [Exception]. *)
Lemma obeys_main (fuel : nat) :
  T (SystemExit 1) -> obeys R T (main env fuel).
Proof.
  intros Hexit. unfold main. obeys_go.
  now apply (obeys_raise R T L).
Qed.

End ProgramObeys.

Lemma quiet_laws : laws quiet (fun _ => True).
Proof.
  split; unfold quiet; auto.
  intros w ev Hev H. simpl. apply Forall_app. split; [exact H|].
  constructor; [exact Hev|constructor].
Qed.

Lemma grows_laws : laws grows (fun e => is_Exception e = true).
Proof.
  split; unfold grows; auto.
  - intros w. exists []. now rewrite app_nil_r.
  - intros w1 w2 w3 [t1 H1] [t2 H2]. exists (t1 ++ t2).
    now rewrite H2, H1, app_assoc.
  - intros w f. exists []. simpl. now rewrite app_nil_r.
  - intros w ev _. now exists [ev].
Qed.

(** ** PDF text *)

Example scenario_files :
  let w := fst (main (Scenario.env true) 5 Scenario.start) in
  snd (main (Scenario.env true) 5 Scenario.start) = Ret tt
  /\ is_Some (fs w !! (Scenario.item_dir ++ py "/metadata.json"))
  /\ fs w !! (Scenario.item_dir ++ py "/documents/01 - test.pdf")
     = Some (File (Ref.bytes "%PDF-1.4 Hello"))
  /\ fs w !! (Scenario.item_dir ++ py "/documents/01 - test.txt") = None.
Proof.
  vm_compute. repeat split. eauto.
Qed.



Lemma join_page_texts (pages : list (option pystr)) (acc : pystr) :
  fold_left
    (fun text page =>
       text ++ match page with
               | Some t => if str_truthy t then t else []
               | None => []
               end) pages acc
  = acc ++ List.concat
      (List.map (fun page => match page with Some t => t | None => [] end) pages).
Proof.
  revert acc. induction pages as [|p r IH]; intros acc; simpl.
  - now rewrite app_nil_r.
  - rewrite IH, <- app_assoc. now destruct p as [[|c t]|].
Qed.

(** With [PdfReader] bound, [read_pdf_file] would return the texts of the
    pages, joined in order. *)
Lemma read_pdf_file_in_bound (env : PyEnv) (globals : list string)
    (path : pystr) (w : world) (content : list Byte.byte)
    (pages : list (option pystr)) :
  name_bound globals "PdfReader" = true ->
  fs w !! path = Some (File content) ->
  pdf_pages env content = Some pages ->
  read_pdf_file_in env globals path w
  = (w, Ret (List.concat
               (List.map (fun page => match page with Some t => t | None => [] end)
                         pages))).
Proof.
  intros Hb Hf Hp.
  unfold read_pdf_file_in, read_pdf_body, try_except, bind, get_fs.
  rewrite Hf, Hb, Hp. unfold ret. f_equal. f_equal.
  apply (join_page_texts pages []).
Qed.

(** C5. [read_pdf_file] on a readable PDF whose single page reads
    ["Hello"]: the lookup of [PdfReader] raises [NameError], the handler
    reports the file as corrupted, and the text returned is empty. Had the
    module imported [PdfReader], the text would be ["Hello"]. *)
Theorem read_pdf_file_loses_text :
  let env := Scenario.env true in
  let path := py "docs/01 - test.pdf" in
  let w := World {[ path := File (Ref.bytes "%PDF-1.4 Hello") ]} [] in
  pdf_pages env (Ref.bytes "%PDF-1.4 Hello") = Some [Some (py "Hello")]
  /\ read_pdf_file env path w
     = (World (fs w) [EvStdout (py "pdf file docs/01 - test.pdf is corrupted")],
        Ret [])
  /\ read_pdf_file_in env ("PdfReader"%string :: module_globals) path w
     = (w, Ret (py "Hello")).
Proof.
  intros env path w. split; [reflexivity|]. split.
  - rewrite read_pdf_file_empty. reflexivity.
  - rewrite (read_pdf_file_in_bound env _ path w
               (Ref.bytes "%PDF-1.4 Hello") [Some (py "Hello")]);
      reflexivity.
Qed.

(** ** [iter_prayers] *)

Lemma http_get_json_eq (env : PyEnv) (url : pystr) (w : world) :
  http_get_json env url w
  = (requested w url,
     match fetch_result env (net env (requests_made w) url) with
     | inl e => Raise e
     | inr v => Ret v
     end).
Proof.
  unfold http_get_json, fetch_result, bind, send_request, requested,
    read_body, decode_json, raise, ret.
  set (r := net env (requests_made w) url).
  destruct (have_requests env), (rs_error r); try reflexivity.
  - destruct ((400 <=? rs_status r) && (rs_status r <? 600))%Z; [reflexivity|].
    destruct (rs_body_error r); [reflexivity|].
    destruct (utf8_decode env _) as [s|]; [|reflexivity].
    now destruct (json_loads env s).
  - destruct (negb _); [reflexivity|].
    destruct (rs_body_error r); [reflexivity|].
    destruct (utf8_decode env _) as [s|]; [|reflexivity].
    now destruct (json_loads env s).
Qed.

Lemma fetch_result_Exception (env : PyEnv) (r : response) (e : exc) :
  fetch_result env r = inl e -> is_Exception e = true.
Proof.
  unfold fetch_result.
  destruct (have_requests env), (rs_error r);
    repeat match goal with
           | |- context [if ?b then _ else _] => destruct b
           | |- context [match ?x with _ => _ end] => destruct x
           end;
    intros [= <-]; reflexivity.
Qed.

(** The item loop runs the consumer over the selected items, in order. *)
Lemma yield_items_eq {A} (body : A -> pydict -> M A) (items : list pyval) :
  forall (seen : gset Z) (acc : A) (w : world),
    yield_items body items seen acc w
    = (acc' <- for_each (select_items seen items) body acc ;;
       ret (seen_after seen items, acc')) w.
Proof.
  induction items as [|p rest IH]; intros seen acc w; [reflexivity|].
  destruct p as [| | | | | |d]; try apply IH.
  cbn [yield_items select_items seen_after]. fold (item_id d).
  destruct (item_id d) as [z|].
  - destruct (bool_decide (z ∈ seen)); [apply IH|].
    cbn [for_each]. unfold bind.
    destruct (body acc d w) as [w' [a| |]]; [|reflexivity..].
    rewrite IH. reflexivity.
  - cbn [for_each]. unfold bind.
    destruct (body acc d w) as [w' [a| |]]; [|reflexivity..].
    rewrite IH. reflexivity.
Qed.

Lemma for_each_collect (l : list pydict) (acc : list pydict) (w : world) :
  for_each l collect acc w = (w, Ret (acc ++ l)).
Proof.
  revert acc. induction l as [|x r IH]; intros acc; simpl.
  - unfold ret. now rewrite app_nil_r.
  - unfold bind, collect, ret. fold (@ret (list pydict)).
    change (for_each r (fun acc p => ret (acc ++ [p])) (acc ++ [x]) w)
      with (for_each r collect (acc ++ [x]) w).
    rewrite IH. now rewrite <- app_assoc.
Qed.

Lemma yield_items_collect (items : list pyval) (seen : gset Z)
    (acc : list pydict) (w : world) :
  yield_items collect items seen acc w
  = (w, Ret (seen_after seen items, acc ++ select_items seen items)).
Proof.
  rewrite yield_items_eq. unfold bind. now rewrite for_each_collect.
Qed.

Lemma total_reached_eq (env : PyEnv) (total_count : pyval) (seen : gset Z)
    (w : world) :
  total_reached env total_count seen w
  = (w, match total_check env total_count seen with
        | inl e => Raise e
        | inr b => Ret b
        end).
Proof.
  unfold total_reached, total_check, bind, lift.
  destruct total_count; try reflexivity;
    destruct (py_int env _); reflexivity.
Qed.

(** One round of the [while True] loop. *)
Lemma iter_prayers_from_step {A} (env : PyEnv) (fuel : nat)
    (body : A -> pydict -> M A) (cid : Z) (page : nat) (seen : gset Z)
    (total : pyval) (acc : A) (w : world) :
  iter_prayers_from env (S fuel) body cid page seen total acc w
  = let w1 := requested w (page_url cid page) in
    match fetch_result env (net env (requests_made w) (page_url cid page)) with
    | inl _ => (w1, Ret acc)
    | inr (VDict d) =>
        let total' := dict_get (py "totalCount") d total in
        if negb (py_truthy (prayers_of d)) then (w1, Ret acc)
        else
          match py_iter (prayers_of d) with
          | None => (w1, Raise TypeError)
          | Some items =>
              (sa <- yield_items body items seen acc ;;
               stop <- total_reached env total' (fst sa) ;;
               if stop then ret (snd sa)
               else iter_prayers_from env fuel body cid (S page)
                      (fst sa) total' (snd sa)) w1
          end
    | inr _ => (w1, Raise AttributeError)
    end.
Proof.
  cbn [iter_prayers_from]. unfold bind at 1. unfold try_except, bind at 1.
  rewrite http_get_json_eq.
  destruct (fetch_result env _) as [e|v] eqn:E.
  - rewrite (fetch_result_Exception _ _ _ E). reflexivity.
  - unfold ret at 1. cbv zeta. fold (prayers_of).
    destruct v; try reflexivity.
    fold (prayers_of d).
    destruct (negb (py_truthy (prayers_of d))); [reflexivity|].
    destruct (py_iter (prayers_of d)); reflexivity.
Qed.

Lemma requests_made_requested (w : world) (url : pystr) :
  requests_made (requested w url) = S (requests_made w).
Proof.
  unfold requests_made, requested. cbn [trace].
  rewrite List.filter_app, length_app. simpl. lia.
Qed.

(** The same round, for [list(iter_prayers(...))]. *)
Lemma iter_collect_step (env : PyEnv) (fuel : nat) (cid : Z) (page : nat)
    (seen : gset Z) (total : pyval) (acc : list pydict) (w : world) :
  iter_prayers_from env (S fuel) collect cid page seen total acc w
  = let w1 := requested w (page_url cid page) in
    match fetch_result env (net env (requests_made w) (page_url cid page)) with
    | inl _ => (w1, Ret acc)
    | inr (VDict d) =>
        let total' := dict_get (py "totalCount") d total in
        if negb (py_truthy (prayers_of d)) then (w1, Ret acc)
        else
          match py_iter (prayers_of d) with
          | None => (w1, Raise TypeError)
          | Some items =>
              match total_check env total' (seen_after seen items) with
              | inl e => (w1, Raise e)
              | inr true => (w1, Ret (acc ++ select_items seen items))
              | inr false =>
                  iter_prayers_from env fuel collect cid (S page)
                    (seen_after seen items) total'
                    (acc ++ select_items seen items) w1
              end
          end
    | inr _ => (w1, Raise AttributeError)
    end.
Proof.
  rewrite iter_prayers_from_step. cbv zeta.
  destruct (fetch_result env _) as [e|[]]; try reflexivity.
  destruct (negb _); [reflexivity|].
  destruct (py_iter _) as [items|]; [|reflexivity].
  unfold bind at 1. rewrite yield_items_collect. cbn [fst snd].
  unfold bind. rewrite total_reached_eq.
  destruct (total_check env _ _) as [e|[]]; reflexivity.
Qed.

Lemma ids_cons (d : pydict) (l : list pydict) :
  ids (d :: l) = match item_id d with Some z => z :: ids l | None => ids l end.
Proof. reflexivity. Qed.

Lemma select_items_fresh (items : list pyval) :
  forall (seen : gset Z) (z : Z),
    z ∈ ids (select_items seen items) -> z ∉ seen.
Proof.
  induction items as [|p rest IH]; intros seen z; simpl.
  - intros H. inversion H.
  - destruct p as [| | | | | |d]; try apply IH.
    destruct (item_id d) as [x|] eqn:E.
    + destruct (bool_decide (x ∈ seen)) eqn:B; [apply IH|].
      apply bool_decide_eq_false in B.
      rewrite ids_cons, E.
      intros H. apply elem_of_cons in H as [->|H]; [exact B|].
      apply IH in H. set_solver.
    + rewrite ids_cons, E. apply IH.
Qed.

Lemma select_items_NoDup (items : list pyval) :
  forall seen : gset Z, NoDup (ids (select_items seen items)).
Proof.
  induction items as [|p rest IH]; intros seen; simpl.
  - constructor.
  - destruct p as [| | | | | |d]; try apply IH.
    destruct (item_id d) as [x|] eqn:E.
    + destruct (bool_decide (x ∈ seen)); [apply IH|].
      rewrite ids_cons, E.
      constructor; [|apply IH].
      intros H. apply select_items_fresh in H. set_solver.
    + rewrite ids_cons, E. apply IH.
Qed.

Lemma seen_after_eq (items : list pyval) :
  forall seen : gset Z,
    seen_after seen items = seen ∪ list_to_set (ids (select_items seen items)).
Proof.
  induction items as [|p rest IH]; intros seen; simpl.
  - set_solver.
  - destruct p as [| | | | | |d]; try apply IH.
    destruct (item_id d) as [x|] eqn:E.
    + destruct (bool_decide (x ∈ seen)); [apply IH|].
      rewrite IH. rewrite ids_cons, E.
      cbn [list_to_set]. set_solver.
    + rewrite IH. now rewrite ids_cons, E.
Qed.

Lemma select_items_app (l1 l2 : list pyval) :
  forall seen : gset Z,
    select_items seen (l1 ++ l2)
    = select_items seen l1 ++ select_items (seen_after seen l1) l2.
Proof.
  induction l1 as [|p rest IH]; intros seen; simpl; [reflexivity|].
  destruct p as [| | | | | |d]; try apply IH.
  destruct (item_id d) as [x|].
  - destruct (bool_decide (x ∈ seen)); [apply IH|]. simpl. now rewrite IH.
  - simpl. now rewrite IH.
Qed.

Lemma seen_after_app (l1 l2 : list pyval) :
  forall seen : gset Z,
    seen_after seen (l1 ++ l2) = seen_after (seen_after seen l1) l2.
Proof.
  induction l1 as [|p rest IH]; intros seen; simpl; [reflexivity|].
  destruct p as [| | | | | |d]; try apply IH.
  destruct (item_id d) as [x|]; [|apply IH].
  destruct (bool_decide (x ∈ seen)); apply IH.
Qed.

(** Whatever the pages, the items collected never repeat an integer
    identifier. *)
Lemma iter_collect_NoDup (env : PyEnv) (cid : Z) (fuel : nat) :
  forall (page : nat) (seen : gset Z) (total : pyval) (acc : list pydict)
         (w w' : world) (ys : list pydict),
    NoDup (ids acc) ->
    (forall z, z ∈ ids acc -> z ∈ seen) ->
    iter_prayers_from env fuel collect cid page seen total acc w = (w', Ret ys) ->
    NoDup (ids ys).
Proof.
  induction fuel as [|fuel IH]; intros page seen total acc w w' ys Hnd Hsub;
    [discriminate|].
  assert (Hext : forall items,
            NoDup (ids (acc ++ select_items seen items))
            /\ forall z, z ∈ ids (acc ++ select_items seen items) ->
                         z ∈ seen_after seen items).
  { intros items. unfold ids. rewrite omap_app. fold (ids acc).
    fold (ids (select_items seen items)). split.
    - apply NoDup_app. split; [exact Hnd|]. split; [|apply select_items_NoDup].
      intros z Hz Hz'. apply select_items_fresh in Hz'. auto.
    - intros z Hz. rewrite seen_after_eq.
      apply elem_of_app in Hz as [Hz|Hz]; [set_solver|].
      apply elem_of_union_r. now apply elem_of_list_to_set. }
  rewrite iter_collect_step. cbv zeta.
  destruct (fetch_result env _) as [e|[| | | | | |d]]; try discriminate.
  - now intros [= _ <-].
  - destruct (negb _); [now intros [= _ <-]|].
    destruct (py_iter _) as [items|]; [|discriminate].
    destruct (Hext items) as [Hnd' Hsub'].
    destruct (total_check env _ _) as [e|[]]; [discriminate| |].
    + now intros [= _ <-].
    + apply IH; assumption.
Qed.

(** Pages that carry items and after which the loop goes on, then a page
    without items: the loop requests them in order, collects the selected
    items of all, and stops. *)
Lemma iter_collect_pages (env : PyEnv) (cid : Z)
    (pages : list (pydict * list pyval)) :
  forall (fuel page : nat) (seen : gset Z) (total : pyval)
         (acc : list pydict) (w : world) (dk : pydict),
    (forall i d items, pages !! i = Some (d, items) ->
       fetch_result env (net env (requests_made w + i) (page_url cid (page + i)))
       = inr (VDict d)
       /\ prayers_of d = VList items
       /\ items <> []
       /\ goes_on_from env pages seen total i) ->
    fetch_result env
      (net env (requests_made w + length pages)
         (page_url cid (page + length pages))) = inr (VDict dk) ->
    py_truthy (prayers_of dk) = false ->
    (length pages < fuel)%nat ->
    iter_prayers_from env fuel collect cid page seen total acc w
    = (World (fs w)
         (trace w ++ List.map (fun i => EvRequest (page_url cid (page + i)))
                       (seq 0 (S (length pages)))),
       Ret (acc ++ select_items seen (List.concat (List.map snd pages)))).
Proof.
  induction pages as [|[d items] rest IH];
    intros fuel page seen total acc w dk Hpages Hlast Hempty Hfuel;
    (destruct fuel as [|fuel]; [simpl in Hfuel; lia|]);
    rewrite iter_collect_step; cbv zeta.
  - simpl in Hlast. rewrite !Nat.add_0_r in Hlast. rewrite Hlast, Hempty.
    simpl. rewrite Nat.add_0_r, app_nil_r. reflexivity.
  - destruct (Hpages 0%nat d items eq_refl) as (Hf & Hp & Hne & Hgo).
    rewrite !Nat.add_0_r in Hf. rewrite Hf, Hp.
    assert (Htr : py_truthy (VList items) = true)
      by (destruct items; [contradiction|reflexivity]).
    rewrite Htr. cbn [negb py_iter].
    unfold goes_on_from in Hgo.
    change (take 1 ((d, items) :: rest)) with [(d, items)] in Hgo.
    cbn [pages_state fst snd] in Hgo. rewrite Hgo.
    rewrite (IH fuel (S page) _ _ _ _ dk).
    + unfold requested. cbn [fs trace].
      assert (Htrace :
        (trace w ++ [EvRequest (page_url cid page)])
        ++ List.map (fun i => EvRequest (page_url cid (S page + i)))
             (seq 0 (S (length rest)))
        = trace w ++ List.map (fun i => EvRequest (page_url cid (page + i)))
                       (seq 0 (S (length ((d, items) :: rest))))).
      { rewrite <- app_assoc. f_equal.
        change (seq 0 (S (length ((d, items) :: rest))))
          with (0%nat :: seq 1 (S (length rest))).
        rewrite <- seq_shift, List.map_cons, List.map_map, Nat.add_0_r.
        cbn [app]. f_equal.
        apply List.map_ext. intros i. f_equal. f_equal. lia. }
      rewrite Htrace. f_equal. f_equal.
      cbn [List.map List.concat snd].
      now rewrite select_items_app, <- app_assoc.
    + intros i d' items' Hi. rewrite requests_made_requested.
      replace (S (requests_made w) + i)%nat with (requests_made w + S i)%nat
        by lia.
      replace (S page + i)%nat with (page + S i)%nat by lia.
      destruct (Hpages (S i) d' items' Hi) as (Hf' & Hp' & Hne' & Hgo').
      repeat split; try assumption.
    + rewrite requests_made_requested.
      replace (S (requests_made w) + length rest)%nat
        with (requests_made w + length ((d, items) :: rest))%nat
        by (simpl; lia).
      replace (S page + length rest)%nat
        with (page + length ((d, items) :: rest))%nat by (simpl; lia).
      exact Hlast.
    + exact Hempty.
    + simpl in Hfuel. lia.
Qed.

(** Pages that report no total never stop the loop by it. *)
Lemma goes_on_no_total (env : PyEnv) (pages : list (pydict * list pyval)) :
  (forall j d items, pages !! j = Some (d, items) ->
     dict_get (py "totalCount") d VNone = VNone) ->
  forall i, goes_on env pages i.
Proof.
  intros Hnone i. unfold goes_on, goes_on_from.
  assert (H : forall l seen,
            (forall j d items, l !! j = Some (d, items) ->
               dict_get (py "totalCount") d VNone = VNone) ->
            snd (pages_state l seen VNone) = VNone).
  { induction l as [|[d items] r IH]; intros seen Hl; [reflexivity|].
    cbn [pages_state]. rewrite (Hl 0%nat d items eq_refl).
    apply IH. intros j d' items' Hj. exact (Hl (S j) d' items' Hj). }
  cbv zeta. rewrite H; [reflexivity|].
  intros j d items Hj. apply lookup_take_Some in Hj as [Hj _].
  exact (Hnone j d items Hj).
Qed.

(** Items that all carry distinct, unseen integer identifiers are all
    selected, and each adds one identifier. *)
Lemma select_items_all (l : list pydict) :
  forall seen : gset Z,
    Forall (fun d => is_Some (item_id d)) l ->
    NoDup (List.map item_id l) ->
    (forall d z, d ∈ l -> item_id d = Some z -> z ∉ seen) ->
    select_items seen (List.map VDict l) = l
    /\ size (seen_after seen (List.map VDict l)) = (size seen + length l)%nat.
Proof.
  induction l as [|d r IH]; intros seen Hall Hnd Hfresh; simpl.
  - split; [reflexivity|lia].
  - inversion Hall as [|? ? [z Hz] Hall']; subst.
    inversion Hnd as [|? ? Hnotin Hnd']; subst.
    rewrite Hz.
    assert (Hzs : z ∉ seen) by (apply (Hfresh d); [left|exact Hz]).
    rewrite bool_decide_eq_false_2 by exact Hzs.
    destruct (IH ({[z]} ∪ seen) Hall' Hnd') as [Hsel Hsize].
    + intros d' z' Hd' Hz'. apply not_elem_of_union. split.
      * intros Heq. apply elem_of_singleton in Heq. subst z'.
        apply Hnotin. rewrite Hz, <- Hz'.
        apply list_elem_of_fmap. eauto.
      * apply (Hfresh d'); [now right|exact Hz'].
    + rewrite Hsel, Hsize. split; [reflexivity|].
      rewrite size_union by set_solver. rewrite size_singleton. lia.
Qed.

(** C7. A page fetch that fails, whether by a transport error, an HTTP
    error status or an unreadable body, ends the pagination as if the data
    had run out: the loop returns what it had, the request is all it leaves
    on the trace, and no exception reaches the caller. *)
Theorem iter_prayers_fetch_failure_silent (env : PyEnv) :
  (forall r, rs_error r = true -> exists e, fetch_result env r = inl e)
  /\ (forall r, (400 <= rs_status r < 600)%Z ->
                exists e, fetch_result env r = inl e)
  /\ (forall r, have_requests env = false ->
                ~ (200 <= rs_status r < 300)%Z ->
                exists e, fetch_result env r = inl e)
  /\ (forall url w e,
        fetch_result env (net env (requests_made w) url) = inl e ->
        http_get_json env url w = (requested w url, Raise e))
  /\ (forall A fuel (body : A -> pydict -> M A) cid page seen total acc w e,
        fetch_result env (net env (requests_made w) (page_url cid page)) = inl e ->
        iter_prayers_from env (S fuel) body cid page seen total acc w
        = (requested w (page_url cid page), Ret acc))
  /\ (forall fuel cid w e,
        fetch_result env (net env (requests_made w) (page_url cid 0)) = inl e ->
        iter_prayers env (S fuel) cid w = (requested w (page_url cid 0), Ret [])).
Proof.
  assert (Hloop : forall A fuel (body : A -> pydict -> M A) cid page seen
                         total acc w e,
            fetch_result env (net env (requests_made w) (page_url cid page))
            = inl e ->
            iter_prayers_from env (S fuel) body cid page seen total acc w
            = (requested w (page_url cid page), Ret acc)).
  { intros A fuel body cid page seen total acc w e H.
    rewrite iter_prayers_from_step. cbv zeta. now rewrite H. }
  repeat split.
  - intros r Hr. unfold fetch_result. rewrite Hr.
    destruct (have_requests env); eauto.
  - intros r [Hlo Hhi]. unfold fetch_result.
    assert (E1 : ((400 <=? rs_status r) && (rs_status r <? 600))%Z = true)
      by (apply andb_true_iff; split; [apply Z.leb_le|apply Z.ltb_lt]; lia).
    assert (E2 : ((200 <=? rs_status r) && (rs_status r <? 300))%Z = false).
    { apply andb_false_iff. right. apply Z.ltb_ge. lia. }
    rewrite E1, E2. destruct (have_requests env), (rs_error r); eauto.
  - intros r Hreq Hst. unfold fetch_result. rewrite Hreq.
    assert (E : ((200 <=? rs_status r) && (rs_status r <? 300))%Z = false).
    { destruct ((200 <=? rs_status r) && (rs_status r <? 300))%Z eqn:E;
        [|reflexivity].
      apply andb_true_iff in E as [E1 E2].
      apply Z.leb_le in E1. apply Z.ltb_lt in E2. lia. }
    rewrite E. destruct (rs_error r); eauto.
  - intros url w e H. rewrite http_get_json_eq. now rewrite H.
  - exact Hloop.
  - intros fuel cid w e H. unfold iter_prayers, for_iter_prayers.
    now apply (Hloop _ _ _ _ _ _ _ _ _ e).
Qed.

Lemma iter_prayers_fetch_failure_silent_witness :
  fetch_result (Paging.env Paging.broken)
    (net (Paging.env Paging.broken) (requests_made Paging.start) (page_url 7 0))
  = inl (HTTPError 500)
  /\ iter_prayers (Paging.env Paging.broken) 1 7 Paging.start
     = (requested Paging.start (page_url 7 0), Ret []).
Proof.
  assert (H : fetch_result (Paging.env Paging.broken)
                (net (Paging.env Paging.broken) (requests_made Paging.start)
                   (page_url 7 0))
              = inl (HTTPError 500)) by reflexivity.
  split; [exact H|].
  destruct (iter_prayers_fetch_failure_silent (Paging.env Paging.broken))
    as (_ & _ & _ & _ & _ & Hiter).
  exact (Hiter 0%nat 7%Z Paging.start (HTTPError 500) H).
Defined.

(** C3. The item loop hands on the items of a page in order, skipping
    those whose integer [id] is in the seen-set and marking the others; a
    page whose [prayers] is empty or absent ends the iteration at once; the
    items of a whole run never repeat an integer [id]. So when pages
    [0 .. k-1] carry items, without a reported total being reached, and
    page [k] carries none, the iterator requests exactly the pages
    [0 .. k], in order, and yields the selected items of pages [0 .. k-1],
    in page order (for [k = 2]: those of pages 0 and 1). Pages that report
    no total at all are such pages. *)
Theorem iter_prayers_pages_deduplicated (env : PyEnv) (cid : Z) :
  (forall A (body : A -> pydict -> M A) items seen acc w,
      yield_items body items seen acc w
      = (acc' <- for_each (select_items seen items) body acc ;;
         ret (seen_after seen items, acc')) w)
  /\ (forall seen items,
        NoDup (ids (select_items seen items))
        /\ (forall z, z ∈ ids (select_items seen items) -> z ∉ seen)
        /\ seen_after seen items
           = seen ∪ list_to_set (ids (select_items seen items)))
  /\ (forall fuel w w' ys,
        iter_prayers env fuel cid w = (w', Ret ys) -> NoDup (ids ys))
  /\ (forall A fuel (body : A -> pydict -> M A) page seen total acc w d,
        fetch_result env (net env (requests_made w) (page_url cid page))
        = inr (VDict d) ->
        py_truthy (prayers_of d) = false ->
        iter_prayers_from env (S fuel) body cid page seen total acc w
        = (requested w (page_url cid page), Ret acc))
  /\ (forall (pages : list (pydict * list pyval)) (dk : pydict) fuel w,
        (forall i d items, pages !! i = Some (d, items) ->
           fetch_result env (net env (requests_made w + i) (page_url cid i))
           = inr (VDict d)
           /\ prayers_of d = VList items
           /\ items <> []
           /\ goes_on env pages i) ->
        fetch_result env
          (net env (requests_made w + length pages) (page_url cid (length pages)))
        = inr (VDict dk) ->
        py_truthy (prayers_of dk) = false ->
        (length pages < fuel)%nat ->
        iter_prayers env fuel cid w
        = (World (fs w)
             (trace w ++ List.map (fun i => EvRequest (page_url cid i))
                           (seq 0 (S (length pages)))),
           Ret (select_items ∅ (List.concat (List.map snd pages)))))
  /\ (forall (pages : list (pydict * list pyval)),
        (forall j d items, pages !! j = Some (d, items) ->
           dict_get (py "totalCount") d VNone = VNone) ->
        forall i, goes_on env pages i).
Proof.
  split; [intros; apply yield_items_eq|].
  split.
  { intros seen items. split; [apply select_items_NoDup|].
    split; [apply select_items_fresh|apply seen_after_eq]. }
  split.
  { intros fuel w w' ys H. unfold iter_prayers, for_iter_prayers in H.
    apply (iter_collect_NoDup env cid fuel 0 ∅ VNone [] w w' ys);
      [constructor| |exact H].
    intros z Hz. inversion Hz. }
  split.
  { intros A fuel body page seen total acc w d Hf He.
    rewrite iter_prayers_from_step. cbv zeta. now rewrite Hf, He. }
  split; [|apply goes_on_no_total].
  intros pages dk fuel w Hpages Hlast Hempty Hfuel.
  unfold iter_prayers, for_iter_prayers.
  exact (iter_collect_pages env cid pages fuel 0 ∅ VNone [] w dk Hpages Hlast
           Hempty Hfuel).
Qed.

Lemma iter_prayers_pages_deduplicated_witness :
  iter_prayers (Paging.env Paging.plain) 3 7 Paging.start
  = (World ∅ [EvRequest (page_url 7 0); EvRequest (page_url 7 1);
              EvRequest (page_url 7 2)],
     Ret [Paging.entry 1; Paging.entry 2; Paging.entry 3]).
Proof.
  destruct (iter_prayers_pages_deduplicated (Paging.env Paging.plain) 7)
    as (_ & _ & _ & _ & H & _).
  apply (H [ (Paging.page0, [VDict (Paging.entry 1); VDict (Paging.entry 2)]);
             (Paging.page1, [VDict (Paging.entry 2); VDict (Paging.entry 3)]) ]
           Paging.page2 3%nat Paging.start).
  - intros [|[|i]] d items; simpl; intros [= <- <-];
      (split; [vm_compute; reflexivity|]);
      (split; [reflexivity|]); (split; [discriminate|reflexivity]).
  - vm_compute. reflexivity.
  - reflexivity.
  - simpl. lia.
Defined.

Lemma pages_state_app (l1 l2 : list (pydict * list pyval)) :
  forall (seen : gset Z) (total : pyval),
    pages_state (l1 ++ l2) seen total
    = pages_state l2 (fst (pages_state l1 seen total))
        (snd (pages_state l1 seen total)).
Proof.
  induction l1 as [|[d items] rest IH]; intros seen total; [reflexivity|].
  cbn [app pages_state]. apply IH.
Qed.

Lemma pages_state_seen (l : list (pydict * list pyval)) :
  forall (seen : gset Z) (total : pyval),
    fst (pages_state l seen total)
    = seen_after seen (List.concat (List.map snd l)).
Proof.
  induction l as [|[d items] rest IH]; intros seen total; [reflexivity|].
  cbn [pages_state List.map List.concat snd]. rewrite IH.
  now rewrite seen_after_app.
Qed.

(** A total stays as it is over pages that do not carry the key. *)
Lemma pages_state_omitted (l : list (pydict * list pyval)) :
  Forall (fun p => dict_find (py "totalCount") (fst p) = None) l ->
  forall (seen : gset Z) (total : pyval),
    snd (pages_state l seen total) = total.
Proof.
  induction 1 as [|[d items] rest Hd _ IH]; intros seen total; [reflexivity|].
  cbn [pages_state]. rewrite IH. cbn [fst] in Hd. unfold dict_get.
  now rewrite Hd.
Qed.

(** Pages that carry items and after which the loop goes on, then a page
    with items after which the seen-set has reached the total: the loop
    requests them in order, collects the selected items of all, and
    stops. *)
Lemma iter_collect_counted (env : PyEnv) (cid : Z)
    (pages : list (pydict * list pyval)) :
  forall (fuel page : nat) (seen : gset Z) (total : pyval)
         (acc : list pydict) (w : world) (dl : pydict) (last : list pyval),
    (forall i d items, pages !! i = Some (d, items) ->
       fetch_result env (net env (requests_made w + i) (page_url cid (page + i)))
       = inr (VDict d)
       /\ prayers_of d = VList items
       /\ items <> []
       /\ goes_on_from env pages seen total i) ->
    fetch_result env
      (net env (requests_made w + length pages)
         (page_url cid (page + length pages))) = inr (VDict dl) ->
    prayers_of dl = VList last ->
    last <> [] ->
    total_check env
      (snd (pages_state (pages ++ [(dl, last)]) seen total))
      (fst (pages_state (pages ++ [(dl, last)]) seen total)) = inr true ->
    (length pages < fuel)%nat ->
    iter_prayers_from env fuel collect cid page seen total acc w
    = (World (fs w)
         (trace w ++ List.map (fun i => EvRequest (page_url cid (page + i)))
                       (seq 0 (S (length pages)))),
       Ret (acc ++ select_items seen
                     (List.concat (List.map snd (pages ++ [(dl, last)]))))).
Proof.
  induction pages as [|[d items] rest IH];
    intros fuel page seen total acc w dl last Hpages Hlast Hitems Hne Hstop
      Hfuel;
    (destruct fuel as [|fuel]; [simpl in Hfuel; lia|]);
    rewrite iter_collect_step; cbv zeta.
  - simpl in Hlast. rewrite !Nat.add_0_r in Hlast. rewrite Hlast, Hitems.
    assert (Htr : py_truthy (VList last) = true)
      by (destruct last; [contradiction|reflexivity]).
    rewrite Htr. cbn [negb py_iter].
    cbn [app pages_state fst snd] in Hstop. rewrite Hstop.
    cbn [List.map List.concat snd app seq]. rewrite app_nil_r, Nat.add_0_r.
    reflexivity.
  - destruct (Hpages 0%nat d items eq_refl) as (Hf & Hp & Hne' & Hgo).
    rewrite !Nat.add_0_r in Hf. rewrite Hf, Hp.
    assert (Htr : py_truthy (VList items) = true)
      by (destruct items; [contradiction|reflexivity]).
    rewrite Htr. cbn [negb py_iter].
    unfold goes_on_from in Hgo.
    change (take 1 ((d, items) :: rest)) with [(d, items)] in Hgo.
    cbn [pages_state fst snd] in Hgo. rewrite Hgo.
    rewrite (IH fuel (S page) _ _ _ _ dl last).
    + unfold requested. cbn [fs trace].
      assert (Htrace :
        (trace w ++ [EvRequest (page_url cid page)])
        ++ List.map (fun i => EvRequest (page_url cid (S page + i)))
             (seq 0 (S (length rest)))
        = trace w ++ List.map (fun i => EvRequest (page_url cid (page + i)))
                       (seq 0 (S (length ((d, items) :: rest))))).
      { rewrite <- app_assoc. f_equal.
        change (seq 0 (S (length ((d, items) :: rest))))
          with (0%nat :: seq 1 (S (length rest))).
        rewrite <- seq_shift, List.map_cons, List.map_map, Nat.add_0_r.
        cbn [app]. f_equal.
        apply List.map_ext. intros i. f_equal. f_equal. lia. }
      rewrite Htrace. f_equal. f_equal.
      cbn [List.map List.concat snd app].
      now rewrite select_items_app, <- app_assoc.
    + intros i d' items' Hi. rewrite requests_made_requested.
      replace (S (requests_made w) + i)%nat with (requests_made w + S i)%nat
        by lia.
      replace (S page + i)%nat with (page + S i)%nat by lia.
      destruct (Hpages (S i) d' items' Hi) as (Hf' & Hp' & Hne'' & Hgo').
      repeat split; try assumption.
    + rewrite requests_made_requested.
      replace (S (requests_made w) + length rest)%nat
        with (requests_made w + length ((d, items) :: rest))%nat
        by (simpl; lia).
      replace (S page + length rest)%nat
        with (page + length ((d, items) :: rest))%nat by (simpl; lia).
      exact Hlast.
    + exact Hitems.
    + exact Hne.
    + exact Hstop.
    + simpl in Hfuel. lia.
Qed.

(** The state of the loop after the first pages of a run in which one
    page reports a total and no other page carries the key. *)
Lemma pages_state_reported (before after : list (pydict * list pyval))
    (dj : pydict) (itemsj : list pyval) (v : pyval) (m : nat) :
  Forall (fun p => dict_find (py "totalCount") (fst p) = None)
    (before ++ after) ->
  dict_find (py "totalCount") dj = Some v ->
  let pages := before ++ (dj, itemsj) :: after in
  fst (pages_state (take m pages) ∅ VNone)
  = seen_after ∅ (List.concat (List.map snd (take m pages)))
  /\ snd (pages_state (take m pages) ∅ VNone)
     = if (length before <? m)%nat then v else VNone.
Proof.
  intros Homit Hv pages. split; [apply pages_state_seen|].
  apply Forall_app in Homit as [Hb Ha].
  destruct (length before <? m)%nat eqn:E.
  - apply Nat.ltb_lt in E. unfold pages.
    rewrite take_app_ge by lia.
    destruct (m - length before)%nat as [|k] eqn:Ek; [lia|].
    cbn [take]. rewrite pages_state_app. cbn [pages_state].
    rewrite (pages_state_omitted _ (Forall_take _ _ _ Ha)).
    rewrite (pages_state_omitted _ Hb). unfold dict_get. now rewrite Hv.
  - apply Nat.ltb_ge in E. unfold pages.
    rewrite take_app_le by lia.
    now rewrite (pages_state_omitted _ (Forall_take _ _ _ Hb)).
Qed.

(** C4 (as the code has it). The known total is what the last page that
    carried the [totalCount] key gave: a page without the key leaves it as
    it was, a page with the key replaces it, and [null] under the key makes
    the total unknown again, so that the loop goes on whatever has been
    seen. When, after the items of a page, the seen-set has reached the
    known total, the iteration ends there: the round consists of the one
    request and the consumer's work on the selected items. So when one page
    reports a total and no other page carries the key, the iterator
    requests the pages up to the first one after which the seen-set has
    reached that total, however many pages lie between the two, and yields
    the selected items of all of them. With a total of three and three
    items of distinct identifiers on two pages, the second without the key,
    it yields the three and requests pages 0 and 1 only. *)
Theorem iter_prayers_total_count (env : PyEnv) (cid : Z) :
  (forall d total,
      dict_find (py "totalCount") d = None ->
      dict_get (py "totalCount") d total = total)
  /\ (forall A fuel (body : A -> pydict -> M A) page seen total acc w d items n,
        fetch_result env (net env (requests_made w) (page_url cid page))
        = inr (VDict d) ->
        py_truthy (prayers_of d) = true ->
        py_iter (prayers_of d) = Some items ->
        dict_get (py "totalCount") d total <> VNone ->
        py_int env (dict_get (py "totalCount") d total) = inr n ->
        (n <= Z.of_nat (size (seen_after seen items)))%Z ->
        iter_prayers_from env (S fuel) body cid page seen total acc w
        = for_each (select_items seen items) body acc
            (requested w (page_url cid page)))
  /\ (forall fuel w d0 d1 (l0 l1 : list pydict),
        (2 <= fuel)%nat ->
        fetch_result env (net env (requests_made w) (page_url cid 0))
        = inr (VDict d0) ->
        fetch_result env (net env (S (requests_made w)) (page_url cid 1))
        = inr (VDict d1) ->
        dict_find (py "totalCount") d0 = Some (VInt 3) ->
        dict_find (py "totalCount") d1 = None ->
        prayers_of d0 = VList (List.map VDict l0) ->
        prayers_of d1 = VList (List.map VDict l1) ->
        l0 <> [] -> l1 <> [] ->
        length (l0 ++ l1) = 3%nat ->
        Forall (fun d => is_Some (item_id d)) (l0 ++ l1) ->
        NoDup (List.map item_id (l0 ++ l1)) ->
        iter_prayers env fuel cid w
        = (World (fs w)
             (trace w ++ [EvRequest (page_url cid 0); EvRequest (page_url cid 1)]),
           Ret (l0 ++ l1)))
  /\ (forall (before after : list (pydict * list pyval)) (dj : pydict)
             (itemsj : list pyval) (v : pyval) (n : Z) (fuel : nat) (w : world),
        let pages := before ++ (dj, itemsj) :: after in
        (forall i d items, pages !! i = Some (d, items) ->
           fetch_result env (net env (requests_made w + i) (page_url cid i))
           = inr (VDict d)
           /\ prayers_of d = VList items
           /\ items <> []) ->
        Forall (fun p => dict_find (py "totalCount") (fst p) = None)
          (before ++ after) ->
        dict_find (py "totalCount") dj = Some v ->
        py_int env v = inr n ->
        (forall i, (length before <= i)%nat -> (S i < length pages)%nat ->
           (Z.of_nat (size (seen_after ∅
                              (List.concat (List.map snd (take (S i) pages)))))
            < n)%Z) ->
        (n <= Z.of_nat (size (seen_after ∅
                                (List.concat (List.map snd pages)))))%Z ->
        (length pages <= fuel)%nat ->
        iter_prayers env fuel cid w
        = (World (fs w)
             (trace w ++ List.map (fun i => EvRequest (page_url cid i))
                           (seq 0 (length pages))),
           Ret (select_items ∅ (List.concat (List.map snd pages)))))
  /\ (forall A fuel (body : A -> pydict -> M A) page seen total acc w d items,
        fetch_result env (net env (requests_made w) (page_url cid page))
        = inr (VDict d) ->
        prayers_of d = VList items ->
        items <> [] ->
        dict_find (py "totalCount") d = Some VNone ->
        iter_prayers_from env (S fuel) body cid page seen total acc w
        = (sa <- yield_items body items seen acc ;;
           iter_prayers_from env fuel body cid (S page) (fst sa) VNone (snd sa))
            (requested w (page_url cid page))).
Proof.
  split.
  { intros d total H. unfold dict_get. now rewrite H. }
  split.
  { intros A fuel body page seen total acc w d items n Hf Ht Hi Hnone Hn Hle.
    rewrite iter_prayers_from_step. cbv zeta. rewrite Hf, Ht, Hi. cbn [negb].
    unfold bind at 1. rewrite yield_items_eq. unfold bind at 1.
    destruct (for_each _ body acc _) as [w' [a| |]]; [|reflexivity..].
    unfold ret at 1. cbn [fst snd]. unfold bind. rewrite total_reached_eq.
    unfold total_check. rewrite Hn.
    assert (E : (n <=? Z.of_nat (size (seen_after seen items)))%Z = true)
      by now apply Z.leb_le.
    rewrite E. destruct (dict_get (py "totalCount") d total);
      try reflexivity. contradiction. }
  split.
  { intros fuel w d0 d1 l0 l1 Hfuel Hf0 Hf1 Ht0 Ht1 Hp0 Hp1 Hn0 Hn1 Hlen Hall
      Hnd.
    destruct fuel as [|[|fuel]]; [lia..|].
    assert (Hfresh : forall (d : pydict) (z : Z),
              d ∈ l0 ++ l1 -> item_id d = Some z -> z ∉ (∅ : gset Z))
      by (intros; set_solver).
    destruct (select_items_all (l0 ++ l1) ∅ Hall Hnd Hfresh) as [Hsel Hsize].
    apply Forall_app in Hall as [Hall0 _].
    rewrite List.map_app in Hnd. apply NoDup_app in Hnd as (Hnd0 & _ & _).
    destruct (select_items_all l0 ∅ Hall0 Hnd0) as [Hsel0 Hsize0].
    { intros d z Hd. apply Hfresh. apply elem_of_app. now left. }
    rewrite List.map_app, select_items_app, Hsel0 in Hsel.
    apply app_inv_head in Hsel.
    rewrite List.map_app, seen_after_app in Hsize.
    rewrite length_app in Hlen, Hsize. rewrite size_empty in Hsize, Hsize0.
    assert (Hl0 : (0 < length l0)%nat)
      by (destruct l0; [contradiction|simpl; lia]).
    assert (Hl1 : (0 < length l1)%nat)
      by (destruct l1; [contradiction|simpl; lia]).
    assert (Htr : forall l : list pydict, l <> [] ->
              py_truthy (VList (List.map VDict l)) = true)
      by (intros [|? ?] ?; [contradiction|reflexivity]).
    assert (Hd0 : dict_get (py "totalCount") d0 VNone = VInt 3)
      by (unfold dict_get; now rewrite Ht0).
    assert (Hd1 : dict_get (py "totalCount") d1 (VInt 3) = VInt 3)
      by (unfold dict_get; now rewrite Ht1).
    unfold iter_prayers, for_iter_prayers.
    rewrite iter_collect_step. cbv zeta. rewrite Hf0, Hp0, (Htr l0 Hn0).
    cbn [negb py_iter]. rewrite Hd0.
    unfold total_check. cbn [py_int].
    assert (E0 : (3 <=? Z.of_nat (size (seen_after ∅ (List.map VDict l0))))%Z
                 = false) by (apply Z.leb_gt; lia).
    rewrite E0, Hsel0.
    rewrite iter_collect_step. cbv zeta. rewrite requests_made_requested.
    rewrite Hf1, Hp1, (Htr l1 Hn1). cbn [negb py_iter].
    rewrite Hd1. unfold total_check. cbn [py_int].
    assert (E1 : (3 <=? Z.of_nat
                    (size (seen_after (seen_after ∅ (List.map VDict l0))
                             (List.map VDict l1))))%Z = true)
      by (apply Z.leb_le; lia).
    rewrite E1, Hsel. unfold requested. cbn [fs trace app].
    now rewrite <- app_assoc. }
  split.
  { intros before after dj itemsj v n fuel w pages Hpages Homit Hv Hn Hbelow
      Hreach Hfuel.
    assert (Hvn : v <> VNone) by (intros ->; discriminate).
    assert (Hcheck : forall m,
              (length before < m)%nat ->
              total_check env (snd (pages_state (take m pages) ∅ VNone))
                (fst (pages_state (take m pages) ∅ VNone))
              = inr (n <=? Z.of_nat
                       (size (seen_after ∅
                                (List.concat (List.map snd (take m pages))))))%Z).
    { intros m Hm.
      destruct (pages_state_reported before after dj itemsj v m Homit Hv)
        as [H1 H2].
      fold pages in H1, H2. rewrite H1, H2.
      apply Nat.ltb_lt in Hm. rewrite Hm. unfold total_check. rewrite Hn.
      destruct v; try reflexivity. contradiction. }
    assert (Hlen : length pages = S (length before + length after))
      by (unfold pages; rewrite length_app; simpl; lia).
    destruct (exists_last (l := pages)) as (init & [dl last] & Hsplit).
    { unfold pages. now destruct before. }
    assert (Hinit : length pages = S (length init))
      by (rewrite Hsplit, length_app; simpl; lia).
    unfold iter_prayers, for_iter_prayers.
    rewrite (iter_collect_counted env cid init fuel 0 ∅ VNone [] w dl last).
    - rewrite <- Hsplit, Hinit. reflexivity.
    - intros i d items Hi.
      assert (Hlt : (i < length init)%nat) by now apply lookup_lt_Some in Hi.
      assert (Hi' : pages !! i = Some (d, items))
        by (rewrite Hsplit; now apply lookup_app_l_Some).
      destruct (Hpages i d items Hi') as (Hf & Hp & Hne).
      repeat split; try assumption.
      unfold goes_on_from. cbv zeta.
      assert (Htake : take (S i) init = take (S i) pages)
        by (rewrite Hsplit, take_app_le by lia; reflexivity).
      rewrite Htake.
      destruct (le_lt_dec (length before) i) as [Hge|Hlt'].
      + rewrite Hcheck by lia. f_equal. apply Z.leb_gt.
        apply Hbelow; lia.
      + destruct (pages_state_reported before after dj itemsj v (S i) Homit Hv)
          as [_ H2].
        fold pages in H2. rewrite H2.
        assert (E : (length before <? S i)%nat = false)
          by (apply Nat.ltb_ge; lia).
        rewrite E. reflexivity.
    - assert (Hl : pages !! length init = Some (dl, last))
        by (rewrite Hsplit; now apply list_lookup_middle).
      destruct (Hpages _ _ _ Hl) as (Hf & _ & _). exact Hf.
    - assert (Hl : pages !! length init = Some (dl, last))
        by (rewrite Hsplit; now apply list_lookup_middle).
      now destruct (Hpages _ _ _ Hl) as (_ & Hp & _).
    - assert (Hl : pages !! length init = Some (dl, last))
        by (rewrite Hsplit; now apply list_lookup_middle).
      now destruct (Hpages _ _ _ Hl) as (_ & _ & Hne).
    - rewrite <- Hsplit.
      rewrite <- (take_ge pages (length pages)) at 1 2 by lia.
      rewrite Hcheck by lia. rewrite take_ge by lia. f_equal.
      now apply Z.leb_le.
    - lia. }
  intros A fuel body page seen total acc w d items Hf Hp Hne Hnull.
  rewrite iter_prayers_from_step. cbv zeta. rewrite Hf, Hp.
  assert (Htr : py_truthy (VList items) = true)
    by (destruct items; [contradiction|reflexivity]).
  rewrite Htr. cbn [negb py_iter].
  assert (Hd : dict_get (py "totalCount") d total = VNone)
    by (unfold dict_get; now rewrite Hnull).
  rewrite Hd. unfold bind.
  destruct (yield_items body items seen acc _) as [w' [sa| |]];
    reflexivity.
Qed.

Lemma iter_prayers_total_count_witness :
  iter_prayers (Paging.env Paging.counted) 5 7 Paging.start
  = (World ∅ [EvRequest (page_url 7 0); EvRequest (page_url 7 1)],
     Ret [Paging.entry 1; Paging.entry 2; Paging.entry 3]).
Proof.
  destruct (iter_prayers_total_count (Paging.env Paging.counted) 7)
    as (_ & _ & _ & H & _).
  apply (H [] [ (Paging.counted1, [VDict (Paging.entry 3)]) ]
           Paging.counted0 [VDict (Paging.entry 1); VDict (Paging.entry 2)]
           (VInt 3) 3%Z 5%nat Paging.start).
  - intros [|[|i]] d items; simpl; intros [= <- <-];
      (split; [vm_compute; reflexivity|]);
      (split; [reflexivity|discriminate]).
  - repeat constructor.
  - reflexivity.
  - reflexivity.
  - intros [|i] _ Hi; [vm_compute; reflexivity|simpl in Hi; lia].
  - vm_compute. discriminate.
  - simpl. lia.
Defined.

(** C4 (as stated) fails: the first page reports a total of three, the
    second carries [null] under [totalCount] and brings the third item.
    Three items of distinct identifiers have come on two pages, yet the
    total is forgotten and a third page is requested. *)
Lemma iter_prayers_total_forgotten :
  iter_prayers Forgetful.env 5 7 Paging.start
  = (World ∅ [ EvRequest (page_url 7 0); EvRequest (page_url 7 1);
               EvRequest (page_url 7 2) ],
     Ret [Paging.entry 1; Paging.entry 2; Paging.entry 3]).
Proof. vm_compute. reflexivity. Qed.

(** ** The driver *)

Lemma category_work_Exception {con : Console} (env : PyEnv) (fuel : nat)
    (total : Z) (item : pyval * pyval) (w w' : world) (e : exc) :
  category_work env fuel total item w = (w', Raise e) ->
  is_Exception e = true.
Proof.
  intros H.
  assert (Ho : obeys grows (fun e => is_Exception e = true)
                 (category_work env fuel total item)).
  { pose proof grows_laws as L. unfold category_work.
    apply (obeys_bind _ _ L); [apply (obeys_lift_py_int env _ _ L)|]. intros cid.
    apply (obeys_bind _ _ L); [apply (obeys_scrape_category env _ _ L)|].
    intros count. obeys_go. }
  destruct (Ho w) as [_ He]. apply He. now rewrite H.
Qed.

Lemma category_work_grows {con : Console} (env : PyEnv) (fuel : nat)
    (total : Z) (item : pyval * pyval) :
  obeys grows (fun e => is_Exception e = true)
    (category_work env fuel total item).
Proof.
  pose proof grows_laws as L. unfold category_work.
  apply (obeys_bind _ _ L); [apply (obeys_lift_py_int env _ _ L)|]. intros cid.
  apply (obeys_bind _ _ L); [apply (obeys_scrape_category env _ _ L)|].
  intros count. obeys_go.
Qed.

(** One category. The line that opens it is printed outside the [try]
    block; what the block raises is caught, and the failure line is printed
    in the handler. *)
Lemma main_category_eq {con : Console} (env : PyEnv) (fuel : nat) (total : Z)
    (item : pyval * pyval) (w : world) :
  main_category env fuel total item w
  = if accepts Stdout (announce_text env item)
    then match category_work env fuel total item
                 (World (fs w) (trace w ++ [announce env item])) with
         | (w', Raise e) =>
             (print Stderr (category_failed_text env item e) ;;; ret total) w'
         | r => r
         end
    else (w, Raise UnicodeEncodeError).
Proof.
  change (main_category env fuel total item)
    with (print Stdout (announce_text env item) ;;;
          try_except (category_work env fuel total item)
            (fun e => print Stderr (category_failed_text env item e) ;;;
                      ret total)).
  unfold bind at 1. unfold print at 1.
  destruct (accepts Stdout (announce_text env item)); [|reflexivity].
  unfold emit at 1. cbn [event_of]. fold (announce env item).
  unfold try_except.
  destruct (category_work env fuel total item _) as [w' [a|e|]] eqn:E;
    try reflexivity.
  rewrite (category_work_Exception _ _ _ _ _ _ _ E). reflexivity.
Qed.

Lemma print_taken {con : Console} (s : stream) (line : pystr) :
  accepts s line = true -> print s line = emit (event_of s line).
Proof. intros H. unfold print. now rewrite H. Qed.

(** The same, when the streams take every line. *)
Lemma main_category_taken {con : Console} (env : PyEnv) (fuel : nat)
    (total : Z) (item : pyval * pyval) (w : world) :
  takes_all con ->
  main_category env fuel total item w
  = match category_work env fuel total item
            (World (fs w) (trace w ++ [announce env item])) with
    | (w', Raise e) =>
        (World (fs w') (trace w' ++ [category_failed env item e]), Ret total)
    | r => r
    end.
Proof.
  intros Hall. rewrite main_category_eq, (Hall Stdout).
  destruct (category_work env fuel total item _) as [w' [a|e|]];
    try reflexivity.
  unfold bind. rewrite (print_taken _ _ (Hall Stderr _)). reflexivity.
Qed.

Lemma takes_all_plain : takes_all plain.
Proof. intros s line. reflexivity. Qed.

Lemma main_category_plain (env : PyEnv) (fuel : nat) (total : Z)
    (item : pyval * pyval) (w : world) :
  main_category env fuel total item w
  = match category_work env fuel total item
            (World (fs w) (trace w ++ [announce env item])) with
    | (w', Raise e) =>
        (World (fs w') (trace w' ++ [category_failed env item e]), Ret total)
    | r => r
    end.
Proof. apply main_category_taken, takes_all_plain. Qed.

Lemma main_category_grows {con : Console} (env : PyEnv) (fuel : nat)
    (total : Z) (item : pyval * pyval) (w : world) :
  takes_all con ->
  (exists log, trace (fst (main_category env fuel total item w))
               = trace w ++ announce env item :: log)
  /\ forall e, snd (main_category env fuel total item w) <> Raise e.
Proof.
  intros Hall. rewrite (main_category_taken _ _ _ _ _ Hall).
  destruct (category_work_grows env fuel total item
              (World (fs w) (trace w ++ [announce env item]))) as [[t Ht] _].
  destruct (category_work env fuel total item _) as [w' [a|e|]];
    simpl in *; (split; [|discriminate]).
  - exists t. now rewrite Ht, <- app_assoc.
  - exists (t ++ [category_failed env item e]).
    rewrite Ht, <- !app_assoc. reflexivity.
  - exists t. now rewrite Ht, <- app_assoc.
Qed.

(** All categories are gone through, in the order of the mapping: when
    the streams take every line, the loop is never left by an exception. *)
Lemma main_loop_runs {con : Console} (env : PyEnv) (fuel : nat)
    (mapping : pydict) :
  takes_all con ->
  forall (total : Z) (w : world),
    (forall e, snd (for_each mapping (main_category env fuel) total w) <> Raise e)
    /\ forall w' r,
         for_each mapping (main_category env fuel) total w = (w', Ret r) ->
         exists logs,
           length logs = length mapping
           /\ trace w'
              = trace w
                ++ List.concat
                     (zip_with (fun item log => announce env item :: log)
                        mapping logs).
Proof.
  intros Hall. induction mapping as [|item rest IH]; intros total w.
  - split; [discriminate|]. intros w' r [= <- _]. exists [].
    split; [reflexivity|]. simpl. now rewrite app_nil_r.
  - cbn [for_each]. unfold bind.
    destruct (main_category_grows env fuel total item w Hall)
      as [[log Hlog] Hno].
    destruct (main_category env fuel total item w) as [w1 [t1|e|]];
      simpl in *.
    + destruct (IH t1 w1) as [Hno' Hrun]. split; [exact Hno'|].
      intros w' r H. destruct (Hrun w' r H) as (logs & Hlen & Htr).
      exists (log :: logs). split; [simpl; now rewrite Hlen|].
      rewrite Htr, Hlog. cbn [zip_with List.concat].
      now rewrite <- !app_assoc.
    + now destruct (Hno e).
    + split; discriminate.
Qed.

(** Whatever the streams do, the one exception that leaves the loop over
    the categories is that of a refused line. *)
Lemma main_category_raises {con : Console} (env : PyEnv) (fuel : nat)
    (total : Z) (item : pyval * pyval) (w : world) (e : exc) :
  snd (main_category env fuel total item w) = Raise e ->
  e = UnicodeEncodeError.
Proof.
  rewrite main_category_eq.
  destruct (accepts Stdout (announce_text env item));
    [|now intros [= <-]].
  destruct (category_work env fuel total item _) as [w' [a|e'|]];
    cbn [snd]; try discriminate.
  unfold bind, print.
  destruct (accepts Stderr (category_failed_text env item e'));
    cbn; [discriminate|now intros [= <-]].
Qed.

Lemma main_loop_raises {con : Console} (env : PyEnv) (fuel : nat)
    (mapping : pydict) :
  forall (total : Z) (w : world) (e : exc),
    snd (for_each mapping (main_category env fuel) total w) = Raise e ->
    e = UnicodeEncodeError.
Proof.
  induction mapping as [|item rest IH]; intros total w e; [discriminate|].
  cbn [for_each]. unfold bind.
  pose proof (main_category_raises env fuel total item w) as Hone.
  destruct (main_category env fuel total item w) as [w1 [t1|e1|]];
    cbn [snd] in *.
  - apply IH.
  - intros [= <-]. now apply Hone.
  - discriminate.
Qed.

Lemma load_category_mapping_ends (env : PyEnv) (path : pystr) (w : world) :
  snd (load_category_mapping env path w) <> Diverge
  /\ trace (fst (load_category_mapping env path w)) = trace w.
Proof.
  unfold load_category_mapping, read_text, bind, get_fs, raise, ret.
  destruct (fs w !! path) as [[c|]|]; simpl; try (split; [discriminate|reflexivity]).
  destruct (utf8_decode env c) as [s|]; simpl; [|split; [discriminate|reflexivity]].
  destruct (json_loads env s) as [v|]; simpl.
  - destruct v; simpl; split; try discriminate; reflexivity.
  - destruct (literal_eval env s) as [v|]; simpl;
      [|split; [discriminate|reflexivity]].
    destruct v; simpl; split; try discriminate; reflexivity.
Qed.

(** The driver, by what becomes of the output directory and of the
    mapping. *)
Lemma main_eq {con : Console} (env : PyEnv) (fuel : nat) (w : world) :
  main env fuel w
  = match os_makedirs env (fs w) (output_root env) with
    | None => (w, Raise OSError)
    | Some f1 =>
        match load_category_mapping env (mapping_path env)
                (World f1 (trace w)) with
        | (w2, Ret mapping) => run_categories env fuel mapping w2
        | (w2, Raise e) =>
            (print Stderr (mapping_failed_text env e) ;;;
             raise (SystemExit 1)) w2
        | (w2, Diverge) => (w2, Diverge)
        end
    end.
Proof.
  change (main env fuel)
    with (ensure_dir env (output_root env) ;;;
          mapping <-
            try_except (load_category_mapping env (mapping_path env))
              (fun e => print Stderr (mapping_failed_text env e) ;;;
                        raise (SystemExit 1)) ;;
          run_categories env fuel mapping).
  unfold bind at 1. unfold ensure_dir, bind at 1. unfold get_fs at 1.
  destruct (os_makedirs env (fs w) (output_root env)) as [f1|]; [|reflexivity].
  unfold set_fs at 1. unfold bind at 1. unfold try_except at 1.
  destruct (load_category_mapping env (mapping_path env) (World f1 (trace w)))
    as [w2 [mapping|e|]] eqn:El; try reflexivity.
  assert (He : is_Exception e = true).
  { pose proof (obeys_load_category_mapping env grows _ grows_laws
                  (mapping_path env) (World f1 (trace w))) as [_ H].
    apply H. now rewrite El. }
  rewrite He. unfold bind, print.
  now destruct (accepts Stderr (mapping_failed_text env e)).
Qed.




(** * Further properties *)

(** ** [sanitize_name], continued *)

Lemma lstrip_id (p : char -> bool) (s : pystr) :
  (forall c, head s = Some c -> p c = false) -> lstrip p s = s.
Proof.
  destruct s as [|x r]; [reflexivity|]. intros H. simpl.
  now rewrite (H x eq_refl).
Qed.

Lemma rstrip_id (p : char -> bool) (s : pystr) :
  (forall c, last s = Some c -> p c = false) -> rstrip p s = s.
Proof.
  intros H. unfold rstrip. rewrite lstrip_id.
  - apply reverse_involutive.
  - intros c Hc. rewrite head_reverse in Hc. now apply H.
Qed.

Lemma strip_with_id (p : char -> bool) (s : pystr) :
  (forall c, head s = Some c -> p c = false) ->
  (forall c, last s = Some c -> p c = false) ->
  strip_with p s = s.
Proof.
  intros Hh Hl. unfold strip_with. rewrite (lstrip_id p s Hh).
  now apply rstrip_id.
Qed.

Lemma replace_bad_id (raw : pystr) :
  Forall (fun c => is_bad c = false) raw ->
  List.map (fun c => if char_in c bad_chars then DASH else c) raw = raw.
Proof.
  induction 1 as [|c r Hc _ IH]; [reflexivity|].
  rewrite map_cons, IH. unfold is_bad in Hc. now rewrite Hc.
Qed.

(** X1. A name that is already clean is returned as it is. *)
Theorem sanitize_name_clean_fixed (raw : pystr) :
  raw <> [] ->
  Forall (fun c => is_bad c = false) raw ->
  (forall c, head raw = Some c -> is_space c = false /\ c <> DOT) ->
  (forall c, last raw = Some c -> is_space c = false /\ c <> DOT) ->
  contains2 SPACE SPACE raw = false ->
  sanitize_name raw = raw.
Proof.
  intros Hne Hbad Hhead Hlast Hsp. unfold sanitize_name.
  destruct raw as [|x r] eqn:E; [contradiction|]. rewrite <- E in *.
  assert (Ht : str_truthy raw = true) by now rewrite E.
  rewrite Ht. cbn [negb]. rewrite (replace_bad_id raw Hbad).
  assert (Hdot : forall c, c <> DOT -> char_in c [DOT] = false).
  { intros c Hc. simpl. rewrite orb_false_r. now apply N.eqb_neq. }
  unfold strip, strip_chars.
  rewrite (strip_with_id is_space raw)
    by (intros c Hc; now (apply Hhead in Hc || apply Hlast in Hc)).
  rewrite (strip_with_id _ raw)
    by (intros c Hc; apply Hdot; now (apply Hhead in Hc || apply Hlast in Hc)).
  rewrite collapse_spaces_step, Hsp. now rewrite Ht.
Qed.

Lemma sanitize_name_clean_fixed_witness :
  sanitize_name (py "Morning Prayers") = py "Morning Prayers".
Proof.
  apply sanitize_name_clean_fixed.
  - discriminate.
  - unfold py. simpl. repeat constructor.
  - intros c [= <-]. split; [reflexivity|discriminate].
  - intros c [= <-]. split; [reflexivity|discriminate].
  - reflexivity.
Defined.

Lemma space_not_bad (c : char) : is_space c = true -> char_in c bad_chars = false.
Proof.
  intros Hs. destruct (char_in c bad_chars) eqn:E; [|reflexivity].
  unfold char_in, bad_chars in E. simpl in E.
  repeat (apply orb_true_iff in E as [E|E];
          [apply N.eqb_eq in E; subst c; discriminate|]).
  discriminate.
Qed.

Lemma lstrip_all (p : char -> bool) (s : pystr) :
  Forall (fun c => p c = true) s -> lstrip p s = [].
Proof. induction 1 as [|c r Hc _ IH]; simpl; [reflexivity|]. now rewrite Hc. Qed.

Lemma collapse_spaces_nil : collapse_spaces [] = [].
Proof. now rewrite collapse_spaces_step. Qed.

(** X2. Input that is nothing but white space, or nothing but dots, gives
    the default name. *)
Theorem sanitize_name_blank (raw : pystr) :
  (Forall (fun c => is_space c = true) raw -> sanitize_name raw = py "Untitled")
  /\ (Forall (fun c => c = DOT) raw -> sanitize_name raw = py "Untitled").
Proof.
  split; intros H; unfold sanitize_name;
    (destruct (negb (str_truthy raw)); [reflexivity|]).
  - assert (Hm : List.map (fun c => if char_in c bad_chars then DASH else c) raw
                 = raw).
    { induction H as [|c r Hc _ IH]; [reflexivity|].
      now rewrite map_cons, IH, (space_not_bad c Hc). }
    rewrite Hm. unfold strip, strip_with. rewrite (lstrip_all is_space raw H).
    change (strip_chars [DOT] (rstrip is_space [])) with (@nil char).
    now rewrite collapse_spaces_nil.
  - assert (Hm : List.map (fun c => if char_in c bad_chars then DASH else c) raw
                 = raw).
    { induction H as [|c r Hc _ IH]; [reflexivity|].
      subst c. now rewrite map_cons, IH. }
    rewrite Hm.
    assert (Hs : strip raw = raw).
    { apply strip_with_id; intros c Hc.
      - destruct H as [|x r Hx _]; [discriminate|]. injection Hc as <-.
        now subst x.
      - assert (Hin : c ∈ raw).
        { apply last_Some in Hc as [l' ->]. apply elem_of_app. right. now left. }
        rewrite Forall_forall in H. now rewrite (H c Hin). }
    rewrite Hs. unfold strip_chars, strip_with.
    rewrite (lstrip_all _ raw).
    + change (rstrip (fun c => char_in c [DOT]) []) with (@nil char).
      now rewrite collapse_spaces_nil.
    + eapply Forall_impl; [exact H|]. intros c ->. reflexivity.
Qed.

Lemma sanitize_name_blank_witness :
  sanitize_name (py "   ") = py "Untitled"
  /\ sanitize_name (py "...") = py "Untitled".
Proof.
  split.
  - destruct (sanitize_name_blank (py "   ")) as [H _]. apply H.
    repeat (constructor; [reflexivity|]). constructor.
  - destruct (sanitize_name_blank (py "...")) as [_ H]. apply H.
    repeat (constructor; [reflexivity|]). constructor.
Defined.

Lemma lstrip_length (p : char -> bool) (s : pystr) :
  (length (lstrip p s) <= length s)%nat.
Proof.
  destruct (lstrip_suffix p s) as [pre H]. rewrite H at 2.
  rewrite length_app. lia.
Qed.

Lemma strip_with_length (p : char -> bool) (s : pystr) :
  (length (strip_with p s) <= length s)%nat.
Proof.
  unfold strip_with, rstrip. rewrite length_reverse.
  pose proof (lstrip_length p (reverse (lstrip p s))) as H.
  rewrite length_reverse in H. pose proof (lstrip_length p s). lia.
Qed.

(** X3. Sanitising never lengthens a name: the result is at most as long
    as the input, or it is the eight characters of the default name. *)
Theorem sanitize_name_length (raw : pystr) :
  (length (sanitize_name raw) <= length raw)%nat
  \/ sanitize_name raw = py "Untitled".
Proof.
  unfold sanitize_name.
  destruct (negb (str_truthy raw)); [now right|].
  set (mapped := List.map _ raw).
  destruct (str_truthy (collapse_spaces _)); [left|now right].
  apply (collapse_spaces_preserves (fun s => (length s <= length raw)%nat)).
  - intros s Hs. pose proof (replace2_length_le SPACE SPACE SPACE s). lia.
  - unfold strip_chars, strip.
    pose proof (strip_with_length (fun c => char_in c [DOT])
                  (strip_with is_space mapped)).
    pose proof (strip_with_length is_space mapped).
    assert (length mapped = length raw) by apply length_map. lia.
Qed.

(** ** Names of directories and files *)



Lemma str_of_Z_no_slash (z : Z) : no_slash (str_of_Z z).
Proof.
  unfold str_of_Z. destruct (z <? 0)%Z.
  - constructor; [discriminate|]. apply digits_no_slash, str_of_nat_digits.
  - apply digits_no_slash, str_of_nat_digits.
Qed.

Lemma sanitize_name_no_slash (raw : pystr) : no_slash (sanitize_name raw).
Proof.
  destruct (sanitize_name_safe raw) as (_ & H & _).
  eapply Forall_impl; [exact H|]. intros c Hc ->. discriminate.
Qed.

Lemma no_slash_app (s t : pystr) : no_slash s -> no_slash t -> no_slash (s ++ t).
Proof. intros Hs Ht. apply Forall_app. now split. Qed.

Lemma dash_sep_no_slash : no_slash (py " - ").
Proof. repeat constructor; discriminate. Qed.

(** X4. The name of a category directory holds no path separator and is
    not empty, whatever the title; nor does the name of an item directory
    when the item's [id] is an integer or is missing. The directory is
    therefore a single entry of its parent. *)
Theorem directory_names_single (env : PyEnv) :
  (forall (cid : Z) (title : pystr),
      no_slash (build_category_dirname cid title)
      /\ build_category_dirname cid title <> [])
  /\ (forall (prayer : pydict) (z : Z),
        dict_find (py "id") prayer = Some (VInt z) ->
        no_slash (build_prayer_dirname env prayer)
        /\ exists name, build_prayer_dirname env prayer
                        = str_of_Z z ++ py " - " ++ name /\ name <> [])
  /\ (forall (prayer : pydict),
        dict_find (py "id") prayer = None ->
        no_slash (build_prayer_dirname env prayer)
        /\ exists name, build_prayer_dirname env prayer
                        = py "unknown - " ++ name /\ name <> []).
Proof.
  split; [|split].
  - intros cid title. unfold build_category_dirname. split.
    + apply no_slash_app; [apply str_of_Z_no_slash|].
      apply no_slash_app; [apply dash_sep_no_slash|apply sanitize_name_no_slash].
    + intros H. apply app_eq_nil in H as [_ H]. discriminate.
  - intros prayer z Hid.
    assert (E : build_prayer_dirname env prayer
                = str_of_Z z ++ py " - "
                  ++ sanitize_name
                       (py_str env (py_or (dict_get (py "name") prayer VNone)
                                      (VStr (py "Untitled"))))).
    { unfold build_prayer_dirname.
      replace (dict_get (py "id") prayer (VStr (py "unknown"))) with (VInt z)
        by (unfold dict_get; now rewrite Hid).
      reflexivity. }
    rewrite E. split.
    + apply no_slash_app; [apply str_of_Z_no_slash|].
      apply no_slash_app; [apply dash_sep_no_slash|apply sanitize_name_no_slash].
    + eexists. split; [reflexivity|].
      now destruct (sanitize_name_safe
                      (py_str env (py_or (dict_get (py "name") prayer VNone)
                                     (VStr (py "Untitled"))))).
  - intros prayer Hid.
    assert (E : build_prayer_dirname env prayer
                = py "unknown - "
                  ++ sanitize_name
                       (py_str env (py_or (dict_get (py "name") prayer VNone)
                                      (VStr (py "Untitled"))))).
    { unfold build_prayer_dirname.
      replace (dict_get (py "id") prayer (VStr (py "unknown")))
        with (VStr (py "unknown")) by (unfold dict_get; now rewrite Hid).
      reflexivity. }
    rewrite E. split.
    + apply no_slash_app; [repeat constructor; discriminate|].
      apply sanitize_name_no_slash.
    + eexists. split; [reflexivity|].
      now destruct (sanitize_name_safe
                      (py_str env (py_or (dict_get (py "name") prayer VNone)
                                     (VStr (py "Untitled"))))).
Qed.

Lemma directory_names_single_witness :
  no_slash (build_prayer_dirname (Scenario.env true)
              [(VStr (py "id"), VInt 99); (VStr (py "name"), VStr (py "Test/Prayer"))])
  /\ build_prayer_dirname (Scenario.env true)
       [(VStr (py "id"), VInt 99); (VStr (py "name"), VStr (py "Test/Prayer"))]
     = py "99 - Test-Prayer".
Proof.
  destruct (directory_names_single (Scenario.env true)) as (_ & H & _).
  destruct (H [(VStr (py "id"), VInt 99); (VStr (py "name"), VStr (py "Test/Prayer"))]
              99%Z eq_refl) as [Hs _].
  split; [exact Hs|]. vm_compute. reflexivity.
Defined.

Lemma splitext_no_slash (p : pystr) :
  no_slash p -> no_slash (fst (splitext p)) /\ no_slash (snd (splitext p)).
Proof.
  intros H. rewrite <- (splitext_concat p) in H. now apply Forall_app in H.
Qed.


Lemma nth_candidate_no_slash (base_name : pystr) (n : nat) :
  no_slash base_name -> no_slash (nth_candidate base_name n).
Proof.
  intros H. destruct n as [|n]; [exact H|].
  destruct (splitext_no_slash base_name H) as [Hr He].
  unfold nth_candidate, candidate_name.
  apply no_slash_app; [exact Hr|].
  apply no_slash_app; [repeat constructor; discriminate|].
  apply no_slash_app; [apply digits_no_slash, str_of_nat_digits|].
  apply no_slash_app; [repeat constructor; discriminate|exact He].
Qed.

Lemma name_from_path_no_slash (env : PyEnv) (path fallback : pystr) :
  no_slash (name_from_path env path fallback)
  /\ name_from_path env path fallback <> [].
Proof.
  unfold name_from_path. split; [apply sanitize_name_no_slash|].
  now destruct (sanitize_name_safe
                  (if str_truthy (unquote env (basename path))
                   then unquote env (basename path)
                   else fallback)).
Qed.

Lemma track_file_name_no_slash (index : nat) (fname : pystr) :
  no_slash fname -> no_slash (track_file_name index fname).
Proof.
  intros H. destruct (splitext_no_slash fname H) as [Hr He].
  unfold track_file_name.
  apply no_slash_app; [apply digits_no_slash, format_02d_digits|].
  apply no_slash_app; [apply dash_sep_no_slash|].
  now apply no_slash_app.
Qed.

Lemma document_file_name_no_slash (index : nat) (fname : pystr) :
  no_slash fname -> no_slash (document_file_name index fname).
Proof.
  intros H. destruct (splitext_no_slash fname H) as [Hr He].
  unfold document_file_name.
  apply no_slash_app; [apply digits_no_slash, format_02d_digits|].
  apply no_slash_app; [apply dash_sep_no_slash|].
  apply no_slash_app; [exact Hr|].
  destruct (negb _); [repeat constructor; discriminate|exact He].
Qed.

(** X5. Whatever the URL of an asset (here the path [u] that [urlparse]
    gives for it) and whatever its [name] field, the file name built for
    it, with its ordinal prefix and with any suffix [unique_filename] may
    add, holds no path separator: a download cannot be written outside its
    [audio] or [documents] directory. *)
Theorem asset_names_no_slash (env : PyEnv) (index : nat) (d : pydict)
    (u : pystr) (n : nat) :
  no_slash (nth_candidate (track_base env index d u) n)
  /\ no_slash (nth_candidate (document_base env index d u) n).
Proof.
  split; apply nth_candidate_no_slash.
  - apply track_file_name_no_slash, name_from_path_no_slash.
  - apply document_file_name_no_slash, name_from_path_no_slash.
Qed.




(** X6. The ordinal prefix tells the assets of one list apart: two entries
    at different positions never get the same file name, whatever their
    URLs. *)
Theorem asset_names_by_index (i j : nat) (f g : pystr) :
  (track_file_name i f = track_file_name j g -> i = j)
  /\ (document_file_name i f = document_file_name j g -> i = j).
Proof.
  split; intros H; apply format_02d_inj;
    apply (split_at_space _ _ _ _ (format_02d_no_space i)
             (format_02d_no_space j) H).
Qed.

Lemma asset_names_by_index_witness :
  track_file_name 1 (py "a.mp3") = track_file_name 1 (py "a.mp3")
  /\ 1%nat = 1%nat.
Proof.
  assert (H : track_file_name 1 (py "a.mp3") = track_file_name 1 (py "a.mp3"))
    by reflexivity.
  split; [exact H|].
  destruct (asset_names_by_index 1 1 (py "a.mp3") (py "a.mp3")) as [Hi _].
  exact (Hi H).
Defined.

(** ** Computations that end *)

Lemma ends_ret {A} (a : A) : ends (ret a).
Proof. intros w. discriminate. Qed.

Lemma ends_raise {A} (e : exc) : ends (@raise A e).
Proof. intros w. discriminate. Qed.

Lemma ends_get_fs : ends get_fs.
Proof. intros w. discriminate. Qed.

Lemma ends_set_fs (f : gmap pystr node) : ends (set_fs f).
Proof. intros w. discriminate. Qed.

Lemma ends_emit (ev : event) : ends (emit ev).
Proof. intros w. discriminate. Qed.

Lemma ends_send_request (env : PyEnv) (url : pystr) : ends (send_request env url).
Proof. intros w. discriminate. Qed.

Lemma ends_bind {A B} (c : M A) (k : A -> M B) :
  ends c -> (forall a, ends (k a)) -> ends (bind c k).
Proof.
  intros Hc Hk w. unfold bind. specialize (Hc w).
  destruct (c w) as [w' [a|e|]]; simpl in *;
    [apply Hk|discriminate|now destruct Hc].
Qed.

Lemma ends_try_except {A} (c : M A) (h : exc -> M A) :
  ends c -> (forall e, ends (h e)) -> ends (try_except c h).
Proof.
  intros Hc Hh w. unfold try_except. specialize (Hc w).
  destruct (c w) as [w' [a|e|]]; simpl in *; [discriminate| |now destruct Hc].
  destruct (is_Exception e); [apply Hh|discriminate].
Qed.

Lemma ends_for_each {A S} (l : list A) (body : S -> A -> M S) (s : S) :
  (forall s x, ends (body s x)) -> ends (for_each l body s).
Proof.
  intros Hb. revert s. induction l as [|x r IH]; intros s; simpl.
  - apply ends_ret.
  - apply ends_bind; auto.
Qed.

Create HintDb ends.

Ltac ends_step :=
  match goal with
  | |- ends (ret _) => apply ends_ret
  | |- ends (raise _) => apply ends_raise
  | |- ends get_fs => apply ends_get_fs
  | |- ends (set_fs _) => apply ends_set_fs
  | |- ends (emit _) => apply ends_emit
  | |- ends (send_request _ _) => apply ends_send_request
  | |- ends (bind _ _) => apply ends_bind; [|intros ?]
  | |- ends (try_except _ _) => apply ends_try_except; [|intros ?]
  | |- ends (for_each _ _ _) => apply ends_for_each; intros ? ?
  | |- ends (if ?b then _ else _) => destruct b
  | |- ends (match ?x with _ => _ end) => destruct x
  | H : context [ends _] |- ends _ => solve [apply H]
  end.

Ltac ends_go := repeat (ends_step || solve [auto with ends]).

Lemma ends_ensure_dir (env : PyEnv) (path : pystr) : ends (ensure_dir env path).
Proof. unfold ensure_dir. ends_go. Qed.
#[local] Hint Extern 1 (ends (ensure_dir _ _)) => apply ends_ensure_dir : ends.

Lemma ends_open_w (env : PyEnv) (path : pystr) : ends (open_w env path).
Proof. unfold open_w. ends_go. Qed.
#[local] Hint Extern 1 (ends (open_w _ _)) => apply ends_open_w : ends.

Lemma ends_write_chunk (path : pystr) (chunk : list Byte.byte) :
  ends (write_chunk path chunk).
Proof. unfold write_chunk. ends_go. Qed.
#[local] Hint Extern 1 (ends (write_chunk _ _)) => apply ends_write_chunk : ends.

Lemma ends_remove_quietly (path : pystr) : ends (remove_quietly path).
Proof. unfold remove_quietly. ends_go. Qed.
#[local] Hint Extern 1 (ends (remove_quietly _)) => apply ends_remove_quietly : ends.

Lemma ends_urllib_read_loop (dest : pystr) (chunks : list (list Byte.byte))
    (body_error : bool) (first : option (list Byte.byte)) :
  ends (urllib_read_loop dest chunks body_error first).
Proof.
  revert first. induction chunks as [|c r IH]; intros first; simpl; ends_go.
Qed.
#[local] Hint Extern 1 (ends (urllib_read_loop _ _ _ _)) =>
  apply ends_urllib_read_loop : ends.

Lemma ends_stream_download (env : PyEnv) (url dest : pystr) :
  ends (stream_download env url dest).
Proof. unfold stream_download. ends_go. Qed.
#[local] Hint Extern 1 (ends (stream_download _ _ _)) =>
  apply ends_stream_download : ends.

(** What [try: stream_download(...) except Exception as e: print(...)]
    comes to: what the call raises is caught, and the warning is printed
    in the handler. *)
Lemma guarded_download {con : Console} (env : PyEnv) (u dest : pystr)
    (line : exc -> pystr) (w : world) :
  try_except (stream_download env u dest) (fun e => print Stdout (line e)) w
  = match stream_download env u dest w with
    | (w', Raise e) => print Stdout (line e) w'
    | r => r
    end.
Proof.
  unfold try_except.
  destruct (obeys_stream_download env grows _ grows_laws u dest w) as [_ Hexc].
  destruct (stream_download env u dest w) as [w' [[]|e|]]; simpl in *;
    try reflexivity.
  now rewrite (Hexc e eq_refl).
Qed.

(** A line is printed, or refused. *)
Lemma print_outcome {con : Console} (s : stream) (line : pystr) (w : world) :
  (accepts s line = true /\ snd (print s line w) = Ret tt)
  \/ (accepts s line = false /\ snd (print s line w) = Raise UnicodeEncodeError).
Proof.
  unfold print. destruct (accepts s line); [left|right]; now split.
Qed.


(** ** Assets *)


Lemma download_track_eq {con : Console} (env : PyEnv) (audio_dir : pystr)
    (index : nat) (d : pydict) (u path : pystr) (w : world) (n : nat) :
  d <> [] ->
  dict_get (py "url") d VNone = VStr u ->
  u <> [] ->
  urlparse_path env u = Some path ->
  unique_filename (fs w) audio_dir (track_base env index d path)
  = Some (nth_candidate (track_base env index d path) n) ->
  let dest :=
    path_join audio_dir (nth_candidate (track_base env index d path) n) in
  download_track env audio_dir index (VDict d) w
  = match stream_download env u dest w with
    | (w', Raise e) => print Stdout (track_warning env u dest e) w'
    | r => r
    end.
Proof.
  intros Hd Hurl Hu Hpath Hname dest.
  rewrite (download_track_named env audio_dir index d u w Hd Hurl Hu).
  rewrite Hpath, Hname. apply guarded_download.
Qed.

(** What is left of a guarded download: it returns, or the warning was
    refused. *)
Lemma guarded_outcome {con : Console} (env : PyEnv) (u dest : pystr)
    (line : exc -> pystr) (w : world) :
  snd (match stream_download env u dest w with
       | (w', Raise e) => print Stdout (line e) w'
       | r => r
       end) = Ret tt
  \/ (snd (match stream_download env u dest w with
           | (w', Raise e) => print Stdout (line e) w'
           | r => r
           end) = Raise UnicodeEncodeError
      /\ exists l, accepts Stdout l = false).
Proof.
  pose proof (ends_stream_download env u dest w) as Hends.
  destruct (stream_download env u dest w) as [w' [[]|e|]]; cbn [snd] in *.
  - now left.
  - destruct (print_outcome Stdout (line e) w') as [[_ H]|[Hno H]].
    + now left.
    + right. split; [exact H|]. now exists (line e).
  - contradiction.
Qed.

(** X7. A track entry with a URL. When [urlparse] refuses the URL, the
    [ValueError] is raised outside the [try] of the loop body, before
    anything is requested or written. Otherwise the track is always
    downloaded afresh: the destination handed to [stream_download] is the
    first free candidate name in the audio directory, so it never names an
    existing file and the skip-if-present test of [stream_download] cannot
    succeed. Whatever the download raises is caught and printed as a
    warning; the body returns normally unless [stdout] refuses that line. *)
Theorem download_track_fresh {con : Console} (env : PyEnv) (audio_dir : pystr)
    (index : nat) (d : pydict) (u : pystr) (w : world) :
  d <> [] ->
  dict_get (py "url") d VNone = VStr u ->
  u <> [] ->
  (urlparse_path env u = None ->
   download_track env audio_dir index (VDict d) w = (w, Raise ValueError))
  /\ (forall path, urlparse_path env u = Some path ->
      exists n,
        let base := track_base env index d path in
        let dest := path_join audio_dir (nth_candidate base n) in
        (forall k, (k < n)%nat -> taken (fs w) audio_dir base k = true)
        /\ path_exists (fs w) dest = false
        /\ download_track env audio_dir index (VDict d) w
           = match stream_download env u dest w with
             | (w', Raise e) => print Stdout (track_warning env u dest e) w'
             | r => r
             end
        /\ (snd (download_track env audio_dir index (VDict d) w) = Ret tt
            \/ snd (download_track env audio_dir index (VDict d) w)
               = Raise UnicodeEncodeError)
        /\ ((forall e, accepts Stdout (track_warning env u dest e) = true) ->
            snd (download_track env audio_dir index (VDict d) w) = Ret tt)).
Proof.
  intros Hd Hurl Hu. split.
  - intros Hnone.
    rewrite (download_track_named env audio_dir index d u w Hd Hurl Hu).
    now rewrite Hnone.
  - intros path Hpath.
    destruct (unique_filename_first (fs w) audio_dir
                (track_base env index d path))
      as (n & Hname & Hbelow & Hfree).
    exists n. cbv zeta.
    pose proof (download_track_eq env audio_dir index d u path w n
                  Hd Hurl Hu Hpath Hname) as Heq.
    cbv zeta in Heq.
    split; [exact Hbelow|]. split; [exact Hfree|]. split; [exact Heq|].
    rewrite Heq.
    set (dest := path_join audio_dir
                   (nth_candidate (track_base env index d path) n)).
    split.
    + destruct (guarded_outcome env u dest (track_warning env u dest) w)
        as [H|[H _]]; [now left|now right].
    + intros Hall.
      pose proof (ends_stream_download env u dest w) as Hends.
      destruct (stream_download env u dest w) as [w' [[]|e|]]; cbn [snd] in *.
      * reflexivity.
      * unfold print. now rewrite Hall.
      * contradiction.
Qed.

Lemma download_track_fresh_witness :
  snd (download_track (Scenario.env true) (py "audio") 1
         (VDict [(VStr (py "url"), VStr (py "http://x/test.pdf"))])
         (World ∅ []))
  = Ret tt
  /\ download_track (Scenario.env true) (py "audio") 1
       (VDict [(VStr (py "url"), VStr (py "http://[x/a.mp3"))]) (World ∅ [])
     = (World ∅ [], Raise ValueError).
Proof.
  split.
  - destruct (download_track_fresh (con := plain) (Scenario.env true)
                (py "audio") 1
                [(VStr (py "url"), VStr (py "http://x/test.pdf"))]
                (py "http://x/test.pdf") (World ∅ []))
      as [_ H]; [discriminate|reflexivity|discriminate|].
    destruct (H (py "/test.pdf") eq_refl) as (n & _ & _ & _ & _ & Hret).
    apply Hret. intros e. reflexivity.
  - destruct (download_track_fresh (con := plain) (Scenario.env true)
                (py "audio") 1
                [(VStr (py "url"), VStr (py "http://[x/a.mp3"))]
                (py "http://[x/a.mp3") (World ∅ []))
      as [H _]; [discriminate|reflexivity|discriminate|].
    apply H. reflexivity.
Defined.

Lemma download_document_eq {con : Console} (env : PyEnv) (docs_dir : pystr)
    (index : nat) (d : pydict) (u path : pystr) (w : world) (n : nat) :
  d <> [] ->
  dict_get (py "url") d VNone = VStr u ->
  u <> [] ->
  urlparse_path env u = Some path ->
  unique_filename (fs w) docs_dir (document_base env index d path)
  = Some (nth_candidate (document_base env index d path) n) ->
  let dest :=
    path_join docs_dir (nth_candidate (document_base env index d path) n) in
  download_document env docs_dir index (VDict d) w
  = match stream_download env u dest w with
    | (w', Ret _) =>
        if accepts Stdout (corrupted_text dest)
        then (World (fs w') (trace w' ++ [corrupted_line dest]), Ret tt)
        else print Stdout (document_warning env u dest UnicodeEncodeError) w'
    | (w', Raise e) => print Stdout (document_warning env u dest e) w'
    | r => r
    end.
Proof.
  intros Hd Hurl Hu Hpath Hname dest.
  rewrite (download_document_named env docs_dir index d u w Hd Hurl Hu).
  rewrite Hpath, Hname. cbv zeta. fold dest.
  unfold try_except. unfold bind at 1.
  destruct (obeys_stream_download env grows _ grows_laws u dest w) as [_ Hexc].
  destruct (stream_download env u dest w) as [w' [[]|e|]]; simpl in *.
  - unfold bind at 1. rewrite read_pdf_file_handler.
    unfold bind at 1. unfold print at 1. fold (corrupted_text dest).
    destruct (accepts Stdout (corrupted_text dest)); reflexivity.
  - now rewrite (Hexc e eq_refl).
  - reflexivity.
Qed.

(** X8. A document entry with a URL. When [urlparse] refuses the URL, the
    [ValueError] is raised outside the [try] of the loop body. Otherwise
    the document is downloaded to a fresh destination and what the download
    raises is caught and printed as a warning. When the download succeeds,
    the one thing that follows is the line that calls the file corrupted:
    every document that arrives, valid or not, is reported so, and nothing
    else is written. A line that [stdout] refuses inside the [try] counts
    as a failure and is reported in its turn. *)
Theorem download_document_fresh {con : Console} (env : PyEnv)
    (docs_dir : pystr) (index : nat) (d : pydict) (u : pystr) (w : world) :
  d <> [] ->
  dict_get (py "url") d VNone = VStr u ->
  u <> [] ->
  (urlparse_path env u = None ->
   download_document env docs_dir index (VDict d) w = (w, Raise ValueError))
  /\ (forall path, urlparse_path env u = Some path ->
      exists n,
        let base := document_base env index d path in
        let dest := path_join docs_dir (nth_candidate base n) in
        (forall k, (k < n)%nat -> taken (fs w) docs_dir base k = true)
        /\ path_exists (fs w) dest = false
        /\ download_document env docs_dir index (VDict d) w
           = match stream_download env u dest w with
             | (w', Ret _) =>
                 if accepts Stdout (corrupted_text dest)
                 then (World (fs w') (trace w' ++ [corrupted_line dest]), Ret tt)
                 else print Stdout
                        (document_warning env u dest UnicodeEncodeError) w'
             | (w', Raise e) => print Stdout (document_warning env u dest e) w'
             | r => r
             end
        /\ (snd (download_document env docs_dir index (VDict d) w) = Ret tt
            \/ snd (download_document env docs_dir index (VDict d) w)
               = Raise UnicodeEncodeError)
        /\ ((forall line, accepts Stdout line = true) ->
            snd (download_document env docs_dir index (VDict d) w) = Ret tt)).
Proof.
  intros Hd Hurl Hu. split.
  - intros Hnone.
    rewrite (download_document_named env docs_dir index d u w Hd Hurl Hu).
    now rewrite Hnone.
  - intros path Hpath.
    destruct (unique_filename_first (fs w) docs_dir
                (document_base env index d path))
      as (n & Hname & Hbelow & Hfree).
    exists n. cbv zeta.
    pose proof (download_document_eq env docs_dir index d u path w n
                  Hd Hurl Hu Hpath Hname) as Heq.
    cbv zeta in Heq.
    split; [exact Hbelow|]. split; [exact Hfree|]. split; [exact Heq|].
    rewrite Heq.
    set (dest := path_join docs_dir
                   (nth_candidate (document_base env index d path) n)).
    pose proof (ends_stream_download env u dest w) as Hends.
    split.
    + destruct (stream_download env u dest w) as [w' [[]|e|]]; cbn [snd] in *.
      * destruct (accepts Stdout (corrupted_text dest));
          [left; reflexivity|].
        destruct (print_outcome Stdout
                    (document_warning env u dest UnicodeEncodeError) w')
          as [[_ H]|[_ H]]; [left|right]; exact H.
      * destruct (print_outcome Stdout (document_warning env u dest e) w')
          as [[_ H]|[_ H]]; [left|right]; exact H.
      * contradiction.
    + intros Hall.
      destruct (stream_download env u dest w) as [w' [[]|e|]]; cbn [snd] in *.
      * rewrite Hall. reflexivity.
      * unfold print. rewrite Hall. reflexivity.
      * contradiction.
Qed.

Lemma download_document_fresh_witness :
  snd (download_document (Scenario.env true) (py "docs") 1
         (VDict [(VStr (py "url"), VStr (py "http://x/test.pdf"))])
         (World ∅ []))
  = Ret tt
  /\ download_document (Scenario.env true) (py "docs") 1
       (VDict [(VStr (py "url"), VStr (py "http://[x/a.pdf"))]) (World ∅ [])
     = (World ∅ [], Raise ValueError).
Proof.
  split.
  - destruct (download_document_fresh (con := plain) (Scenario.env true)
                (py "docs") 1
                [(VStr (py "url"), VStr (py "http://x/test.pdf"))]
                (py "http://x/test.pdf") (World ∅ []))
      as [_ H]; [discriminate|reflexivity|discriminate|].
    destruct (H (py "/test.pdf") eq_refl) as (n & _ & _ & _ & _ & Hret).
    apply Hret. intros line. reflexivity.
  - destruct (download_document_fresh (con := plain) (Scenario.env true)
                (py "docs") 1
                [(VStr (py "url"), VStr (py "http://[x/a.pdf"))]
                (py "http://[x/a.pdf") (World ∅ []))
      as [H _]; [discriminate|reflexivity|discriminate|].
    apply H. reflexivity.
Defined.

(** The document of the scenario, run: the file arrives and is called
    corrupted. *)
Example download_document_run :
  download_document (Scenario.env true) (py "docs") 1
    (VDict [(VStr (py "url"), VStr (py "http://x/test.pdf"))]) (World ∅ [])
  = (World ({[ py "docs" := Dir 4096;
               py "docs/01 - test.pdf" := File (Ref.bytes "%PDF-1.4 Hello") ]})
       [EvRequest (py "http://x/test.pdf");
        corrupted_line (py "docs/01 - test.pdf")],
     Ret tt).
Proof. vm_compute. reflexivity. Qed.

(** ** Entries of the asset lists *)

Lemma skipped_entry_url (x : pyval) (w : world) :
  skipped_entry x ->
  exists url, get_field x (py "url") w = (w, Ret url) /\ py_truthy url = false.
Proof.
  intros [Hx | (d & -> & Hurl)].
  - exists VNone. unfold get_field. rewrite Hx. split; reflexivity.
  - unfold get_field. destruct (py_truthy (VDict d)).
    + exists (dict_get (py "url") d VNone). split; [reflexivity | exact Hurl].
    + exists VNone. split; reflexivity.
Qed.

(** X9. An entry of the [tracks] or [documents] list that is empty ([None],
    an empty dictionary, any falsy value) or whose [url] is missing or falsy
    is passed over: nothing is requested, written or printed. *)
Theorem asset_entry_skipped (env : PyEnv) (dir : pystr) (index : nat)
    (x : pyval) (w : world) :
  skipped_entry x ->
  download_track env dir index x w = (w, Ret tt)
  /\ download_document env dir index x w = (w, Ret tt).
Proof.
  intros Hx. destruct (skipped_entry_url x w Hx) as (url & Hget & Hurl).
  unfold download_track, download_document.
  unfold bind at 1. rewrite Hget, Hurl. cbn [negb].
  split; [reflexivity|].
  unfold bind at 1. rewrite Hget, Hurl. reflexivity.
Qed.

Lemma asset_entry_skipped_witness :
  download_track (Scenario.env true) (py "d") 1
    (VDict [(VStr (py "name"), VStr (py "a"))]) Scenario.start
  = (Scenario.start, Ret tt)
  /\ download_document (Scenario.env true) (py "d") 1
       (VDict [(VStr (py "name"), VStr (py "a"))]) Scenario.start
     = (Scenario.start, Ret tt).
Proof.
  apply asset_entry_skipped. right.
  exists [(VStr (py "name"), VStr (py "a"))]. split; reflexivity.
Defined.

(** X10. An entry that is not a dictionary, such as a bare URL string, is
    not passed over: looking up its [url] raises [AttributeError] outside
    the [try] of the loop body, before anything is requested or written. *)
Theorem asset_entry_not_dict (env : PyEnv) (dir : pystr) (index : nat)
    (x : pyval) (w : world) :
  py_truthy x = true ->
  is_dict x = false ->
  download_track env dir index x w = (w, Raise AttributeError)
  /\ download_document env dir index x w = (w, Raise AttributeError).
Proof.
  intros Ht Hd.
  assert (Hget : get_field x (py "url") w = (w, Raise AttributeError)).
  { unfold get_field. rewrite Ht. destruct x; try reflexivity; discriminate. }
  unfold download_track, download_document.
  unfold bind at 1. rewrite Hget. split; [reflexivity|].
  unfold bind at 1. rewrite Hget. reflexivity.
Qed.

Lemma asset_entry_not_dict_witness :
  download_track (Scenario.env true) (py "d") 1
    (VStr (py "http://x/a.mp3")) Scenario.start
  = (Scenario.start, Raise AttributeError)
  /\ download_document (Scenario.env true) (py "d") 1
       (VStr (py "http://x/a.mp3")) Scenario.start
     = (Scenario.start, Raise AttributeError).
Proof.
  apply asset_entry_not_dict; reflexivity.
Defined.

Lemma usable_entry_cases (env : PyEnv) (x : pyval) :
  usable_entry env x ->
  skipped_entry x
  \/ exists d u path,
       x = VDict d /\ d <> [] /\ dict_get (py "url") d VNone = VStr u
       /\ u <> [] /\ urlparse_path env u = Some path.
Proof.
  intros [Hs | (d & u & -> & Hurl & [path Hpath])]; [now left|].
  destruct d as [|kv d'].
  { left. left. reflexivity. }
  destruct u as [|c u'].
  { left. right. eexists. split; [reflexivity|]. rewrite Hurl. reflexivity. }
  right. exists (kv :: d'), (c :: u'), path.
  repeat split; [discriminate|exact Hurl|discriminate|exact Hpath].
Qed.

Lemma download_track_usable {con : Console} (env : PyEnv) (dir : pystr)
    (index : nat) (x : pyval) (w : world) :
  usable_entry env x ->
  returns_or_refused (snd (download_track env dir index x w)).
Proof.
  intros Hx.
  destruct (usable_entry_cases env x Hx)
    as [Hs | (d & u & path & -> & Hd & Hurl & Hu & Hpath)].
  - pose proof (skipped_entry_url x w Hs) as (url & Hget & Hf).
    unfold download_track. unfold bind at 1. rewrite Hget, Hf. now left.
  - destruct (unique_filename_first (fs w) dir (track_base env index d path))
      as (n & Hname & _).
    rewrite (download_track_eq env dir index d u path w n Hd Hurl Hu Hpath Hname).
    apply guarded_outcome.
Qed.

Lemma download_document_usable {con : Console} (env : PyEnv) (dir : pystr)
    (index : nat) (x : pyval) (w : world) :
  usable_entry env x ->
  returns_or_refused (snd (download_document env dir index x w)).
Proof.
  intros Hx.
  destruct (usable_entry_cases env x Hx)
    as [Hs | (d & u & path & -> & Hd & Hurl & Hu & Hpath)].
  - pose proof (skipped_entry_url x w Hs) as (url & Hget & Hf).
    unfold download_document. unfold bind at 1. rewrite Hget, Hf. now left.
  - destruct (unique_filename_first (fs w) dir (document_base env index d path))
      as (n & Hname & _).
    rewrite (download_document_eq env dir index d u path w n
               Hd Hurl Hu Hpath Hname).
    set (dest := path_join dir
                   (nth_candidate (document_base env index d path) n)).
    assert (Hprint : forall e w',
              returns_or_refused
                (snd (print Stdout (document_warning env u dest e) w'))).
    { intros e w'.
      destruct (print_outcome Stdout (document_warning env u dest e) w')
        as [[_ H]|[Hno H]]; [now left|].
      right. split; [exact H|]. now exists (document_warning env u dest e). }
    pose proof (ends_stream_download env u dest w) as Hends.
    destruct (stream_download env u dest w) as [w' [[]|e|]]; cbn [snd] in *.
    + destruct (accepts Stdout (corrupted_text dest)); [now left|].
      apply Hprint.
    + apply Hprint.
    + contradiction.
Qed.

Lemma for_enumerate_usable {con : Console} (env : PyEnv)
    (body : nat -> pyval -> M unit) (v : pyval) :
  (forall i x w, usable_entry env x -> returns_or_refused (snd (body i x w))) ->
  usable_entries env v -> py_truthy v = true ->
  forall w, returns_or_refused (snd (for_enumerate v body w)).
Proof.
  intros Hbody [Hf | (l & -> & Hl)] Ht w; [congruence|].
  unfold for_enumerate. cbn [py_iter]. clear Ht.
  generalize 1%nat as i. revert w.
  induction Hl as [|x l Hx Hl IH]; intros w i; [now left|].
  cbn [enumerate for_each]. unfold bind at 1. cbn [fst snd].
  specialize (Hbody i x w Hx).
  destruct (body i x w) as [w' [[]|e|]]; cbn [snd] in *.
  - apply IH.
  - exact Hbody.
  - destruct Hbody as [H|[H _]]; discriminate.
Qed.

Lemma ensure_dir_eq (env : PyEnv) (path : pystr) (w : world) :
  ensure_dir env path w
  = match os_makedirs env (fs w) path with
    | Some f' => (World f' (trace w), Ret tt)
    | None => (w, Raise OSError)
    end.
Proof.
  unfold ensure_dir, bind, get_fs.
  destruct (os_makedirs env (fs w) path); reflexivity.
Qed.

(** X11. Failed downloads never abort an item. When the [tracks] and
    [documents] of an item are lists of dictionaries whose [url], if any, is
    a string that [urlparse] takes (or are absent or empty),
    [download_assets_for_prayer] ends, and every network or validation
    failure of a single asset is caught inside the loop. What can leave the
    function is the [OSError] of creating the [audio] or [documents]
    directory, and the error of a line that [stdout] refuses; when [stdout]
    takes every line, the [OSError] alone. *)
Theorem download_assets_only_oserror {con : Console} (env : PyEnv)
    (prayer_dir : pystr) (prayer : pydict) (w : world) :
  usable_entries env (dict_get (py "tracks") prayer VNone) ->
  usable_entries env (dict_get (py "documents") prayer VNone) ->
  (snd (download_assets_for_prayer env prayer_dir prayer w) = Ret tt
   \/ snd (download_assets_for_prayer env prayer_dir prayer w) = Raise OSError
   \/ snd (download_assets_for_prayer env prayer_dir prayer w)
      = Raise UnicodeEncodeError)
  /\ ((forall line, accepts Stdout line = true) ->
      snd (download_assets_for_prayer env prayer_dir prayer w) = Ret tt
      \/ snd (download_assets_for_prayer env prayer_dir prayer w)
         = Raise OSError).
Proof.
  intros Htr Hdoc.
  pose (fine := fun o : outcome unit =>
                  o = Raise OSError \/ returns_or_refused o).
  assert (Hfine : fine (snd (download_assets_for_prayer env prayer_dir prayer w))).
  { assert (Hor : forall v, usable_entries env v ->
                            usable_entries env (py_or v (VList []))).
    { intros v Hv. unfold py_or. destruct (py_truthy v); [exact Hv|]. now left. }
    apply Hor in Htr. apply Hor in Hdoc.
    unfold download_assets_for_prayer. cbv zeta.
    set (tracks := py_or (dict_get (py "tracks") prayer VNone) (VList [])) in *.
    set (docs := py_or (dict_get (py "documents") prayer VNone) (VList [])) in *.
    assert (Hdocs : forall w1,
      fine (snd ((if py_truthy docs
            then ensure_dir env (path_join prayer_dir (py "documents")) ;;;
                 for_enumerate docs
                   (download_document env
                      (path_join prayer_dir (py "documents")))
            else ret tt) w1))).
    { intros w1. destruct (py_truthy docs) eqn:Ht; [|right; now left].
      unfold bind at 1. rewrite ensure_dir_eq.
      destruct (os_makedirs env (fs w1) (path_join prayer_dir (py "documents")));
        [|left; reflexivity].
      right. apply (for_enumerate_usable env); auto.
      intros i x w2. apply download_document_usable. }
    unfold bind at 1.
    destruct (py_truthy tracks) eqn:Ht.
    - unfold bind at 1. rewrite ensure_dir_eq.
      destruct (os_makedirs env (fs w) (path_join prayer_dir (py "audio")))
        as [f'|]; [|left; reflexivity].
      pose proof (for_enumerate_usable env
                    (download_track env (path_join prayer_dir (py "audio")))
                    tracks
                    (fun i x w2 => download_track_usable env _ i x w2) Htr Ht
                    (World f' (trace w))) as Hloop.
      destruct (for_enumerate tracks _ _) as [w1 [[]|e|]]; cbn [snd] in Hloop.
      + apply Hdocs.
      + right. exact Hloop.
      + destruct Hloop as [H|[H _]]; discriminate.
    - apply Hdocs. }
  destruct Hfine as [H|[H|[H [line Hline]]]].
  - split; [right; now left|intros _; now right].
  - split; [now left|intros _; now left].
  - split; [right; now right|].
    intros Hall. rewrite Hall in Hline. discriminate.
Qed.

Lemma download_assets_only_oserror_witness :
  snd (download_assets_for_prayer (Scenario.env true) Scenario.item_dir
         [ (VStr (py "tracks"),
            VList [ VNone;
                    VDict [ (VStr (py "url"), VStr (py "http://x/missing.mp3")) ] ]);
           (VStr (py "documents"),
            VList [ VDict [ (VStr (py "url"), VStr (py "http://x/test.pdf")) ] ]) ]
         Scenario.start) = Ret tt
  \/ snd (download_assets_for_prayer (Scenario.env true) Scenario.item_dir
         [ (VStr (py "tracks"),
            VList [ VNone;
                    VDict [ (VStr (py "url"), VStr (py "http://x/missing.mp3")) ] ]);
           (VStr (py "documents"),
            VList [ VDict [ (VStr (py "url"), VStr (py "http://x/test.pdf")) ] ]) ]
         Scenario.start) = Raise OSError.
Proof.
  apply (download_assets_only_oserror (con := plain)).
  - right. eexists. split; [reflexivity|].
    constructor; [left; left; reflexivity|].
    constructor; [|constructor].
    right. do 2 eexists. split; [reflexivity|].
    split; [reflexivity|]. eexists. reflexivity.
  - right. eexists. split; [reflexivity|].
    constructor; [|constructor].
    right. do 2 eexists. split; [reflexivity|].
    split; [reflexivity|]. eexists. reflexivity.
  - intros line. reflexivity.
Defined.

(** ** Metadata *)

Lemma write_chunks_run (env : PyEnv) (path : pystr) (chunks : list pystr) :
  forall (g : gmap pystr node) (tr : list event) (c : list Byte.byte),
    g !! path = Some (File c) ->
    for_each chunks (fun _ chunk => write_str env path chunk) tt (World g tr)
    = (World (<[path := File (c ++ fst (encode_chunks env chunks))]> g) tr,
       if snd (encode_chunks env chunks) then Ret tt
       else Raise UnicodeEncodeError).
Proof.
  induction chunks as [|chunk rest IH]; intros g tr c Hg.
  - cbn. unfold ret. now rewrite app_nil_r, insert_id by exact Hg.
  - cbn [for_each encode_chunks]. unfold bind at 1. unfold write_str at 1.
    destruct (utf8_encode env chunk) as [data|].
    + unfold write_chunk, bind, get_fs. cbn [fs trace]. rewrite Hg.
      unfold set_fs. cbn [fs trace fst snd].
      rewrite (IH _ tr (c ++ data)) by apply lookup_insert_eq.
      rewrite insert_insert_eq. now rewrite app_assoc.
    + cbn. unfold raise. now rewrite app_nil_r, insert_id by exact Hg.
Qed.

(** X12. [save_metadata] opens [metadata.json] in the item directory for
    writing, which empties it, and writes the JSON text of the item piece
    by piece. When every piece can be encoded, the file ends up holding the
    whole text, and nothing else has changed. A piece that cannot be
    encoded (a string with a lone surrogate) ends the writing with
    [UnicodeEncodeError]: the file keeps the pieces written before it, and
    what it held earlier is gone. When the file cannot be opened,
    [OSError] is raised and nothing has changed. *)
Theorem save_metadata_overwrites (env : PyEnv) (prayer_dir : pystr)
    (prayer : pydict) (w : world) :
  save_metadata env prayer_dir prayer w
  = if can_open_w env (fs w) (metadata_path prayer_dir)
    then
      (World (<[metadata_path prayer_dir :=
                  File (fst (encode_chunks env (json_chunks env (VDict prayer))))]>
                (fs w))
         (trace w),
       if snd (encode_chunks env (json_chunks env (VDict prayer)))
       then Ret tt else Raise UnicodeEncodeError)
    else (w, Raise OSError).
Proof.
  unfold save_metadata, metadata_path. cbv zeta.
  set (p := path_join prayer_dir (py "metadata.json")).
  unfold bind at 1. unfold open_w, bind at 1, get_fs at 1.
  destruct (can_open_w env (fs w) p); [|reflexivity].
  unfold set_fs at 1.
  rewrite (write_chunks_run env p _ _ _ []) by apply lookup_insert_eq.
  cbn [app]. now rewrite insert_insert_eq.
Qed.

(** A name with a lone surrogate: the file is left with the text that
    comes before the name. *)
Example save_metadata_partial :
  save_metadata (Scenario.env true) (py "d")
    [ (VStr (py "id"), VInt 1); (VStr (py "name"), VStr [97%N; 55296%N]) ]
    (World {[ py "d/metadata.json" := File (Ref.bytes "old text, much longer") ]} [])
  = (World {[ py "d/metadata.json" :=
                File (Ref.encode (py "{" ++ [10%N] ++ py "  " ++ [34%N]
                                  ++ py "id" ++ [34%N] ++ py ": 1,"
                                  ++ [10%N] ++ py "  " ++ [34%N] ++ py "name"
                                  ++ [34%N] ++ py ": ")) ]} [],
     Raise UnicodeEncodeError).
Proof. vm_compute. reflexivity. Qed.

(** ** The category mapping *)

Lemma dict_set_fresh (k v : pyval) (d : pydict) :
  Forall (fun kv => key_eqb (fst kv) k = false) d ->
  dict_set k v d = d ++ [(k, v)].
Proof.
  induction 1 as [|[k' v'] r Hk _ IH]; [reflexivity|].
  cbn [dict_set app]. cbn [fst] in Hk. rewrite Hk, IH. reflexivity.
Qed.

Lemma int_keyed_fresh (zs : list Z) (items : pydict) (z : Z) :
  z ∉ zs -> Forall (fun kv => key_eqb (fst kv) (VInt z) = false) (int_keyed zs items).
Proof.
  revert items. induction zs as [|a zs IH]; intros items Hz; [constructor|].
  destruct items as [|kv items]; [constructor|].
  cbn [int_keyed zip_with]. constructor.
  - cbn. apply Z.eqb_neq. intros ->. apply Hz. left.
  - apply IH. intros Hin. apply Hz. now right.
Qed.

Lemma load_fold_numerals (env : PyEnv) (items : pydict) (zs : list Z) :
  Forall2 (fun kv z => py_int env (fst kv) = inr z) items zs ->
  forall (zs0 : list Z) (items0 : pydict),
    length zs0 = length items0 ->
    NoDup (zs0 ++ zs) ->
    fold_left
      (fun mapping kv =>
         let ik := match py_int env (fst kv) with
                   | inr z => VInt z
                   | inl _ => fst kv
                   end in
         dict_set ik (snd kv) mapping)
      items (int_keyed zs0 items0)
    = int_keyed (zs0 ++ zs) (items0 ++ items).
Proof.
  induction 1 as [|kv z items zs Hz _ IH]; intros zs0 items0 Hlen Hnd.
  - now rewrite !app_nil_r.
  - cbn [fold_left]. cbv zeta. rewrite Hz.
    rewrite dict_set_fresh.
    + replace (int_keyed zs0 items0 ++ [(VInt z, snd kv)])
        with (int_keyed (zs0 ++ [z]) (items0 ++ [kv])).
      * rewrite IH.
        -- now rewrite <- !app_assoc.
        -- rewrite !length_app. simpl. lia.
        -- now rewrite <- app_assoc.
      * unfold int_keyed. now rewrite zip_with_app.
    + apply int_keyed_fresh. apply NoDup_app in Hnd as (_ & Hdis & _).
      intros Hin. apply (Hdis z Hin). left.
Qed.

(** X13. A mapping file whose keys are numerals of different integers is
    loaded as it stands: the same entries in the same order, each under the
    integer its key denotes. Loading changes neither the file system nor the
    output. *)
Theorem load_category_mapping_numerals (env : PyEnv) (path : pystr) (w : world)
    (content : list Byte.byte) (raw : pystr) (items : pydict) (zs : list Z) :
  fs w !! path = Some (File content) ->
  utf8_decode env content = Some raw ->
  parse_mapping env raw = Some (VDict items) ->
  Forall2 (fun kv z => py_int env (fst kv) = inr z) items zs ->
  NoDup zs ->
  load_category_mapping env path w = (w, Ret (int_keyed zs items)).
Proof.
  intros Hfile Hdec Hparse Hkeys Hnd.
  unfold load_category_mapping, read_text.
  unfold bind at 1. unfold bind at 1. unfold get_fs at 1.
  rewrite Hfile, Hdec. unfold ret at 1.
  unfold bind at 1.
  assert (Hdata : (match json_loads env raw with
                   | Some v => ret v
                   | None => match literal_eval env raw with
                             | Some v => ret v
                             | None => raise ValueError
                             end
                   end) w = (w, Ret (VDict items))).
  { unfold parse_mapping in Hparse.
    destruct (json_loads env raw) as [v|].
    - injection Hparse as ->. reflexivity.
    - rewrite Hparse. reflexivity. }
  rewrite Hdata. unfold ret.
  pose proof (load_fold_numerals env items zs Hkeys [] [] eq_refl Hnd) as Hfold.
  cbn [app int_keyed zip_with] in Hfold. rewrite Hfold. reflexivity.
Qed.

Lemma load_category_mapping_numerals_witness :
  load_category_mapping (Scenario.env true) (py "/srv/crawl/category_mapping.json")
    Scenario.start
  = (Scenario.start,
     Ret (int_keyed [12%Z] [ (VStr (py "12"), VStr (py "Morning Prayers")) ])).
Proof.
  apply (load_category_mapping_numerals (Scenario.env true) _ Scenario.start
           (Ref.bytes "MAPPING") (py "MAPPING")).
  - reflexivity.
  - vm_compute. reflexivity.
  - vm_compute. reflexivity.
  - constructor; [vm_compute; reflexivity | constructor].
  - constructor; [|constructor]. intros H. inversion H.
Defined.

Lemma dict_set_settled (env : PyEnv) (k v : pyval) (d : pydict) :
  settled_key env k ->
  Forall (fun kv => settled_key env (fst kv)) d ->
  Forall (fun kv => settled_key env (fst kv)) (dict_set k v d).
Proof.
  intros Hk. induction 1 as [|[k' v'] r Hk' Hr IH]; cbn [dict_set].
  - constructor; [exact Hk | constructor].
  - destruct (key_eqb k' k); constructor; assumption.
Qed.

(** X14. Every key of the mapping that [load_category_mapping] returns is
    an integer or a value [int] rejects: a key that could be converted has
    been, whichever parser read the file. *)
Theorem load_category_mapping_keys (env : PyEnv) (path : pystr) (w w' : world)
    (mapping : pydict) :
  load_category_mapping env path w = (w', Ret mapping) ->
  Forall (fun kv => settled_key env (fst kv)) mapping.
Proof.
  unfold load_category_mapping, read_text, bind, get_fs, raise, ret.
  destruct (fs w !! path) as [[c|]|]; try discriminate.
  destruct (utf8_decode env c) as [raw|]; try discriminate.
  assert (Hfold : forall items acc,
            Forall (fun kv => settled_key env (fst kv)) acc ->
            Forall (fun kv => settled_key env (fst kv))
              (fold_left
                 (fun mapping kv =>
                    let ik := match py_int env (fst kv) with
                              | inr z => VInt z
                              | inl _ => fst kv
                              end in
                    dict_set ik (snd kv) mapping)
                 items acc)).
  { induction items as [|kv items IH]; intros acc Hacc; [exact Hacc|].
    cbn [fold_left]. apply IH. cbv zeta. apply dict_set_settled; [|exact Hacc].
    destruct (py_int env (fst kv)) as [e|z] eqn:E.
    - right. now exists e.
    - left. now exists z. }
  destruct (json_loads env raw) as [v|].
  - destruct v; try discriminate. intros [= _ <-]. apply Hfold. constructor.
  - destruct (literal_eval env raw) as [v|]; try discriminate.
    destruct v; try discriminate. intros [= _ <-]. apply Hfold. constructor.
Qed.

Lemma load_category_mapping_keys_witness :
  Forall (fun kv => settled_key (Scenario.env true) (fst kv))
    [ (VInt 12, VStr (py "Morning Prayers")) ].
Proof.
  apply (load_category_mapping_keys (Scenario.env true)
           (py "/srv/crawl/category_mapping.json") Scenario.start Scenario.start).
  vm_compute. reflexivity.
Defined.

(** ** Transfers that fail *)

(** X15. A request that does not get through leaves no file behind: when
    the transport fails or the status is refused, [stream_download] raises
    before the destination is opened. The directory of the destination has
    been created by then, and the request is on the trace. *)
Theorem stream_download_refused (env : PyEnv) (url dest_path : pystr)
    (w : world) (f1 : gmap pystr node) :
  let r := net env (requests_made w) url in
  path_exists (fs w) dest_path && (0 <? getsize (fs w) dest_path)%Z = false ->
  os_makedirs env (fs w) (dirname dest_path) = Some f1 ->
  rs_error r || negb (status_passes env r) = true ->
  stream_download env url dest_path w
  = (World f1 (trace w ++ [EvRequest url]), Raise (request_error env r)).
Proof.
  intros r Hnew Hdirs Hfail.
  unfold stream_download. unfold bind at 1. unfold get_fs at 1.
  rewrite Hnew.
  unfold bind at 1. rewrite ensure_dir_eq, Hdirs.
  unfold request_error, status_passes in *.
  destruct (have_requests env).
  - unfold bind at 1. unfold send_request at 1. cbn [fs trace].
    change (requests_made {| fs := f1; trace := trace w |})
      with (requests_made w). fold r.
    destruct (rs_error r); [reflexivity|].
    cbn [orb] in Hfail. rewrite negb_involutive in Hfail. rewrite Hfail.
    reflexivity.
  - unfold bind at 1. unfold send_request at 1. cbn [fs trace].
    change (requests_made {| fs := f1; trace := trace w |})
      with (requests_made w). fold r.
    destruct (rs_error r); [reflexivity|].
    cbn [orb] in Hfail. rewrite Hfail. reflexivity.
Qed.

Lemma stream_download_refused_witness :
  let env := Ref.env true (fun _ _ => Response false 404 None [] false)
               (fun _ => None) (fun _ => None) in
  stream_download env (py "http://x/a.mp3") (py "out/a.mp3") (World ∅ [])
  = (World {[ py "out" := Dir 4096 ]} [EvRequest (py "http://x/a.mp3")],
     Raise (HTTPError 404)).
Proof.
  intros env.
  apply (stream_download_refused env (py "http://x/a.mp3") (py "out/a.mp3")
           (World ∅ []) {[ py "out" := Dir 4096 ]}).
  - reflexivity.
  - vm_compute. reflexivity.
  - reflexivity.
Defined.

Lemma urllib_broken_loop (dest : pystr) (chunks : list (list Byte.byte)) :
  forall (g : gmap pystr node) (tr : list event) (c : list Byte.byte)
         (first : option (list Byte.byte)),
    forallb bytes_truthy chunks = true ->
    g !! dest = Some (File c) ->
    urllib_read_loop dest chunks true first (World g tr)
    = (World (<[dest := File (c ++ List.concat (until_empty chunks))]> g) tr,
       Raise ConnectionError).
Proof.
  induction chunks as [|chunk rest IH]; intros g tr c first Hall Hg.
  - simpl. unfold raise. now rewrite app_nil_r, insert_id by exact Hg.
  - cbn [forallb] in Hall. apply andb_true_iff in Hall as [E Hall].
    cbn [urllib_read_loop until_empty]. rewrite E. cbn [negb].
    unfold bind at 1. unfold write_chunk, bind, get_fs. cbn [fs trace].
    rewrite Hg. unfold set_fs. cbn [fs trace].
    rewrite (IH _ tr (c ++ chunk)) by (exact Hall || apply lookup_insert_eq).
    rewrite insert_insert_eq. cbn [List.concat]. now rewrite app_assoc.
Qed.

(** X16. A transfer that breaks off is not cleaned up: the chunks received
    so far stay in the destination file, [ConnectionError] is raised, and
    the PDF check is never reached. If any data arrived, every later call
    for that destination finds a non-empty file and returns at once, so the
    truncated file is never replaced. *)
Theorem stream_download_broken (env : PyEnv) (url dest_path : pystr)
    (w : world) (f1 : gmap pystr node) :
  let r := net env (requests_made w) url in
  let partial := List.concat (written_chunks env r) in
  let w' := World (<[dest_path := File partial]> f1) (trace w ++ [EvRequest url]) in
  path_exists (fs w) dest_path && (0 <? getsize (fs w) dest_path)%Z = false ->
  os_makedirs env (fs w) (dirname dest_path) = Some f1 ->
  rs_error r = false ->
  status_passes env r = true ->
  can_open_w env f1 dest_path = true ->
  stream_breaks env r = true ->
  stream_download env url dest_path w = (w', Raise ConnectionError)
  /\ (partial <> [] ->
      forall url', stream_download env url' dest_path w' = (w', Ret tt)).
Proof.
  intros r partial w' Hnew Hdirs Herr Hstatus Hopen Hbreak.
  split.
  - unfold stream_download. unfold bind at 1. unfold get_fs at 1.
    rewrite Hnew.
    unfold bind at 1. rewrite ensure_dir_eq, Hdirs.
    subst w' partial.
    unfold written_chunks, status_passes, stream_breaks in *.
    apply andb_true_iff in Hbreak as [Hbody Hall].
    destruct (have_requests env).
    + unfold bind at 1. unfold send_request at 1. cbn [fs trace].
      change (requests_made {| fs := f1; trace := trace w |})
        with (requests_made w). fold r.
      rewrite Herr.
      apply negb_true_iff in Hstatus. rewrite Hstatus.
      unfold bind at 1. unfold open_w, bind at 1. unfold get_fs at 1.
      cbn [fs trace]. rewrite Hopen. unfold set_fs at 1. cbn [fs trace].
      unfold bind at 1.
      rewrite (requests_write_loop dest_path (rs_body r) _ _ [])
        by apply lookup_insert_eq.
      rewrite insert_insert_eq. cbn [app].
      rewrite Hbody. reflexivity.
    + cbn [orb] in Hall.
      unfold bind at 1. unfold send_request at 1. cbn [fs trace].
      change (requests_made {| fs := f1; trace := trace w |})
        with (requests_made w). fold r.
      rewrite Herr. rewrite Hstatus. cbn [negb].
      unfold bind at 1. unfold open_w, bind at 1. unfold get_fs at 1.
      cbn [fs trace]. rewrite Hopen. unfold set_fs at 1. cbn [fs trace].
      unfold bind at 1. rewrite Hbody.
      rewrite (urllib_broken_loop dest_path (rs_body r) _ _ [])
        by (exact Hall || apply lookup_insert_eq).
      rewrite insert_insert_eq. reflexivity.
  - intros Hdata url'.
    unfold stream_download, bind, get_fs.
    unfold path_exists, getsize. subst w'. cbn [fs].
    rewrite lookup_insert_eq.
    rewrite bool_decide_eq_true_2 by eauto. cbn [andb].
    destruct (0 <? Z.of_nat (length partial))%Z eqn:E; [reflexivity|].
    apply Z.ltb_ge in E. destruct partial; [contradiction|simpl in E; lia].
Qed.

Lemma stream_download_broken_witness :
  let env := Ref.env false
               (fun _ _ => Response false 200 (Some (py "application/pdf"))
                             [Ref.bytes "%PDF-1.4 begin"] true)
               (fun _ => None) (fun _ => None) in
  let w' := World (<[ py "out/doc.pdf" := File (Ref.bytes "%PDF-1.4 begin") ]>
                     {[ py "out" := Dir 4096 ]})
              [EvRequest (py "http://x/doc.pdf")] in
  stream_download env (py "http://x/doc.pdf") (py "out/doc.pdf") (World ∅ [])
  = (w', Raise ConnectionError)
  /\ stream_download env (py "http://x/other.pdf") (py "out/doc.pdf") w'
     = (w', Ret tt).
Proof.
  intros env w'.
  destruct (stream_download_broken env (py "http://x/doc.pdf") (py "out/doc.pdf")
              (World ∅ []) {[ py "out" := Dir 4096 ]}) as [Hrun Hagain].
  - reflexivity.
  - vm_compute. reflexivity.
  - reflexivity.
  - reflexivity.
  - vm_compute. reflexivity.
  - reflexivity.
  - split; [exact Hrun|].
    apply Hagain. intros H. vm_compute in H. discriminate H.
Defined.

(** ** Pagination *)

Lemma requests_made_stdout (f f' : gmap pystr node) (tr : list event)
    (line : pystr) :
  requests_made (World f' (tr ++ [EvStdout line])) = requests_made (World f tr).
Proof.
  unfold requests_made. cbn [trace]. rewrite List.filter_app. cbn.
  now rewrite app_nil_r.
Qed.

(** X17. Whatever the server answers, [iter_prayers] asks for the pages
    0, 1, 2, ... of the category in this order, without a gap or a repeat,
    and does nothing else: the file system is as it was and the trace holds
    these requests only. *)
Theorem iter_prayers_requests_in_order (env : PyEnv) (fuel : nat) (cid : Z)
    (w : world) :
  exists n,
    (n <= fuel)%nat
    /\ fst (iter_prayers env fuel cid w)
       = World (fs w) (trace w ++ page_requests cid 0 n).
Proof.
  unfold iter_prayers, for_iter_prayers.
  generalize 0%nat as page, (∅ : gset Z) as seen, VNone as total,
    (@nil pydict) as acc.
  revert w. induction fuel as [|fuel IH]; intros w page seen total acc.
  - exists 0%nat. split; [lia|]. cbn. rewrite app_nil_r. now destruct w.
  - assert (Hone : requested w (page_url cid page)
                   = World (fs w) (trace w ++ page_requests cid page 1)) by reflexivity.
    rewrite iter_collect_step. cbv zeta.
    destruct (fetch_result env _) as [e|v];
      [exists 1%nat; split; [lia|exact Hone]|].
    destruct v; try (exists 1%nat; split; [lia|exact Hone]).
    destruct (negb _); [exists 1%nat; split; [lia|exact Hone]|].
    destruct (py_iter _) as [items|]; [|exists 1%nat; split; [lia|exact Hone]].
    destruct (total_check env _ _) as [e|[]];
      try (exists 1%nat; split; [lia|exact Hone]).
    destruct (IH (requested w (page_url cid page)) (S page)
                (seen_after seen items)
                (dict_get (py "totalCount") d total)
                (acc ++ select_items seen items)) as (n & Hn & Heq).
    exists (S n). split; [lia|]. rewrite Heq. unfold requested. cbn [fs trace].
    unfold page_requests. cbn [seq List.map]. now rewrite <- app_assoc.
Qed.

(** X18. The loop of [iter_prayers] ends on an empty page, a failed fetch
    or a reached total, and on nothing else. Against a server that answers
    every page number with a non-empty page and reports no total (one that
    ignores the page number, say), it never ends: the items are filtered as
    duplicates, but the pages keep being requested. *)
Theorem iter_prayers_endless (env : PyEnv) (cid : Z) :
  (forall n page, exists d items,
      fetch_result env (net env n (page_url cid page)) = inr (VDict d)
      /\ dict_get (py "totalCount") d VNone = VNone
      /\ prayers_of d = VList items
      /\ items <> []) ->
  forall (fuel : nat) (w : world),
    snd (iter_prayers env fuel cid w) = Diverge.
Proof.
  intros Hpages fuel w. unfold iter_prayers, for_iter_prayers.
  generalize 0%nat as page, (∅ : gset Z) as seen, (@nil pydict) as acc.
  revert w. induction fuel as [|fuel IH]; intros w page seen acc;
    [reflexivity|].
  rewrite iter_collect_step. cbv zeta.
  destruct (Hpages (requests_made w) page) as (d & items & -> & Htotal & -> & Hne).
  rewrite Htotal.
  assert (Ht : py_truthy (VList items) = true)
    by (destruct items; [contradiction|reflexivity]).
  rewrite Ht. cbn [negb py_iter total_check]. apply IH.
Qed.

Lemma iter_prayers_endless_witness :
  snd (iter_prayers (Paging.env (fun _ _ => Paging.json "P0")) 5 7 Paging.start)
  = Diverge.
Proof.
  apply (iter_prayers_endless (Paging.env (fun _ _ => Paging.json "P0")) 7).
  intros n page.
  exists Paging.page0, [VDict (Paging.entry 1); VDict (Paging.entry 2)].
  split; [vm_compute; reflexivity|].
  split; [reflexivity|].
  split; [reflexivity | discriminate].
Defined.

Lemma select_items_without_ids (items : list pyval) (seen : gset Z) :
  Forall (fun p => forall d, p = VDict d -> item_id d = None) items ->
  select_items seen items = dicts_of items /\ seen_after seen items = seen.
Proof.
  induction 1 as [|p rest Hp _ IH]; [now split|].
  destruct IH as [IH1 IH2].
  destruct p as [| | | | | |d]; try (split; assumption).
  cbn [select_items seen_after dicts_of omap]. rewrite (Hp d eq_refl).
  fold (dicts_of rest). rewrite IH1, IH2. now split.
Qed.

(** X19. Duplicates are recognised by integer [id] only. On a page none of
    whose items has one (the identifiers are strings, say, or missing),
    every dictionary is passed on, in order, and the set of seen
    identifiers stays as it was: such items are yielded again each time
    they come, and never count towards the reported total. *)
Theorem yield_items_without_ids {A} (body : A -> pydict -> M A)
    (items : list pyval) (seen : gset Z) (acc : A) (w : world) :
  Forall (fun p => forall d, p = VDict d -> item_id d = None) items ->
  yield_items body items seen acc w
  = (acc' <- for_each (dicts_of items) body acc ;; ret (seen, acc')) w.
Proof.
  intros H. rewrite yield_items_eq.
  now destruct (select_items_without_ids items seen H) as [-> ->].
Qed.

Lemma yield_items_without_ids_witness :
  yield_items collect
    [ VDict [ (VStr (py "id"), VStr (py "12")) ]; VInt 3;
      VDict [ (VStr (py "id"), VStr (py "12")) ] ]
    ∅ [] Paging.start
  = (acc' <- for_each
               (dicts_of [ VDict [ (VStr (py "id"), VStr (py "12")) ]; VInt 3;
                           VDict [ (VStr (py "id"), VStr (py "12")) ] ])
               collect [] ;;
     ret (∅, acc')) Paging.start.
Proof.
  apply yield_items_without_ids.
  repeat constructor; intros d [= <-]; reflexivity.
Defined.

(** ** One category of the driver *)

(** The work for a category whose identifier converts and whose directory
    can be made, up to the answer to the request for page 0. *)
Lemma category_work_first_page (env : PyEnv) (fuel : nat) (total : Z)
    (k t : pyval) (w : world) (cid : Z) (f1 : gmap pystr node) :
  py_int env k = inr cid ->
  os_makedirs env (fs w) (category_dir env cid (py_str env t)) = Some f1 ->
  let w1 := World f1 (trace w ++ [announce env (k, t); EvRequest (page_url cid 0)]) in
  match fetch_result env (net env (requests_made w) (page_url cid 0)) with
  | inl _ =>
      category_work env (S fuel) total (k, t)
        (World (fs w) (trace w ++ [announce env (k, t)]))
      = (World f1 (trace w1 ++ [downloaded_line 0]), Ret total)
  | inr v =>
      is_dict v = false ->
      category_work env (S fuel) total (k, t)
        (World (fs w) (trace w ++ [announce env (k, t)]))
      = (w1, Raise AttributeError)
  end.
Proof.
  intros Hint Hdirs w1.
  assert (Hwork : forall r,
    (forall (body : Z -> pydict -> M Z),
       iter_prayers_from env (S fuel) body cid 0 ∅ VNone 0%Z
         (World f1 (trace w ++ [announce env (k, t)])) = r) ->
    category_work env (S fuel) total (k, t)
      (World (fs w) (trace w ++ [announce env (k, t)]))
    = match r with
      | (w', Ret count) =>
          (World (fs w') (trace w' ++ [downloaded_line count]),
           Ret (total + count)%Z)
      | (w', Raise e) => (w', Raise e)
      | (w', Diverge) => (w', Diverge)
      end).
  { intros r Hr. unfold category_work. cbn [fst snd].
    unfold bind at 1. rewrite Hint. unfold lift, ret at 1.
    unfold bind at 1. unfold scrape_category. cbv zeta.
    unfold bind at 1. rewrite ensure_dir_eq. cbn [fs trace].
    unfold category_dir in Hdirs. rewrite Hdirs.
    unfold for_iter_prayers. rewrite Hr.
    destruct r as [w' [count|e|]]; reflexivity. }
  assert (Hreq : requests_made (World f1 (trace w ++ [announce env (k, t)]))
                 = requests_made w).
  { unfold announce. rewrite (requests_made_stdout (fs w)). now destruct w. }
  destruct (fetch_result env _) as [e|v] eqn:E.
  - rewrite (Hwork (World f1 (trace w1), Ret 0%Z)).
    + now rewrite Z.add_0_r.
    + intros body. rewrite iter_prayers_from_step. cbv zeta.
      rewrite Hreq, E. unfold requested, w1. cbn [fs trace].
      now rewrite <- app_assoc.
  - intros Hv. rewrite (Hwork (w1, Raise AttributeError)); [reflexivity|].
    intros body. rewrite iter_prayers_from_step. cbv zeta.
    rewrite Hreq, E. unfold requested, w1. cbn [fs trace].
    rewrite <- app_assoc. destruct v; try reflexivity. discriminate.
Qed.

(** X20. A category whose first page cannot be fetched looks like an empty
    category: its directory is made, the one request is sent, and the
    driver prints that 0 prayers were downloaded. No error is reported and
    the running total is unchanged. *)
Theorem main_category_outage_silent (env : PyEnv) (fuel : nat) (total : Z)
    (k t : pyval) (w : world) (cid : Z) (f1 : gmap pystr node) (e : exc) :
  py_int env k = inr cid ->
  os_makedirs env (fs w) (category_dir env cid (py_str env t)) = Some f1 ->
  fetch_result env (net env (requests_made w) (page_url cid 0)) = inl e ->
  main_category env (S fuel) total (k, t) w
  = (World f1 (trace w ++ [ announce env (k, t);
                            EvRequest (page_url cid 0);
                            downloaded_line 0 ]),
     Ret total).
Proof.
  intros Hint Hdirs Hfetch. rewrite main_category_plain.
  pose proof (category_work_first_page env fuel total k t w cid f1 Hint Hdirs)
    as Hwork.
  cbv zeta in Hwork. rewrite Hfetch in Hwork. rewrite Hwork.
  cbn [trace]. now rewrite <- app_assoc.
Qed.

Lemma main_category_outage_silent_witness :
  exists f1,
    main_category (Paging.env Paging.broken) 1 5
      (VInt 7, VStr (py "Daily")) Paging.start
    = (World f1
         [ announce (Paging.env Paging.broken) (VInt 7, VStr (py "Daily"));
           EvRequest (page_url 7 0);
           downloaded_line 0 ],
       Ret 5%Z).
Proof.
  eexists.
  apply (main_category_outage_silent (Paging.env Paging.broken) 0 5
           (VInt 7) (VStr (py "Daily")) Paging.start 7 _ (HTTPError 500)).
  - reflexivity.
  - vm_compute. reflexivity.
  - vm_compute. reflexivity.
Defined.

(** X21. An answer that is well-formed JSON but not an object is no silent
    end of the data: reading [totalCount] off it raises [AttributeError]
    outside the [try] around the fetch, the exception leaves the iterator,
    and the driver reports the category as failed. *)
Theorem main_category_bad_answer (env : PyEnv) (fuel : nat) (total : Z)
    (k t : pyval) (w : world) (cid : Z) (f1 : gmap pystr node) (v : pyval) :
  py_int env k = inr cid ->
  os_makedirs env (fs w) (category_dir env cid (py_str env t)) = Some f1 ->
  fetch_result env (net env (requests_made w) (page_url cid 0)) = inr v ->
  is_dict v = false ->
  main_category env (S fuel) total (k, t) w
  = (World f1 (trace w ++ [ announce env (k, t);
                            EvRequest (page_url cid 0);
                            category_failed env (k, t) AttributeError ]),
     Ret total).
Proof.
  intros Hint Hdirs Hfetch Hv. rewrite main_category_plain.
  pose proof (category_work_first_page env fuel total k t w cid f1 Hint Hdirs)
    as Hwork.
  cbv zeta in Hwork. rewrite Hfetch in Hwork. rewrite (Hwork Hv).
  cbn [fs trace]. now rewrite <- app_assoc.
Qed.

Lemma main_category_bad_answer_witness :
  let env := Ref.env true
               (fun _ _ => Response false 200 None [Ref.bytes "[]"] false)
               (fun _ => Some (VList [])) (fun _ => None) in
  exists f1,
    main_category env 1 5 (VInt 7, VStr (py "Daily")) Paging.start
    = (World f1
         [ announce env (VInt 7, VStr (py "Daily"));
           EvRequest (page_url 7 0);
           category_failed env (VInt 7, VStr (py "Daily")) AttributeError ],
       Ret 5%Z).
Proof.
  intros env. eexists.
  apply (main_category_bad_answer env 0 5 (VInt 7) (VStr (py "Daily"))
           Paging.start 7 _ (VList [])).
  - reflexivity.
  - vm_compute. reflexivity.
  - vm_compute. reflexivity.
  - reflexivity.
Defined.

(** X22. A mapping key that [int] rejects, which [load_category_mapping]
    keeps as it is, is of no use to the driver: [main] converts the key
    again, the conversion fails as it did before, and the category is
    reported as failed without a directory made or a request sent. *)
Theorem main_category_unconverted_key (env : PyEnv) (fuel : nat) (total : Z)
    (k t : pyval) (w : world) (e : exc) :
  py_int env k = inl e ->
  main_category env fuel total (k, t) w
  = (World (fs w) (trace w ++ [ announce env (k, t);
                                category_failed env (k, t) e ]),
     Ret total).
Proof.
  intros Hint. rewrite main_category_plain.
  unfold category_work. cbn [fst snd]. unfold bind at 1. rewrite Hint.
  unfold lift, raise. cbn [fs trace]. now rewrite <- app_assoc.
Qed.

Lemma main_category_unconverted_key_witness :
  main_category (Paging.env Paging.plain) 3 0
    (VStr (py "morning"), VStr (py "Morning Prayers")) Paging.start
  = (World ∅
       [ announce (Paging.env Paging.plain)
           (VStr (py "morning"), VStr (py "Morning Prayers"));
         category_failed (Paging.env Paging.plain)
           (VStr (py "morning"), VStr (py "Morning Prayers")) ValueError ],
     Ret 0%Z).
Proof.
  apply (main_category_unconverted_key (Paging.env Paging.plain) 3 0
           (VStr (py "morning")) (VStr (py "Morning Prayers")) Paging.start
           ValueError).
  vm_compute. reflexivity.
Defined.

(** ** [pdf_to_txt] *)

(** X23. Called with the strings that [download_assets_for_prayer] has,
    [pdf_to_txt] raises [AttributeError] and writes nothing. Called with
    paths, it returns [None] and leaves the file system as it was unless
    the suffix of the file is [.pdf] in lower case and the text is not
    empty. In that case the output file is [<stem>.txt] in the output
    directory, both taken from the paths in normal form: if it cannot be
    opened, [OSError] is raised and nothing has changed; otherwise it is
    emptied and takes the encoded text, or stays empty, with
    [UnicodeEncodeError] raised, when the text cannot be encoded. *)
Theorem pdf_to_txt_cases (env : PyEnv) (extracted_text : pystr) (w : world) :
  (forall s output_dir,
      snd (pdf_to_txt env (AsStr s) output_dir extracted_text w)
      = Raise AttributeError
      /\ fs (fst (pdf_to_txt env (AsStr s) output_dir extracted_text w)) = fs w)
  /\ (forall fp od,
        drop 1 (path_suffix fp) <> py "pdf" \/ extracted_text = [] ->
        snd (pdf_to_txt env (AsPath fp) (AsPath od) extracted_text w) = Ret None
        /\ fs (fst (pdf_to_txt env (AsPath fp) (AsPath od) extracted_text w))
           = fs w)
  /\ (forall fp od,
        drop 1 (path_suffix fp) = py "pdf" ->
        extracted_text <> [] ->
        let output_file := path_div od (path_stem fp ++ py ".txt") in
        let run := pdf_to_txt env (AsPath fp) (AsPath od) extracted_text w in
        (can_open_w env (fs w) output_file = false ->
         snd run = Raise OSError /\ fs (fst run) = fs w)
        /\ (can_open_w env (fs w) output_file = true ->
            match utf8_encode env extracted_text with
            | Some data =>
                snd run = Ret (Some output_file)
                /\ fs (fst run) = <[output_file := File data]> (fs w)
            | None =>
                snd run = Raise UnicodeEncodeError
                /\ fs (fst run) = <[output_file := File []]> (fs w)
            end)).
Proof.
  split; [|split].
  - intros s od. unfold pdf_to_txt, bind, emit, raise. cbn. now split.
  - intros fp od Hno. unfold pdf_to_txt. unfold bind at 1, emit at 1. cbv zeta.
    destruct (pystr_eqb (drop 1 (path_suffix fp)) (py "pdf")) eqn:E.
    + unfold pystr_eqb in E. apply bool_decide_eq_true_1 in E.
      destruct Hno as [Hno | ->]; [contradiction|].
      cbn [str_truthy]. unfold ret. cbn [fst snd fs]. now split.
    + unfold ret. cbn [fst snd fs]. now split.
  - intros fp od Hpdf Htext output_file run.
    assert (Hrun : run
              = if can_open_w env (fs w) output_file
                then match utf8_encode env extracted_text with
                     | Some data =>
                         (World (<[output_file := File data]> (fs w))
                            (trace w ++ [EvCall "pdf_to_txt"]),
                          Ret (Some output_file))
                     | None =>
                         (World (<[output_file := File []]> (fs w))
                            (trace w ++ [EvCall "pdf_to_txt"]),
                          Raise UnicodeEncodeError)
                     end
                else (World (fs w) (trace w ++ [EvCall "pdf_to_txt"]),
                      Raise OSError)).
    { unfold run, pdf_to_txt. unfold bind at 1, emit at 1. cbv zeta.
      assert (Hp : pystr_eqb (drop 1 (path_suffix fp)) (py "pdf") = true)
        by (unfold pystr_eqb; now apply bool_decide_eq_true_2).
      rewrite Hp.
      assert (Ht : str_truthy extracted_text = true)
        by (destruct extracted_text; [contradiction|reflexivity]).
      rewrite Ht. fold output_file.
      unfold write_text. unfold bind at 1. unfold bind at 1.
      unfold open_w, bind at 1, get_fs at 1. cbn [fs trace].
      destruct (can_open_w env (fs w) output_file); [|reflexivity].
      unfold set_fs at 1. cbn [fs trace]. unfold write_str.
      destruct (utf8_encode env extracted_text) as [data|]; [|reflexivity].
      unfold write_chunk, bind, get_fs. cbn [fs trace].
      rewrite lookup_insert_eq. unfold set_fs, ret. cbn [fs trace app].
      now rewrite insert_insert_eq. }
    split.
    + intros Hopen. rewrite Hrun, Hopen. now split.
    + intros Hopen. rewrite Hrun, Hopen.
      destruct (utf8_encode env extracted_text); now split.
Qed.

Lemma pdf_to_txt_cases_witness :
  let env := Scenario.env true in
  (snd (pdf_to_txt env (AsPath (py "out/a.PDF")) (AsPath (py "out")) (py "text")
          Scenario.start) = Ret None
   /\ fs (fst (pdf_to_txt env (AsPath (py "out/a.PDF")) (AsPath (py "out"))
                 (py "text") Scenario.start)) = fs Scenario.start)
  /\ snd (pdf_to_txt env (AsPath (py "docs/a.pdf/")) (AsPath (py "docs//"))
            (py "text") Scenario.start) = Ret (Some (py "docs/a.txt")).
Proof.
  intros env.
  destruct (pdf_to_txt_cases env (py "text") Scenario.start) as (_ & Hskip & Hrun).
  split.
  - apply Hskip. left. vm_compute. discriminate.
  - destruct (Hrun (py "docs/a.pdf/") (py "docs//")) as [_ H];
      [reflexivity|discriminate|].
    apply H. vm_compute. reflexivity.
Defined.

(** ** Items without assets *)

Lemma for_enumerate_skipped (env : PyEnv) (dir : pystr) (l : list pyval)
    (w : world) :
  Forall skipped_entry l ->
  for_enumerate (VList l) (download_track env dir) w = (w, Ret tt)
  /\ for_enumerate (VList l) (download_document env dir) w = (w, Ret tt).
Proof.
  intros Hl. unfold for_enumerate. cbn [py_iter].
  generalize 1%nat as i.
  induction Hl as [|x l Hx _ IH]; intros i; [now split|].
  destruct (skipped_entry_url x w Hx) as (url & Hget & Hurl).
  destruct (IH (S i)) as [IHt IHd].
  cbn [enumerate for_each fst snd]. split.
  - unfold bind at 1. unfold download_track at 1. unfold bind at 1.
    rewrite Hget, Hurl. cbn [negb]. unfold ret at 1. exact IHt.
  - unfold bind at 1. unfold download_document at 1. unfold bind at 1.
    rewrite Hget, Hurl. cbn [negb]. unfold ret at 1. exact IHd.
Qed.

(** X24. An item without tracks and documents leaves no trace on disk:
    nothing is created, requested or printed. But a list that is not empty
    has its directory made before its entries are looked at, so an item
    whose tracks all lack a [url] still gets an empty [audio] directory, and
    nothing else. *)
Theorem download_assets_without_urls (env : PyEnv) (prayer_dir : pystr)
    (prayer : pydict) (w : world) :
  py_truthy (dict_get (py "documents") prayer VNone) = false ->
  (py_truthy (dict_get (py "tracks") prayer VNone) = false ->
   download_assets_for_prayer env prayer_dir prayer w = (w, Ret tt))
  /\ (forall l f1,
        dict_get (py "tracks") prayer VNone = VList l ->
        l <> [] ->
        Forall skipped_entry l ->
        os_makedirs env (fs w) (path_join prayer_dir (py "audio")) = Some f1 ->
        download_assets_for_prayer env prayer_dir prayer w
        = (World f1 (trace w), Ret tt)).
Proof.
  intros Hdocs. split.
  - intros Htracks. unfold download_assets_for_prayer, py_or. cbv zeta.
    rewrite Htracks, Hdocs. reflexivity.
  - intros l f1 Htracks Hne Hl Hdirs.
    unfold download_assets_for_prayer, py_or. cbv zeta.
    rewrite Htracks, Hdocs.
    assert (Ht : py_truthy (VList l) = true) by (destruct l; [contradiction|reflexivity]).
    rewrite Ht. cbv iota. rewrite Ht. cbn [py_truthy].
    unfold bind at 1. unfold bind at 1. rewrite ensure_dir_eq, Hdirs.
    destruct (for_enumerate_skipped env (path_join prayer_dir (py "audio")) l
                (World f1 (trace w)) Hl) as [-> _].
    reflexivity.
Qed.

Lemma download_assets_without_urls_witness :
  exists f1,
    download_assets_for_prayer (Scenario.env true) Scenario.item_dir
      [ (VStr (py "tracks"),
         VList [ VDict [ (VStr (py "name"), VStr (py "a")) ]; VNone ]) ]
      Scenario.start
    = (World f1 (trace Scenario.start), Ret tt).
Proof.
  eexists.
  destruct (download_assets_without_urls (Scenario.env true) Scenario.item_dir
              [ (VStr (py "tracks"),
                 VList [ VDict [ (VStr (py "name"), VStr (py "a")) ]; VNone ]) ]
              Scenario.start eq_refl) as [_ H].
  eapply H.
  - reflexivity.
  - discriminate.
  - constructor; [right; eexists; split; reflexivity|].
    constructor; [left; reflexivity | constructor].
  - vm_compute. reflexivity.
Defined.
